(** * parablock: registry, content cache, generate-and-verify loop, dispatch

    A shallow embedding of the Python package [parablock]
    (registry.py, utils.py, test_runner.py, code_generator.py, processor.py,
    executor.py, decorator.py) and the properties of its synthesis / verify /
    cache / dispatch pipeline.

    Python dictionaries are finite maps ([gmap string _]), Python sets are
    [gset string], class-level attributes of [FunctionRegistry] and [Cache]
    are fields of explicit state records that every operation threads
    through.  Calls into the Python standard library and into the language
    model are parameters, collected in the classes [PythonRuntime],
    [InspectRuntime], [SynthesisOracle] and [LanguageModel]. *)

From Stdlib Require Import Ascii String.
From stdpp Require Import base gmap sets list strings pretty.

Local Open Scope string_scope.
Local Open Scope list_scope.
Local Open Scope nat_scope.

(** ** Python built-ins used by the package *)

Module Py.

Definition nl : string := String "010"%char "".

(** [s.startswith(p)] *)
Fixpoint startswith (s p : string) {struct p} : bool :=
  match p, s with
  | "", _ => true
  | String _ _, "" => false
  | String c p', String d s' => if decide (c = d) then startswith s' p' else false
  end.

(** [s.replace(old, new)] for one-character [old] and [new] *)
Fixpoint replace (old new : ascii) (s : string) : string :=
  match s with
  | "" => ""
  | String c s' => String (if decide (c = old) then new else c) (replace old new s')
  end.

(** [s.split(sep)] for a one-character separator *)
Fixpoint split (sep : ascii) (s : string) : list string :=
  match s with
  | "" => [""]
  | String c s' =>
      if decide (c = sep) then "" :: split sep s'
      else match split sep s' with
           | [] => [String c ""]
           | w :: ws => String c w :: ws
           end
  end.

(** [sep.join(l)] *)
Fixpoint join (sep : string) (l : list string) : string :=
  match l with
  | [] => ""
  | [x] => x
  | x :: l' => x +:+ sep +:+ join sep l'
  end.

(** [l[:-1]] *)
Definition but_last {A} (l : list A) : list A := take (length l - 1) l.

(** Truth value of an [Optional[str]]: [None] and the empty string are
    falsy. *)
Definition truthy (o : option string) : bool :=
  match o with
  | Some (String _ _) => true
  | _ => false
  end.

(** Truth value of a dictionary: the empty dictionary is falsy. *)
Definition truthy_dict {V} (o : option (gmap string V)) : bool :=
  match o with
  | Some d => negb (bool_decide (d = ∅))
  | None => false
  end.

(** The string methods that [CodeGenerator._extract_code] uses.  Characters
    are code points below 256. *)

(** [c.isspace()] *)
Definition isspace (c : ascii) : bool :=
  let n := nat_of_ascii c in
  (9 <=? n) && (n <=? 13) || (28 <=? n) && (n <=? 32) || (n =? 133) || (n =? 160).

(** [s.lstrip()], [s.rstrip()], [s.strip()] *)
Fixpoint lstrip (s : string) : string :=
  match s with
  | "" => ""
  | String c s' => if isspace c then lstrip s' else s
  end.

Fixpoint rstrip (s : string) : string :=
  match s with
  | "" => ""
  | String c s' =>
      match rstrip s' with
      | "" => if isspace c then "" else String c ""
      | r => String c r
      end
  end.

Definition strip (s : string) : string := rstrip (lstrip s).

(** [s.replace(old, new)] for a non-empty [old]: the occurrences are found
    from left to right and do not overlap.  [skip] counts the characters of
    the occurrence just replaced that are still to be passed over. *)
Fixpoint replace_from (old new : string) (skip : nat) (s : string) : string :=
  match s with
  | "" => ""
  | String c s' =>
      match skip with
      | S skip' => replace_from old new skip' s'
      | 0 =>
          if startswith s old
          then new +:+ replace_from old new (String.length old - 1) s'
          else String c (replace_from old new 0 s')
      end
  end.

Definition replace_str (old new s : string) : string := replace_from old new 0 s.

(** [s.endswith(p)] *)
Fixpoint endswith (s p : string) : bool :=
  bool_decide (s = p) ||
  match s with
  | "" => false
  | String _ s' => endswith s' p
  end.

(** [sub in s] *)
Fixpoint contains (s sub : string) : bool :=
  startswith s sub ||
  match s with
  | "" => false
  | String _ s' => contains s' sub
  end.

(** [s[n:]] *)
Fixpoint slice_from (n : nat) (s : string) : string :=
  match n, s with
  | S n', String _ s' => slice_from n' s'
  | _, _ => s
  end.

(** [min(l)]; [None] stands for the [ValueError] of an empty argument. *)
Definition min (l : list nat) : option nat :=
  match l with
  | [] => None
  | x :: l' => Some (foldr Nat.min x l')
  end.

Definition dquote : ascii := "034"%char.

End Py.

(** ** Function objects and their signatures

    [inspect.Signature] is used by the package through the ordered names of
    its parameters and through [str(signature)]. *)

Record Signature := {
  parameters : list string;
  sig_str : string;
}.

(** A decorated function as [inspect] and the attribute protocol show it. *)
Record PyFunction := {
  __module__ : string;
  __name__ : string;
  getdoc : option string;
  getsource : string;
  inspect_signature : Signature;
}.

(** Outcome of running a piece of Python source with [exec] and calling the
    entry point it defines.  An exception carries the frames and the final
    line that [traceback] prints for it.  Only runs that end, and only
    exceptions derived from [Exception], are represented: [SystemExit] and
    [KeyboardInterrupt] pass through every handler of the package and end
    the process. *)
Record PyException := {
  exc_frames : string;
  exc_line : string;
}.

Inductive PyOutcome :=
| Completed
| Raised (e : PyException).

(** [traceback.format_exc()] inside the handler of [e] *)
Definition format_exc (e : PyException) : string :=
  "Traceback (most recent call last):" +:+ Py.nl +:+ exc_frames e +:+ exc_line e +:+ Py.nl.

(** The standard-library calls the package makes. *)
Class PythonRuntime := {
  (** [hashlib.md5(s.encode()).hexdigest()] *)
  md5_hexdigest : string → string;
  (** [textwrap.dedent] and [textwrap.indent] *)
  textwrap_dedent : string → string;
  textwrap_indent : string → string → string;
  (** the [ast.parse] / [ast.unparse] round trip of
      [TestRunner.extract_test_code], for a text that [ast.parse] accepts:
      the statements of the function body after the docstring, one per
      line *)
  ast_body_after_docstring : string → string;
  (** [exec(source, {})] followed by a call of [run_test] from the resulting
      globals *)
  exec_and_run_test : string → PyOutcome;
}.

(** ** registry.py *)

Record FunctionMetadata := {
  func : PyFunction;
  name : string;
  module : string;
  source : string;
  docstring : string;
  signature : Signature;
  frozen : bool;
  implementation : option string;
}.

Definition get_full_name (md : FunctionMetadata) : string :=
  module md +:+ "." +:+ name md.

Definition set_implementation (impl : string) (md : FunctionMetadata) : FunctionMetadata :=
  {| func := func md; name := name md; module := module md; source := source md;
     docstring := docstring md; signature := signature md; frozen := frozen md;
     implementation := Some impl |}.

Module FunctionRegistry.

(** The three class attributes of [FunctionRegistry]. *)
Record state := {
  _registry : gmap string FunctionMetadata;
  _implementations : gmap string string;
  _needs_generation : gmap string bool;
}.

Definition empty : state :=
  {| _registry := ∅; _implementations := ∅; _needs_generation := ∅ |}.

Definition register (f : PyFunction) (nm mdl src doc : string) (sg : Signature)
    (frz : bool) (r : state) : state :=
  let full_name := mdl +:+ "." +:+ nm in
  {| _registry :=
       <[full_name := {| func := f; name := nm; module := mdl; source := src;
                         docstring := doc; signature := sg; frozen := frz;
                         implementation := None |}]> (_registry r);
     _implementations := _implementations r;
     _needs_generation := _needs_generation r |}.

(** [get_all] lists the entries in the canonical order of the finite map;
    CPython lists them in insertion order.  No statement below depends on
    the order. *)
Definition get_all (r : state) : list FunctionMetadata :=
  (map_to_list (_registry r)).*2.

Definition get (full_name : string) (r : state) : option FunctionMetadata :=
  _registry r !! full_name.

Definition store_implementation (full_name impl : string) (r : state) : state :=
  {| _registry := alter (set_implementation impl) full_name (_registry r);
     _implementations := <[full_name := impl]> (_implementations r);
     _needs_generation := _needs_generation r |}.

Definition get_implementation (full_name : string) (r : state) : option string :=
  match _implementations r !! full_name with
  | Some impl => Some impl
  | None =>
      match _registry r !! full_name with
      | Some md => if Py.truthy (implementation md) then implementation md else None
      | None => None
      end
  end.

Definition memoize (full_name : string) (b : bool) (r : state) : state :=
  {| _registry := _registry r;
     _implementations := _implementations r;
     _needs_generation := <[full_name := b]> (_needs_generation r) |}.

Definition clear_module (module_name : string) (r : state) : state :=
  {| _registry :=
       filter (λ kv, ¬ Py.startswith (module kv.2) module_name) (_registry r);
     _implementations :=
       filter (λ kv, ¬ Py.startswith kv.1 module_name) (_implementations r);
     _needs_generation :=
       filter (λ kv, ¬ Py.startswith kv.1 module_name) (_needs_generation r) |}.

Section hashing.
Context `{PythonRuntime}.

(** [FunctionMetadata.get_hash] *)
Definition get_hash (md : FunctionMetadata) : string :=
  md5_hexdigest (docstring md +:+ "|" +:+ sig_str (signature md)).

Definition needs_generation (full_name : string) (cached_hash : option string)
    (r : state) : bool * state :=
  match _needs_generation r !! full_name with
  | Some decision => (decision, r)
  | None =>
      match _registry r !! full_name with
      | None => (false, memoize full_name false r)
      | Some metadata =>
          if frozen metadata then (false, memoize full_name false r)
          else match cached_hash with
               | None => (true, memoize full_name true r)
               | Some h =>
                   let result := negb (bool_decide (get_hash metadata = h)) in
                   (result, memoize full_name result r)
               end
      end
  end.
End hashing.

End FunctionRegistry.

(** ** utils.py *)

(** A file of the cache directory: a JSON document holding one partition,
    or something [json.load] rejects. *)
Inductive CacheFile :=
| Partition (records : gmap string (gmap string string))
| Unreadable.

Module Cache.

(** The class attributes [_cache] and [_loaded_modules]. *)
Record state := {
  _cache : gmap string (gmap string string);
  _loaded_modules : gset string;
}.

Definition empty : state := {| _cache := ∅; _loaded_modules := ∅ |}.

Definition module_name_to_cache_file (module_name : string) : string :=
  Py.replace "." "_" module_name +:+ ".json".

(** The loop of [load] over the records read from the file. *)
Definition populate_registry (module_cache : gmap string (gmap string string))
    (r : FunctionRegistry.state) : FunctionRegistry.state :=
  map_fold (λ func_name cache_data r,
              match cache_data !! "implementation" with
              | Some impl => FunctionRegistry.store_implementation func_name impl r
              | None => r
              end) r module_cache.

Definition mark_loaded (module_name : string) (c : state) : state :=
  {| _cache := _cache c; _loaded_modules := {[module_name]} ∪ _loaded_modules c |}.

Definition load (module_name : string) (files : gmap string CacheFile)
    (c : state) (r : FunctionRegistry.state) : state * FunctionRegistry.state :=
  if decide (module_name ∈ _loaded_modules c) then (c, r)
  else match files !! module_name_to_cache_file module_name with
       | Some (Partition module_cache) =>
           (mark_loaded module_name
              {| _cache := module_cache ∪ _cache c;
                 _loaded_modules := _loaded_modules c |},
            populate_registry module_cache r)
       | Some Unreadable => (mark_loaded module_name c, r)
       | None => (mark_loaded module_name c, r)
       end.

(** [save] rewrites the file of the module; a failing write is reported and
    otherwise ignored by the source and is not modelled. *)
Definition save (module_name : string) (c : state) (files : gmap string CacheFile)
    : gmap string CacheFile :=
  let module_cache :=
    filter (λ kv, Py.startswith kv.1 (module_name +:+ ".")) (_cache c) in
  <[module_name_to_cache_file module_name := Partition module_cache]> files.

Definition get (func_name : string) (c : state) : option (gmap string string) :=
  _cache c !! func_name.

Definition store (func_name func_hash impl : string) (c : state) : state :=
  {| _cache := <[func_name := {[ "hash" := func_hash; "implementation" := impl ]}]>
                 (_cache c);
     _loaded_modules := _loaded_modules c |}.

End Cache.

Section hashing.
Context `{PythonRuntime}.

(** utils.py, [get_function_hash] *)
Definition get_function_hash (doc : string) (sg : Signature) : string :=
  md5_hexdigest (doc +:+ "|" +:+ sig_str sg).
End hashing.

(** ** test_runner.py *)

Module TestRunner.
Section with_runtime.
Context `{PythonRuntime}.

Definition extract_test_code (src : string) : string :=
  ast_body_after_docstring src.

(** The parameters of the generated callable: the declared ones without
    the reserved name [fn]. *)
Definition param_names (f : PyFunction) : list string :=
  filter (λ p, p ≠ "fn") (parameters (inspect_signature f)).

(** The source text that [run_test] builds from its template. *)
Definition test_func_source (f : PyFunction) (impl test_code : string) : string :=
  let impl := textwrap_dedent impl in
  let test_code := textwrap_dedent test_code in
  let params_str := Py.join ", " (param_names f) in
  let fn_params_str := Py.join ", " ("None" :: param_names f) in
  Py.nl +:+
  "def test_implementation(fn, " +:+ params_str +:+ "):" +:+ Py.nl +:+
  "    def implementation_func(" +:+ params_str +:+ "):" +:+ Py.nl +:+
  textwrap_indent impl "        " +:+ Py.nl +:+
  "        " +:+ Py.nl +:+
  "    return implementation_func(" +:+ params_str +:+ ")" +:+ Py.nl +:+
  Py.nl +:+
  "def run_test():" +:+ Py.nl +:+
  "    # Define a mock fn function that calls the implementation" +:+ Py.nl +:+
  "    def fn(" +:+ params_str +:+ "):" +:+ Py.nl +:+
  "        return test_implementation(" +:+ fn_params_str +:+ ")" +:+ Py.nl +:+
  "    " +:+ Py.nl +:+
  "    # Run the test code" +:+ Py.nl +:+
  textwrap_indent test_code "    " +:+ Py.nl +:+
  "    " +:+ Py.nl +:+
  "    return True  # If we got here, tests passed" +:+ Py.nl.

Definition run_test (f : PyFunction) (impl test_code : string)
    : bool * option string :=
  match exec_and_run_test (test_func_source f impl test_code) with
  | Completed => (true, None)
  | Raised e => (false, Some (format_exc e))
  end.
End with_runtime.
End TestRunner.

(** ** code_generator.py

    [CodeGenerator.generate_implementation] is the synthesis oracle.  It is
    taken at its interface: the request it receives, the pair
    [(success, implementation)] it returns, and the state of the service it
    talks to.  The prompt, the post-processing of the reply and the retries
    the method makes on its own when the service raises (up to three
    requests for one call) are inside the oracle; the module [CodeGenerator]
    below models them. *)

Record GenRequest := {
  req_name : string;
  req_docstring : string;
  req_signature : Signature;
  req_test_code : string;
  req_error_feedback : option string;
}.

Class SynthesisOracle (O : Type) :=
  generate_implementation : O → GenRequest → O * (bool * string).

(** One recorded oracle call: the function it was made for, what was asked
    and what came back.  The record is instrumentation, it plays the role of
    a call counter on a stub oracle. *)
Record OracleCall := {
  call_full_name : string;
  call_request : GenRequest;
  call_reply : bool * string;
}.

(** ** The process: registry, cache, cache directory, imported modules *)

(** A decorated definition in a module's source: [@parablock] or
    [@parablock(frozen=...)] over a [def]. *)
Record Declaration := {
  decl_name : string;
  decl_doc : option string;
  decl_source : string;
  decl_signature : Signature;
  decl_frozen : bool;
}.

Record World (O : Type) := {
  registry : FunctionRegistry.state;
  cache : Cache.state;
  files : gmap string CacheFile;
  sys_modules : gset string;
  module_sources : gmap string (list Declaration);
  oracle : O;
  oracle_calls : list OracleCall;
}.
Arguments registry {O} _.
Arguments cache {O} _.
Arguments files {O} _.
Arguments sys_modules {O} _.
Arguments module_sources {O} _.
Arguments oracle {O} _.
Arguments oracle_calls {O} _.

Section world.
Context {O : Type}.
Implicit Types w : World O.

Definition set_registry (r : FunctionRegistry.state) w : World O :=
  {| registry := r; cache := cache w; files := files w;
     sys_modules := sys_modules w; module_sources := module_sources w;
     oracle := oracle w; oracle_calls := oracle_calls w |}.

Definition set_cache (c : Cache.state) w : World O :=
  {| registry := registry w; cache := c; files := files w;
     sys_modules := sys_modules w; module_sources := module_sources w;
     oracle := oracle w; oracle_calls := oracle_calls w |}.

Definition set_files (fs : gmap string CacheFile) w : World O :=
  {| registry := registry w; cache := cache w; files := fs;
     sys_modules := sys_modules w; module_sources := module_sources w;
     oracle := oracle w; oracle_calls := oracle_calls w |}.

Definition set_sys_modules (ms : gset string) w : World O :=
  {| registry := registry w; cache := cache w; files := files w;
     sys_modules := ms; module_sources := module_sources w;
     oracle := oracle w; oracle_calls := oracle_calls w |}.

Definition set_module_sources (srcs : gmap string (list Declaration)) w : World O :=
  {| registry := registry w; cache := cache w; files := files w;
     sys_modules := sys_modules w; module_sources := srcs;
     oracle := oracle w; oracle_calls := oracle_calls w |}.

Definition record_call (o : O) (c : OracleCall) w : World O :=
  {| registry := registry w; cache := cache w; files := files w;
     sys_modules := sys_modules w; module_sources := module_sources w;
     oracle := o; oracle_calls := oracle_calls w ++ [c] |}.

(** A new process: nothing registered, nothing cached in memory, no module
    imported; the cache directory and the sources are what is on disk. *)
Definition fresh_process (fs : gmap string CacheFile)
    (srcs : gmap string (list Declaration)) (o : O) : World O :=
  {| registry := FunctionRegistry.empty; cache := Cache.empty; files := fs;
     sys_modules := ∅; module_sources := srcs; oracle := o; oracle_calls := [] |}.

(** [Cache.load] on the process state. *)
Definition cache_load (module_name : string) w : World O :=
  let '(c, r) := Cache.load module_name (files w) (cache w) (registry w) in
  set_registry r (set_cache c w).

(** [Cache.save] on the process state. *)
Definition cache_save (module_name : string) w : World O :=
  set_files (Cache.save module_name (cache w) (files w)) w.

(** [FunctionRegistry.clear_module] on the process state. *)
Definition clear_namespace (module_name : string) w : World O :=
  set_registry (FunctionRegistry.clear_module module_name (registry w)) w.

(** ** decorator.py *)

(** The function object a [def] in module [module_name] creates. *)
Definition define (module_name : string) (d : Declaration) : PyFunction :=
  {| __module__ := module_name; __name__ := decl_name d; getdoc := decl_doc d;
     getsource := decl_source d; inspect_signature := decl_signature d |}.

(** Declaration time: what [parablock] does before it returns the wrapper. *)
Definition parablock (f : PyFunction) (frz : bool) (r : FunctionRegistry.state)
    : FunctionRegistry.state :=
  FunctionRegistry.register f (__name__ f) (__module__ f) (getsource f)
    (default "" (getdoc f)) (inspect_signature f) frz r.

(** The entry that the decorator files for a definition of a module. *)
Definition declared (module_name : string) (d : Declaration) : FunctionMetadata :=
  {| func := define module_name d; name := decl_name d; module := module_name;
     source := decl_source d; docstring := default "" (decl_doc d);
     signature := decl_signature d; frozen := decl_frozen d;
     implementation := None |}.

(** Running the body of a module: its decorated definitions in order.
    Imports of other modules from the body are not modelled; those modules
    are imported by steps of their own. *)
Definition exec_module (module_name : string) (decls : list Declaration)
    (r : FunctionRegistry.state) : FunctionRegistry.state :=
  foldl (λ r d, parablock (define module_name d) (decl_frozen d) r) r decls.

(** [importlib.import_module]: a module already in [sys.modules] is not run
    again; [None] stands for [ModuleNotFoundError].  This is the import of
    the named module itself.  For a dotted name Python first imports the
    parent package when it is not in [sys.modules]: that is an import of its
    own, which comes before this one and whose effect stays when the import
    of the module then fails.  This function describes the call for a module
    whose parent package is imported already, or whose name has none. *)
Definition import_module (module_name : string) w : option (World O) :=
  if decide (module_name ∈ sys_modules w) then Some w
  else match module_sources w !! module_name with
       | None => None
       | Some decls =>
           Some (set_registry (exec_module module_name decls (registry w))
                   (set_sys_modules ({[module_name]} ∪ sys_modules w) w))
       end.

(** [importlib.reload] of a module that is in [sys.modules]. *)
Definition reload w (module_name : string) : option (World O) :=
  match module_sources w !! module_name with
  | None => None
  | Some decls => Some (set_registry (exec_module module_name decls (registry w)) w)
  end.

End world.

(** ** processor.py *)

(** What [process_module] reports for one function. *)
Inductive Outcome :=
| UsedCache
| NoCachedImplementation
| Generated
| GenerationFailed (error_msg : option string).

(** The branches that leave the [success] flag of the pass alone. *)
Definition succeeded (o : Outcome) : bool :=
  match o with
  | UsedCache | Generated => true
  | NoCachedImplementation | GenerationFailed _ => false
  end.

Module Processor.
Section with_runtime.
Context `{PythonRuntime} {O : Type} `{SynthesisOracle O}.
Implicit Types w : World O.

Definition max_attempts : nat := 3.

Definition generation_failed_message (attempt : nat) : string :=
  "Failed to generate implementation after " +:+ pretty (attempt + 1) +:+ " attempts".

(** The [for attempt in range(max_attempts)] loop of [_generate_and_test]:
    [remaining] iterations are left, the next one has index [attempt]. *)
Fixpoint attempts (remaining attempt : nat) (f : PyFunction)
    (nm doc : string) (sg : Signature) (test_code : string)
    (error_feedback : option string) w : World O * (bool * option string) :=
  match remaining with
  | 0 => (w, (false, error_feedback))
  | S remaining' =>
      let request :=
        {| req_name := nm; req_docstring := doc; req_signature := sg;
           req_test_code := test_code; req_error_feedback := error_feedback |} in
      let full_name := __module__ f +:+ "." +:+ nm in
      let '(o, reply) := generate_implementation (oracle w) request in
      let w := record_call o {| call_full_name := full_name;
                                call_request := request;
                                call_reply := reply |} w in
      let '(generation_success, impl) := reply in
      if negb generation_success
      then (w, (false, Some (generation_failed_message attempt)))
      else
        let '(test_success, test_error) := TestRunner.run_test f impl test_code in
        if test_success
        then (set_registry
                (FunctionRegistry.store_implementation full_name impl (registry w)) w,
              (true, None))
        else attempts remaining' (S attempt) f nm doc sg test_code test_error w
  end.

Definition _generate_and_test (f : PyFunction) (nm doc : string) (sg : Signature)
    (test_code : string) w : World O * (bool * option string) :=
  attempts max_attempts 0 f nm doc sg test_code None w.

(** [cache_entry.get("hash") if cache_entry else None] *)
Definition entry_hash (cache_entry : option (gmap string string)) : option string :=
  if Py.truthy_dict cache_entry then cache_entry ≫= (λ e, e !! "hash") else None.

(** The body of the [for func_metadata in functions] loop of
    [process_module]; the result names the branch taken, with the text
    of the error panel where there is one. *)
Definition process_function (func_metadata : FunctionMetadata) w
    : World O * Outcome :=
  let full_name := get_full_name func_metadata in
  let func_hash :=
    get_function_hash (docstring func_metadata) (signature func_metadata) in
  let cache_entry := Cache.get full_name (cache w) in
  let cached_hash := entry_hash cache_entry in
  let '(needs, r) :=
    FunctionRegistry.needs_generation full_name cached_hash (registry w) in
  let w := set_registry r w in
  if negb needs then
    if Py.truthy_dict cache_entry then
      let impl := default "" (cache_entry ≫= (λ e, e !! "implementation")) in
      (set_registry (FunctionRegistry.store_implementation full_name impl (registry w)) w,
       UsedCache)
    else (w, NoCachedImplementation)
  else
    let test_code := TestRunner.extract_test_code (source func_metadata) in
    let '(w, (implementation_success, error_msg)) :=
      _generate_and_test (func func_metadata) (name func_metadata)
        (docstring func_metadata) (signature func_metadata) test_code w in
    if implementation_success then
      match FunctionRegistry.get_implementation full_name (registry w) with
      | Some (String a impl) =>
          (set_cache (Cache.store full_name func_hash (String a impl) (cache w)) w,
           Generated)
      | _ => (w, Generated)
      end
    else (w, GenerationFailed error_msg).

(** One iteration of the loop, with the [success] flag it maintains. *)
Definition process_step (acc : World O * bool) (func_metadata : FunctionMetadata)
    : World O * bool :=
  let '(w, outcome) := process_function func_metadata acc.1 in
  (w, acc.2 && succeeded outcome).

Definition process_functions (functions : list FunctionMetadata) w
    : World O * bool :=
  foldl process_step (w, true) functions.

(** The functions of a module and of the modules below it. *)
Definition in_module (module_name : string) (md : FunctionMetadata) : bool :=
  bool_decide (module md = module_name)
  || Py.startswith (module md) (module_name +:+ ".").

(** [process_module].  A failing import is caught by the handler of the
    source, which returns [False]; with no function to process the source
    returns before the cache is saved.  The loop is the loop of the source
    for functions whose source text [TestRunner.extract_test_code] accepts.
    An exception raised inside the loop (by [ast.parse] on the indented
    source of a method, for one) reaches the same handler: the source then
    returns [False], leaves the remaining functions unprocessed and does not
    save the cache.  That path is outside this function. *)
Definition process_module (module_name : string) w : World O * bool :=
  match import_module module_name w with
  | None => (w, false)
  | Some w =>
      let w := cache_load module_name w in
      let functions :=
        filter (λ md, in_module module_name md)
               (FunctionRegistry.get_all (registry w)) in
      match functions with
      | [] => (w, true)
      | _ =>
          let '(w, success) := process_functions functions w in
          (cache_save module_name w, success)
      end
  end.

(** [FileChangeHandler._reload_module]: the exception of a failing reload
    is caught and reported, and the module is not processed. *)
Definition _reload_module (module_name : string) w : World O :=
  let w := clear_namespace module_name w in
  if decide (module_name ∈ sys_modules w) then
    match reload w module_name with
    | Some w => (process_module module_name w).1
    | None => w
    end
  else (process_module module_name w).1.

(** One iteration of the loop of [process_package], with its [success]
    flag. *)
Definition package_step (package_name : string) (acc : World O * bool)
    (module_path : string) : World O * bool :=
  let '(w, ok) := process_module (package_name +:+ "." +:+ module_path) acc.1 in
  (w, acc.2 && ok).

(** [process_package].  [module_paths] stands for what [_find_modules] makes
    of the directory tree of the package: the dotted relative path of every
    [.py] file that is not named [__init__.py]; [is_package] says whether the
    imported module has a [__path__].  A failing import is caught by the
    handler of the source, which returns [False]. *)
Definition process_package (package_name : string) (is_package : bool)
    (module_paths : list string) w : World O * bool :=
  match import_module package_name w with
  | None => (w, false)
  | Some w =>
      if negb is_package then (w, false)
      else foldl (package_step package_name) (w, true) module_paths
  end.

End with_runtime.
End Processor.

(** ** executor.py *)

Inductive CallResult (A : Type) :=
| RuntimeError (message : string)
| Executes (func_source : string) (args : A).
Arguments RuntimeError {A} _.
Arguments Executes {A} _ _.

Section executor.
Context `{PythonRuntime} {O : Type}.
Implicit Types w : World O.

Definition no_implementation_message (full_name : string) : string :=
  "No implementation available for " +:+ full_name +:+ ". " +:+
  "Run 'make process' to generate an implementation.".

Definition implementation_func_source (f : PyFunction) (impl : string) : string :=
  let params_str := Py.join ", " (TestRunner.param_names f) in
  Py.nl +:+ "def implementation_func(" +:+ params_str +:+ "):" +:+ Py.nl +:+
  textwrap_indent impl "   " +:+ Py.nl.

(** The module one level up: [".".join(module_name.split(".")[:-1])]. *)
Definition parent_module (module_name : string) : string :=
  Py.join "." (Py.but_last (Py.split "." module_name)).

(** The wrapper that [pararun] returns, applied to the caller's arguments.
    [Executes src args] stands for running [src] with [exec] and calling
    the function it defines with [args]. *)
Definition pararun {A} (f : PyFunction) (args : A) w : World O * CallResult A :=
  let full_name := __module__ f +:+ "." +:+ __name__ f in
  let module_name := __module__ f in
  let w := cache_load module_name w in
  let impl := FunctionRegistry.get_implementation full_name (registry w) in
  let '(w, impl) :=
    if Py.truthy impl then (w, impl)
    else
      let parent := parent_module module_name in
      if Py.truthy (Some parent) then
        let w := cache_load parent w in
        (w, FunctionRegistry.get_implementation full_name (registry w))
      else (w, impl) in
  match impl with
  | Some (String a s) => (w, Executes (implementation_func_source f (String a s)) args)
  | _ => (w, RuntimeError (no_implementation_message full_name))
  end.

(** decorator.py: the wrapper that stands for the declared function.  It
    calls [pararun(func)] with the caller's arguments and has no handler, so
    what [pararun] returns or raises is what the caller gets. *)
Definition wrapper {A} (f : PyFunction) (args : A) w : World O * CallResult A :=
  pararun f args w.

(** decorator.py, [wrapper.peek]: the implementation text of the function,
    or a message when the registry resolves none after the cache of the
    function's module is loaded.  The panel it prints is not modelled. *)
Definition could_not_find_implementation : string := "Could not find implementation".

Definition peek (f : PyFunction) w : World O * string :=
  let module_name := __module__ f in
  let full_name := module_name +:+ "." +:+ __name__ f in
  let w := cache_load module_name w in
  match FunctionRegistry.get_implementation full_name (registry w) with
  | Some (String a s) => (w, String a s)
  | _ => (w, could_not_find_implementation)
  end.

End executor.

(** ** Executions of the package

    The states a process goes through: it starts with empty class
    attributes, imports modules, runs processing passes, reloads modules on
    file changes, serves calls of declared functions; in between, the sources
    on disk are edited. *)

(** Function names are Python identifiers: they hold no dot. *)
Fixpoint dot_free (s : string) : bool :=
  match s with
  | "" => true
  | String c s' => negb (bool_decide (c = "."%char)) && dot_free s'
  end.

Definition well_named (decls : list Declaration) : Prop :=
  Forall (λ d, dot_free (decl_name d)) decls.

(** Module names without an underscore. *)
Fixpoint underscore_free (s : string) : bool :=
  match s with
  | "" => true
  | String c s' => negb (bool_decide (c = "_"%char)) && underscore_free s'
  end.

Section executions.
Context `{PythonRuntime} {O : Type} `{SynthesisOracle O}.

Inductive reachable : World O → Prop :=
| reach_fresh fs srcs o :
    map_Forall (λ _ decls, well_named decls) srcs →
    reachable (fresh_process fs srcs o)
| reach_import module_name w w' :
    reachable w → import_module module_name w = Some w' → reachable w'
| reach_process module_name w :
    reachable w → reachable (Processor.process_module module_name w).1
| reach_reload module_name w :
    reachable w → reachable (Processor._reload_module module_name w)
| reach_call (f : PyFunction) (args : list string) w :
    reachable w → reachable (wrapper f args w).1
| reach_peek (f : PyFunction) w :
    reachable w → reachable (peek f w).1
| reach_edit module_name decls w :
    reachable w → well_named decls →
    reachable (set_module_sources (<[module_name := decls]> (module_sources w)) w).

(** An entry without what generation adds to it: the specification as it
    was declared. *)
Definition declared_part (md : FunctionMetadata) : FunctionMetadata :=
  {| func := func md; name := name md; module := module md; source := source md;
     docstring := docstring md; signature := signature md; frozen := frozen md;
     implementation := None |}.

Definition specs (r : FunctionRegistry.state) : gmap string FunctionMetadata :=
  declared_part <$> FunctionRegistry._registry r.

(** Every entry is filed under the full name of the function it describes,
    as the decorator registers it. *)
Definition entries_consistent (r : FunctionRegistry.state) : Prop :=
  ∀ k md, FunctionRegistry._registry r !! k = Some md →
    k = get_full_name md ∧ __module__ (func md) = module md ∧
    __name__ (func md) = name md ∧ dot_free (name md).

(** A memoized decision to generate belongs to a registered function that
    is not frozen. *)
Definition memo_sound (r : FunctionRegistry.state) : Prop :=
  ∀ k, FunctionRegistry._needs_generation r !! k = Some true →
    ∃ md, FunctionRegistry._registry r !! k = Some md ∧ frozen md = false.

Definition entries_imported (w : World O) : Prop :=
  ∀ k md, FunctionRegistry._registry (registry w) !! k = Some md →
    module md ∈ sys_modules w.

Definition sources_well_named (w : World O) : Prop :=
  map_Forall (λ _ decls, well_named decls) (module_sources w).

Definition invariant (w : World O) : Prop :=
  entries_consistent (registry w) ∧ memo_sound (registry w) ∧
  entries_imported w ∧ sources_well_named w.

(** The recorded calls were answered by the oracle one after the other,
    starting in state [o] and leaving it in state [o']. *)
Fixpoint answered_in_turn (o : O) (calls : list OracleCall) (o' : O) : Prop :=
  match calls with
  | [] => o' = o
  | c :: rest =>
      call_reply c = (generate_implementation o (call_request c)).2 ∧
      answered_in_turn (generate_implementation o (call_request c)).1 rest o'
  end.

(** The calls of one run of the retry loop for [f]: the first is made with
    [feedback]; every call that has a successor returned a candidate that the
    harness rejected, and the successor is made with that diagnostic. *)
Fixpoint feedback_chain (f : PyFunction) (test_code : string)
    (feedback : option string) (calls : list OracleCall) : Prop :=
  match calls with
  | [] => True
  | c :: rest =>
      req_error_feedback (call_request c) = feedback ∧
      match rest with
      | [] => True
      | _ :: _ =>
          ∃ impl diagnostic,
            call_reply c = (true, impl) ∧
            TestRunner.run_test f impl test_code = (false, diagnostic) ∧
            feedback_chain f test_code diagnostic rest
      end
  end.

(** The cache holds a usable record for the entry: a record that is not
    empty and, unless the function is frozen, carries the hash of the
    specification. *)
Definition up_to_date (c : Cache.state) (md : FunctionMetadata) : Prop :=
  ∃ entry, Cache.get (get_full_name md) c = Some entry ∧ entry ≠ ∅ ∧
           (frozen md = true ∨
            entry !! "hash" = Some (get_function_hash (docstring md) (signature md))).

(** The implementation text that [process_module] reads from a record. *)
Definition cached_implementation (c : Cache.state) (full_name : string) : string :=
  default "" (Cache.get full_name c ≫= (λ e, e !! "implementation")).

(** The state in which the pass of a reload starts. *)
Definition reloaded (module_name : string) (decls : list Declaration)
    (w : World O) : World O :=
  set_registry
    (exec_module module_name decls
       (FunctionRegistry.clear_module module_name (registry w)))
    (clear_namespace module_name w).

(** The harness rejects the empty implementation of the function (in
    Python a [def] with no body does not compile). *)
Definition rejects_empty (md : FunctionMetadata) : Prop :=
  (TestRunner.run_test (func md) "" (TestRunner.extract_test_code (source md))).1
  = false.

(** Two definitions with the same specification: name, docstring, signature
    and frozen flag.  The bodies, which hold the tests, may differ. *)
Definition same_specification (d d' : Declaration) : Prop :=
  decl_name d = decl_name d' ∧ decl_doc d = decl_doc d' ∧
  decl_signature d = decl_signature d' ∧ decl_frozen d = decl_frozen d'.

End executions.

(** ** code_generator.py, inside the oracle

    The method behind the oracle interface: the prompt it builds, the
    requests it sends to the language model, and what it makes of the
    reply. *)

(** One entry of the list that [_extract_param_info] returns. *)
Record ParamInfo := {
  param_name : string;
  param_type : string;
  param_default : option string;
}.

(** What the method reads from an [inspect.Signature] beyond the names of
    the parameters: [str(param.annotation)], [str(param.default)] where the
    parameter has a default, [str(signature.return_annotation)]. *)
Class InspectRuntime := {
  annotation_str : Signature → string → string;
  default_str : Signature → string → option string;
  return_annotation_str : Signature → string;
}.

(** [CodeGenerator._call_llm]: the chat completion request.  The reply is
    the content of the first choice, or the text [str(e)] of the exception
    that the request raised. *)
Class LanguageModel (L : Type) :=
  _call_llm : L → string → L * (string + string).

Module CodeGenerator.

Definition triple_quote : string :=
  String Py.dquote (String Py.dquote (String Py.dquote "")).

(** The index after the first line that ends the signature, [0] when there
    is none. *)
Definition signature_end (lines : list string) : nat :=
  match list_find (λ line, Py.endswith (Py.strip line) ":") lines with
  | Some (i, _) => S i
  | None => 0
  end.

(** The index after the line that closes the docstring, when the line at
    [start_index] opens one and a later line closes it. *)
Definition docstring_end (lines : list string) (start_index : nat) : nat :=
  match lines !! start_index with
  | Some line =>
      if Py.contains (Py.strip line) triple_quote then
        match list_find (λ l, Py.contains l triple_quote)
                        (drop (S start_index) lines) with
        | Some (j, _) => S (S start_index + j)
        | None => start_index
        end
      else start_index
  | None => start_index
  end.

(** [len(line) - len(line.lstrip())] *)
Definition indentation (line : string) : nat :=
  String.length line - String.length (Py.lstrip line).

(** [not line.strip()] *)
Definition blank (line : string) : bool := bool_decide (Py.strip line = "").

(** The removal of the common indentation of the body lines. *)
Definition dedent (body_lines : list string) : option (list string) :=
  match body_lines with
  | [] => Some []
  | _ =>
      min_indent ← Py.min (indentation <$> filter (λ line, ¬ blank line) body_lines);
      Some ((λ line, if blank line then line else Py.slice_from min_indent line)
              <$> body_lines)
  end.

(** [_extract_code]; [None] stands for the [ValueError] that [min] raises
    on an empty argument. *)
Definition _extract_code (response : string) : option string :=
  let code :=
    Py.strip (Py.replace_str "```" "" (Py.replace_str "```python" "" response)) in
  if Py.startswith code "def " then
    let lines := Py.split "010" code in
    let start_index := docstring_end lines (signature_end lines) in
    body_lines ← dedent (drop start_index lines);
    Some (Py.join Py.nl body_lines)
  else Some code.

(** The text of the [ValueError] of [min]. *)
Definition min_error : string := "min() arg is an empty sequence".

Section with_runtime.
Context `{InspectRuntime} {L : Type} `{LanguageModel L}.

Definition _extract_param_info (sg : Signature) : list ParamInfo :=
  (λ n, {| param_name := n; param_type := annotation_str sg n;
           param_default := default_str sg n |})
    <$> filter (λ n, n ≠ "fn") (parameters sg).

Definition param_line (param : ParamInfo) : string :=
  let default_info :=
    if Py.truthy (param_default param)
    then " (default: " +:+ default "" (param_default param) +:+ ")"
    else "" in
  "- " +:+ param_name param +:+ ": " +:+ param_type param +:+ default_info +:+ Py.nl.

Definition error_section (error_feedback : option string) : string :=
  if Py.truthy error_feedback then
    Py.nl +:+ "Previous Error:" +:+ Py.nl +:+
    default "" error_feedback +:+ Py.nl +:+
    Py.nl +:+
    "Please fix the issues mentioned in the error." +:+ Py.nl
  else "".

Definition _create_prompt (nm doc : string) (param_info : list ParamInfo)
    (return_type test_code : string) (error_feedback : option string) : string :=
  let param_names_str := Py.join ", " (param_name <$> param_info) in
  (Py.nl +:+
   "Generate a Python function implementation based on the following details:" +:+ Py.nl +:+
   Py.nl +:+
   "Function Name: " +:+ nm +:+ Py.nl +:+
   Py.nl +:+
   "Docstring:" +:+ Py.nl +:+
   doc +:+ Py.nl +:+
   Py.nl +:+
   "Parameters:" +:+ Py.nl) +:+
  foldr (λ param rest, param_line param +:+ rest) "" param_info +:+
  (Py.nl +:+
   "Return Type: " +:+ return_type +:+ Py.nl +:+
   Py.nl +:+
   "Test Code:" +:+ Py.nl +:+
   test_code +:+ Py.nl) +:+
  error_section error_feedback +:+
  (Py.nl +:+
   "Generate only the function implementation code without including the function signature or docstring." +:+ Py.nl +:+
   "The code should be correct, efficient, and handle edge cases appropriately." +:+ Py.nl +:+
   "Do not include any comments, explanations, or test code in the implementation." +:+ Py.nl +:+
   "Only provide the code that will be used as the function body." +:+ Py.nl +:+
   Py.nl +:+
   "IMPORTANT: Your code will be indented and placed inside a function that looks like:" +:+ Py.nl +:+
   "def implementation_func(" +:+ param_names_str +:+ "):" +:+ Py.nl +:+
   "    # YOUR CODE GOES HERE" +:+ Py.nl +:+
   "    " +:+ Py.nl +:+
   "Your implementation should directly use the named parameters (" +:+ param_names_str +:+ ")." +:+ Py.nl +:+
   "Do not use args or kwargs in your implementation as the parameters will be passed by name." +:+ Py.nl).

(** The [while attempts < max_retries and not success] loop of
    [generate_implementation] with [remaining] iterations left. *)
Fixpoint generate_loop (remaining : nat) (nm doc : string)
    (param_info : list ParamInfo) (return_type test_code : string)
    (error_feedback : option string) (l : L) : L * (bool * string) :=
  match remaining with
  | 0 => (l, (false, ""))
  | S remaining' =>
      let prompt :=
        _create_prompt nm doc param_info return_type test_code error_feedback in
      match _call_llm l prompt with
      | (l, inl response) =>
          match _extract_code response with
          | Some implementation => (l, (true, implementation))
          | None =>
              generate_loop remaining' nm doc param_info return_type test_code
                (Some min_error) l
          end
      | (l, inr e) =>
          generate_loop remaining' nm doc param_info return_type test_code (Some e) l
      end
  end.

(** [n] requests in a row that all raise, the first of them made with
    [error_feedback]: the state of the model and the feedback that the loop
    holds afterwards.  Each request carries the text of the exception that
    the request before it raised. *)
Fixpoint failed_requests (n : nat) (nm doc : string)
    (param_info : list ParamInfo) (return_type test_code : string)
    (error_feedback : option string) (l : L) : option (L * option string) :=
  match n with
  | 0 => Some (l, error_feedback)
  | S n' =>
      let prompt :=
        _create_prompt nm doc param_info return_type test_code error_feedback in
      match _call_llm l prompt with
      | (l, inr e) =>
          failed_requests n' nm doc param_info return_type test_code (Some e) l
      | (_, inl _) => None
      end
  end.

Definition max_retries : nat := 3.

Definition generate_implementation (l : L) (request : GenRequest)
    : L * (bool * string) :=
  generate_loop max_retries (req_name request) (req_docstring request)
    (_extract_param_info (req_signature request))
    (return_annotation_str (req_signature request))
    (req_test_code request) (req_error_feedback request) l.

(** The method as the oracle of the processor. *)
Definition as_oracle : SynthesisOracle L := generate_implementation.

End with_runtime.
End CodeGenerator.

(** ** A stub runtime and stub oracles for concrete runs *)

Module Scenario.

(** [sub in s] *)
Fixpoint occurs (sub s : string) : bool :=
  Py.startswith s sub ||
  match s with
  | "" => false
  | String _ s' => occurs sub s'
  end.

Definition assertion_error : PyException :=
  {| exc_frames := "  File <string>, in run_test" +:+ Py.nl;
     exc_line := "AssertionError" |}.

(** A harness that accepts exactly the bodies that double [n]. *)
Definition runtime : PythonRuntime :=
  {| md5_hexdigest s := "md5(" +:+ s +:+ ")";
     textwrap_dedent s := s;
     textwrap_indent s prefix := prefix +:+ s;
     ast_body_after_docstring _ := "assert fn(3) == 6";
     exec_and_run_test src :=
       if occurs "return n * 2" src then Completed else Raised assertion_error |}.

(** An oracle that counts its calls and always answers with the doubling
    body. *)
Definition counting_oracle : SynthesisOracle nat :=
  λ calls _, (S calls, (true, "return n * 2")).

(** An oracle that is wrong on its first call and right afterwards. *)
Definition second_time_right : SynthesisOracle nat :=
  λ calls _, (S calls, (true, if decide (calls = 0) then "return n" else "return n * 2")).

(** An oracle whose service is down. *)
Definition unavailable : SynthesisOracle nat :=
  λ calls _, (S calls, (false, "")).

Definition double_signature : Signature :=
  {| parameters := ["fn"; "n"]; sig_str := "(fn, n)" |}.

Definition double : Declaration :=
  {| decl_name := "double"; decl_doc := Some "double the input";
     decl_source := "def double(fn, n): assert fn(3) == 6";
     decl_signature := double_signature; decl_frozen := false |}.

Definition double_frozen : Declaration :=
  {| decl_name := "double"; decl_doc := Some "double the input, pinned";
     decl_source := "def double(fn, n): assert fn(3) == 6";
     decl_signature := double_signature; decl_frozen := true |}.

(** A new process with the module [demo] on disk and an empty cache
    directory. *)
Definition start : World nat :=
  fresh_process ∅ {[ "demo" := [double] ]} 0.

(** A new process whose cache directory holds a partition for [demo] with
    an implementation of an earlier version of [double]. *)
Definition start_frozen : World nat :=
  fresh_process
    {[ "demo.json" :=
         Partition {[ "demo.double" :=
                        {[ "hash" := "stale"; "implementation" := "return n + n" ]} ]} ]}
    {[ "demo" := [double_frozen] ]} 0.

(** A process that has loaded the cache of [demo] and holds, next to the
    functions of [demo], a function of the module [demo2] with an
    implementation. *)
Definition neighbours : World nat :=
  set_cache (Cache.mark_loaded "demo" Cache.empty)
    (set_registry
       (FunctionRegistry.store_implementation "demo2.double" "return n * 2"
          (exec_module "demo2" [double]
             (exec_module "demo" [double] FunctionRegistry.empty)))
       start).

(** Signatures without annotations and without defaults. *)
Definition inspect : InspectRuntime :=
  {| annotation_str _ _ := "<class 'inspect._empty'>";
     default_str _ _ := None;
     return_annotation_str _ := "<class 'inspect._empty'>" |}.

(** A language model whose requests all raise; its state counts them. *)
Definition outage : LanguageModel nat :=
  λ requests _, (S requests, inr "Connection error.").

(** A language model that answers with the doubling body inside a fence. *)
Definition fenced_reply : LanguageModel nat :=
  λ requests _,
    (S requests,
     inl ("```python" +:+ Py.nl +:+ "return n * 2" +:+ Py.nl +:+ "```")).

(** A process that has imported [demo]. *)
Definition imported : World nat :=
  set_registry (exec_module "demo" [double] FunctionRegistry.empty)
    (set_sys_modules {[ "demo" ]} start).

(** A process that has the package [pkg] with the module [pkg.mod] on disk;
    both declare [double]. *)
Definition start_package : World nat :=
  fresh_process ∅ {[ "pkg" := [double]; "pkg.mod" := [double] ]} 0.

Definition triple : Declaration :=
  {| decl_name := "triple"; decl_doc := Some "triple the input";
     decl_source := "def triple(fn, n): assert fn(3) == 9";
     decl_signature := double_signature; decl_frozen := false |}.

(** A new process that finds the cache directory left by a pass over [demo]
    in [start]; in the meantime [triple] has been added to the module. *)
Definition start_extended : World nat :=
  fresh_process
    {[ "demo.json" :=
         Partition {[ "demo.double" :=
                        {[ "hash" := "md5(double the input|(fn, n))";
                           "implementation" := "return n * 2" ]} ]} ]}
    {[ "demo" := [double; triple] ]} 0.

(** A new process with a frozen [double] and an empty cache directory. *)
Definition start_frozen_new : World nat :=
  fresh_process ∅ {[ "demo" := [double_frozen] ]} 0.

(** [double] with a test that no doubling passes. *)
Definition double_retested : Declaration :=
  {| decl_name := "double"; decl_doc := Some "double the input";
     decl_source := "def double(fn, n): assert fn(3) == 7";
     decl_signature := double_signature; decl_frozen := false |}.

End Scenario.

(** * Properties *)

(** ** Strings *)

Lemma string_app_cons (c : ascii) (s t : string) :
  String c s +:+ t = String c (s +:+ t).
Proof. reflexivity. Qed.

Lemma string_app_nil_r (s : string) : s +:+ "" = s.
Proof. induction s as [|c s IH]; [done | by rewrite string_app_cons, IH]. Qed.

Lemma string_app_assoc (a b c : string) : (a +:+ b) +:+ c = a +:+ (b +:+ c).
Proof. induction a as [|x a IH]; [done | by rewrite !string_app_cons, IH]. Qed.

Lemma startswith_spec (s p : string) :
  Py.startswith s p ↔ ∃ rest, s = p +:+ rest.
Proof.
  revert s. induction p as [|c p IH]; intros s.
  - split; [intros _; exists s; reflexivity | done].
  - destruct s as [|d s]; simpl.
    + split; [done | intros [rest Hrest]; discriminate].
    + destruct (decide (c = d)) as [->|Hne].
      * rewrite IH. split; intros [rest Hrest]; exists rest.
        -- by rewrite string_app_cons, Hrest.
        -- rewrite string_app_cons in Hrest. by injection Hrest.
      * split; [done |].
        intros [rest Hrest]. rewrite string_app_cons in Hrest.
        injection Hrest; congruence.
Qed.

Lemma startswith_refl (s : string) : Py.startswith s s.
Proof. apply startswith_spec. exists "". by rewrite string_app_nil_r. Qed.

Lemma startswith_app (s t p : string) :
  Py.startswith s p → Py.startswith (s +:+ t) p.
Proof.
  rewrite !startswith_spec. intros [rest ->]. exists (rest +:+ t).
  apply string_app_assoc.
Qed.

Lemma startswith_trans (s p q : string) :
  Py.startswith s p → Py.startswith p q → Py.startswith s q.
Proof.
  rewrite !startswith_spec. intros [r1 ->] [r2 ->]. exists (r2 +:+ r1).
  apply string_app_assoc.
Qed.

(** A name that starts with [ns.] starts with [ns]. *)
Lemma startswith_dotted (s ns : string) :
  Py.startswith s (ns +:+ ".") → Py.startswith s ns.
Proof.
  intros Hs. eapply startswith_trans; [exact Hs |].
  apply startswith_app, startswith_refl.
Qed.

Lemma in_module_startswith (ns : string) (md : FunctionMetadata) :
  Processor.in_module ns md → Py.startswith (module md) ns.
Proof.
  unfold Processor.in_module. intros [Heq | Hpre]%orb_True.
  - apply bool_decide_unpack in Heq as ->. apply startswith_refl.
  - by apply startswith_dotted.
Qed.

(** ** Specification hash *)

Lemma string_app_length (s t : string) :
  String.length (s +:+ t) = String.length s + String.length t.
Proof. induction s as [|c s IH]; [done | rewrite string_app_cons; simpl; by rewrite IH]. Qed.

Lemma string_app_inv_r (s1 s2 t : string) : s1 +:+ t = s2 +:+ t → s1 = s2.
Proof.
  revert s2. induction s1 as [|c s1 IH]; intros [|d s2] Heq; try done.
  - change (t = String d (s2 +:+ t)) in Heq.
    apply (f_equal String.length) in Heq.
    simpl in Heq. rewrite string_app_length in Heq. lia.
  - change (String c (s1 +:+ t) = t) in Heq.
    apply (f_equal String.length) in Heq.
    simpl in Heq. rewrite string_app_length in Heq. lia.
  - rewrite !string_app_cons in Heq. injection Heq as -> Heq. f_equal. by apply IH.
Qed.

Section hash_properties.
Context `{PythonRuntime}.

(** The registry and the processor compute the same hash. *)
Lemma get_hash_function_hash (md : FunctionMetadata) :
  FunctionRegistry.get_hash md = get_function_hash (docstring md) (signature md).
Proof. reflexivity. Qed.

(** The hash is taken of the docstring and the rendered signature, and of
    nothing else of the entry. *)
Lemma get_hash_same_spec (md md' : FunctionMetadata) :
  docstring md = docstring md' → sig_str (signature md) = sig_str (signature md') →
  FunctionRegistry.get_hash md = FunctionRegistry.get_hash md'.
Proof. unfold FunctionRegistry.get_hash. by intros -> ->. Qed.

(** The text that is hashed changes with every change of the docstring and
    with every change of the rendered signature. *)
Lemma hash_input_docstring (doc doc' : string) (sg : Signature) :
  doc +:+ "|" +:+ sig_str sg = doc' +:+ "|" +:+ sig_str sg → doc = doc'.
Proof. apply string_app_inv_r. Qed.

Lemma hash_input_signature (doc : string) (sg sg' : Signature) :
  doc +:+ "|" +:+ sig_str sg = doc +:+ "|" +:+ sig_str sg' → sig_str sg = sig_str sg'.
Proof. intros Heq. by do 2 apply (inj (String.app _)) in Heq. Qed.

End hash_properties.

(** ** Registry *)

Lemma get_implementation_store (full_name impl : string) (r : FunctionRegistry.state) :
  FunctionRegistry.get_implementation full_name
    (FunctionRegistry.store_implementation full_name impl r) = Some impl.
Proof.
  unfold FunctionRegistry.get_implementation, FunctionRegistry.store_implementation.
  simpl. by rewrite lookup_insert_eq.
Qed.

Lemma get_implementation_store_ne (k full_name impl : string) (r : FunctionRegistry.state) :
  k ≠ full_name →
  FunctionRegistry.get_implementation k
    (FunctionRegistry.store_implementation full_name impl r)
  = FunctionRegistry.get_implementation k r.
Proof.
  intros Hne.
  unfold FunctionRegistry.get_implementation, FunctionRegistry.store_implementation.
  simpl. rewrite lookup_insert_ne by done.
  rewrite lookup_alter. by destruct (decide (full_name = k)) as [->|].
Qed.

(** What [Cache.load] leaves in the side table of implementations. *)
Lemma populate_registry_implementations
    (module_cache : gmap string (gmap string string)) (r : FunctionRegistry.state)
    (k : string) :
  FunctionRegistry._implementations (Cache.populate_registry module_cache r) !! k
  = match module_cache !! k ≫= (λ e, e !! "implementation") with
    | Some impl => Some impl
    | None => FunctionRegistry._implementations r !! k
    end.
Proof.
  unfold Cache.populate_registry.
  apply (map_fold_weak_ind
    (λ (r' : FunctionRegistry.state) (m : gmap string (gmap string string)),
       FunctionRegistry._implementations r' !! k
       = match m !! k ≫= (λ e, e !! "implementation") with
         | Some impl => Some impl
         | None => FunctionRegistry._implementations r !! k
         end)).
  - by rewrite lookup_empty.
  - intros i x m r' Hi IH.
    destruct (decide (i = k)) as [->|Hne].
    + rewrite lookup_insert_eq. simpl.
      destruct (x !! "implementation") as [impl|] eqn:Hx.
      * simpl. by rewrite lookup_insert_eq.
      * rewrite IH, Hi. done.
    + rewrite lookup_insert_ne by done.
      destruct (x !! "implementation") as [impl|]; [|done].
      simpl. by rewrite lookup_insert_ne.
Qed.

Lemma populate_registry_memo
    (module_cache : gmap string (gmap string string)) (r : FunctionRegistry.state) :
  FunctionRegistry._needs_generation (Cache.populate_registry module_cache r)
  = FunctionRegistry._needs_generation r.
Proof.
  unfold Cache.populate_registry.
  apply (map_fold_weak_ind
    (λ (r' : FunctionRegistry.state) (_ : gmap string (gmap string string)),
       FunctionRegistry._needs_generation r' = FunctionRegistry._needs_generation r)).
  - done.
  - intros i x m r' _ IH. by destruct (x !! "implementation").
Qed.

Section registry_properties.
Context `{PythonRuntime}.

Lemma needs_generation_memoized (full_name : string) (h : option string)
    (r : FunctionRegistry.state) (d : bool) :
  FunctionRegistry._needs_generation r !! full_name = Some d →
  FunctionRegistry.needs_generation full_name h r = (d, r).
Proof. intros Hd. unfold FunctionRegistry.needs_generation. by rewrite Hd. Qed.

(** After any call the decision is in the memo, and only the memo
    changed. *)
Lemma needs_generation_memoizes (full_name : string) (h : option string)
    (r r' : FunctionRegistry.state) (d : bool) :
  FunctionRegistry.needs_generation full_name h r = (d, r') →
  FunctionRegistry._needs_generation r' !! full_name = Some d ∧
  FunctionRegistry._registry r' = FunctionRegistry._registry r ∧
  FunctionRegistry._implementations r' = FunctionRegistry._implementations r ∧
  ∀ k, k ≠ full_name →
    FunctionRegistry._needs_generation r' !! k
    = FunctionRegistry._needs_generation r !! k.
Proof.
  unfold FunctionRegistry.needs_generation.
  destruct (FunctionRegistry._needs_generation r !! full_name) as [d0|] eqn:Hmemo.
  { intros [= <- <-]. done. }
  assert (∀ b, FunctionRegistry._needs_generation
                 (FunctionRegistry.memoize full_name b r) !! full_name = Some b)
    as Hset by (intros b; simpl; apply lookup_insert_eq).
  assert (∀ b k, k ≠ full_name →
            FunctionRegistry._needs_generation
              (FunctionRegistry.memoize full_name b r) !! k
            = FunctionRegistry._needs_generation r !! k)
    as Hother by (intros b k Hk; simpl; by rewrite lookup_insert_ne).
  destruct (FunctionRegistry._registry r !! full_name) as [md|].
  - destruct (frozen md).
    + intros [= <- <-]. eauto.
    + destruct h as [h|]; intros [= <- <-]; eauto.
  - intros [= <- <-]. eauto.
Qed.

(** C3.  [needs_generation] returns the memoized decision when there is
    one for the full name.  Otherwise the decision is [false] for an
    unregistered or a frozen function, [true] when no cached hash is given,
    and otherwise says whether the hash of the specification differs from
    the cached hash; the decision is then memoized under the full name and
    nothing else changes.  Every later call returns the same decision,
    whatever hash it is given, also after other registry operations, until
    [clear_module] removes it. *)
Theorem needs_generation_contract (full_name : string) (cached_hash : option string)
    (r r' : FunctionRegistry.state) (decision : bool) :
  FunctionRegistry.needs_generation full_name cached_hash r = (decision, r') →
  (∀ d, FunctionRegistry._needs_generation r !! full_name = Some d →
        decision = d ∧ r' = r) ∧
  (FunctionRegistry._needs_generation r !! full_name = None →
     (FunctionRegistry._registry r !! full_name = None → decision = false) ∧
     (∀ md, FunctionRegistry._registry r !! full_name = Some md →
            frozen md = true → decision = false) ∧
     (∀ md, FunctionRegistry._registry r !! full_name = Some md →
            frozen md = false → cached_hash = None → decision = true) ∧
     (∀ md h, FunctionRegistry._registry r !! full_name = Some md →
              frozen md = false → cached_hash = Some h →
              (decision = true ↔ FunctionRegistry.get_hash md ≠ h)) ∧
     r' = FunctionRegistry.memoize full_name decision r) ∧
  FunctionRegistry._needs_generation r' !! full_name = Some decision ∧
  (∀ h, FunctionRegistry.needs_generation full_name h r' = (decision, r')) ∧
  (∀ k impl h,
     FunctionRegistry.needs_generation full_name h
       (FunctionRegistry.store_implementation k impl r')
     = (decision, FunctionRegistry.store_implementation k impl r')) ∧
  (∀ module_name, Py.startswith full_name module_name →
     FunctionRegistry._needs_generation
       (FunctionRegistry.clear_module module_name r') !! full_name = None).
Proof.
  intros Hcall.
  pose proof (needs_generation_memoizes _ _ _ _ _ Hcall) as (Hmemo & _ & _ & _).
  split_and!.
  - intros d Hd. rewrite (needs_generation_memoized _ _ _ _ Hd) in Hcall.
    by injection Hcall as <- <-.
  - intros Hnone. revert Hcall. unfold FunctionRegistry.needs_generation.
    rewrite Hnone.
    destruct (FunctionRegistry._registry r !! full_name) as [md|] eqn:Hreg.
    + destruct (frozen md) eqn:Hfrozen.
      * intros [= <- <-]. split_and!; try done. all: intros; simplify_eq; congruence.
      * destruct cached_hash as [h|]; intros [= <- <-].
        -- split_and!; try done.
           all: intros; simplify_eq; try congruence.
           by rewrite negb_true_iff, bool_decide_eq_false.
        -- split_and!; try done. all: intros; simplify_eq; congruence.
    + intros [= <- <-]. split_and!; try done.
  - done.
  - intros h. by apply needs_generation_memoized.
  - intros k impl h. by apply needs_generation_memoized.
  - intros module_name Hpre. simpl.
    apply map_lookup_filter_None. right. intros d _ Hnot. by apply Hnot.
Qed.

End registry_properties.

Lemma needs_generation_contract_witness :
  let r := parablock (define "demo" Scenario.double) false FunctionRegistry.empty in
  let r' := FunctionRegistry.memoize "demo.double" true r in
  FunctionRegistry.needs_generation (H := Scenario.runtime)
    "demo.double" (Some "stale") r = (true, r') ∧
  FunctionRegistry._needs_generation r' !! "demo.double" = Some true ∧
  FunctionRegistry.needs_generation (H := Scenario.runtime)
    "demo.double" None r' = (true, r').
Proof.
  intros r r'.
  assert (FunctionRegistry.needs_generation (H := Scenario.runtime)
            "demo.double" (Some "stale") r = (true, r')) as Hcall
    by (vm_compute; reflexivity).
  pose proof (needs_generation_contract (H := Scenario.runtime)
                "demo.double" (Some "stale") r r' true Hcall)
    as (_ & _ & Hmemo & Hlater & _).
  split; [exact Hcall |]. split; [exact Hmemo | exact (Hlater None)].
Defined.

(** ** Cache *)

Lemma load_implementations (module_name : string) (files : gmap string CacheFile)
    (c : Cache.state) (r : FunctionRegistry.state)
    (records : gmap string (gmap string string)) (k : string) :
  module_name ∉ Cache._loaded_modules c →
  files !! Cache.module_name_to_cache_file module_name = Some (Partition records) →
  FunctionRegistry._implementations (Cache.load module_name files c r).2 !! k
  = match records !! k ≫= (λ e, e !! "implementation") with
    | Some impl => Some impl
    | None => FunctionRegistry._implementations r !! k
    end.
Proof.
  intros Hnew Hfile. unfold Cache.load.
  rewrite decide_False by done. rewrite Hfile. simpl.
  apply populate_registry_implementations.
Qed.

(** C10.  An implementation stored under a full name is what
    [get_implementation] returns for that name, whether or not the name is
    registered: it is kept in a table of its own.  So an implementation that
    a cache load reads from the partition file is resolvable afterwards,
    without a declaration of the function and also when the declaration
    comes after the load. *)
Theorem stored_implementation_is_resolvable :
  (∀ (full_name impl : string) (r : FunctionRegistry.state),
     FunctionRegistry.get_implementation full_name
       (FunctionRegistry.store_implementation full_name impl r) = Some impl) ∧
  (∀ (full_name impl : string) (r : FunctionRegistry.state),
     FunctionRegistry._registry r !! full_name = None →
     FunctionRegistry._registry
       (FunctionRegistry.store_implementation full_name impl r) !! full_name = None ∧
     FunctionRegistry.get_implementation full_name
       (FunctionRegistry.store_implementation full_name impl r) = Some impl) ∧
  (∀ (module_name : string) (files : gmap string CacheFile) (c : Cache.state)
     (r : FunctionRegistry.state) (records : gmap string (gmap string string))
     (full_name impl : string) (entry : gmap string string),
     module_name ∉ Cache._loaded_modules c →
     files !! Cache.module_name_to_cache_file module_name = Some (Partition records) →
     records !! full_name = Some entry →
     entry !! "implementation" = Some impl →
     FunctionRegistry.get_implementation full_name
       (Cache.load module_name files c r).2 = Some impl ∧
     ∀ f frz, FunctionRegistry.get_implementation full_name
                (parablock f frz (Cache.load module_name files c r).2) = Some impl).
Proof.
  split_and!.
  - apply get_implementation_store.
  - intros full_name impl r Hunreg. split; [| apply get_implementation_store].
    simpl. rewrite lookup_alter, decide_True by done. by rewrite Hunreg.
  - intros module_name files c r records full_name impl entry Hnew Hfile Hrec Himpl.
    assert (FunctionRegistry._implementations (Cache.load module_name files c r).2
              !! full_name = Some impl) as Hside.
    { rewrite (load_implementations _ _ _ _ records) by done.
      by rewrite Hrec; simpl; rewrite Himpl. }
    split; [| intros f frz]; unfold FunctionRegistry.get_implementation.
    + by rewrite Hside.
    + change (FunctionRegistry._implementations
                (parablock f frz (Cache.load module_name files c r).2))
        with (FunctionRegistry._implementations (Cache.load module_name files c r).2).
      by rewrite Hside.
Qed.

Lemma stored_implementation_is_resolvable_witness :
  FunctionRegistry._registry FunctionRegistry.empty !! "demo.double" = None ∧
  FunctionRegistry.get_implementation "demo.double"
    (Cache.load "demo" (files Scenario.start_frozen) Cache.empty
       FunctionRegistry.empty).2 = Some "return n + n".
Proof.
  split; [reflexivity |].
  destruct stored_implementation_is_resolvable as (_ & _ & Hload).
  refine (proj1 (Hload "demo" (files Scenario.start_frozen) Cache.empty
                   FunctionRegistry.empty
                   {[ "demo.double" :=
                        {[ "hash" := "stale"; "implementation" := "return n + n" ]} ]}
                   "demo.double" "return n + n"
                   {[ "hash" := "stale"; "implementation" := "return n + n" ]}
                   _ _ _ _)).
  - apply not_elem_of_empty.
  - vm_compute. reflexivity.
  - vm_compute. reflexivity.
  - vm_compute. reflexivity.
Defined.

(** The file name of a partition does not tell [a.b] from [a_b]. *)
Lemma cache_file_collision :
  Cache.module_name_to_cache_file "a.b" = Cache.module_name_to_cache_file "a_b".
Proof. reflexivity. Qed.

(** C8.  Saving a namespace modifies the persisted partition of another
    namespace: the file name replaces every dot by an underscore, so [a.b]
    and [a_b] have one file.  With the record of [a.b.f] persisted there,
    saving the namespace [a_b] rewrites the file and the record is lost. *)
Lemma save_rewrites_partition_of_other_namespace :
  let record := {[ "hash" := "h"; "implementation" := "return 1" ]} in
  let files : gmap string CacheFile :=
    {[ "a_b.json" := Partition {[ "a.b.f" := record ]} ]} in
  "a.b" ≠ "a_b" ∧
  files !! Cache.module_name_to_cache_file "a.b"
    = Some (Partition {[ "a.b.f" := record ]}) ∧
  Cache.save "a_b" Cache.empty files !! Cache.module_name_to_cache_file "a.b"
    = Some (Partition ∅).
Proof. split_and!; [discriminate | reflexivity | by vm_compute]. Qed.

Section cache_properties.
Context {O : Type}.
Implicit Types w : World O.

(** What holds of a save in terms of files.  Saving a namespace replaces the
    content of that namespace's cache file by exactly the in-memory records
    whose full name starts with the namespace followed by a dot (the records
    of the namespace and of the namespaces nested in it); no record without
    that prefix is written there.  Every other file of the cache directory is
    left as it was, and so are the in-memory store and the registry. *)
Theorem save_writes_only_namespace_records (module_name : string) w :
  (∃ written,
     files (cache_save module_name w)
       !! Cache.module_name_to_cache_file module_name = Some (Partition written) ∧
     (∀ k e, written !! k = Some e ↔
             Cache._cache (cache w) !! k = Some e ∧
             Py.startswith k (module_name +:+ ".")) ∧
     (∀ k e, written !! k = Some e → Py.startswith k module_name)) ∧
  (∀ path, path ≠ Cache.module_name_to_cache_file module_name →
     files (cache_save module_name w) !! path = files w !! path) ∧
  cache (cache_save module_name w) = cache w ∧
  registry (cache_save module_name w) = registry w.
Proof.
  split_and!; try done.
  - eexists. split; [apply lookup_insert_eq |].
    assert (∀ k e,
      filter (λ kv : string * gmap string string,
                Py.startswith kv.1 (module_name +:+ "."))
             (Cache._cache (cache w)) !! k = Some e ↔
      Cache._cache (cache w) !! k = Some e ∧ Py.startswith k (module_name +:+ "."))
      as Hfilter by (intros k e; apply map_lookup_filter_Some).
    split; [exact Hfilter |].
    intros k e [_ Hpre]%Hfilter. by apply startswith_dotted.
  - intros path Hpath. simpl. unfold Cache.save. by rewrite lookup_insert_ne.
Qed.

End cache_properties.

Lemma save_writes_only_namespace_records_witness :
  files (cache_save "demo" Scenario.start_frozen) !! "other.json"
  = files Scenario.start_frozen !! "other.json".
Proof.
  destruct (save_writes_only_namespace_records "demo" Scenario.start_frozen)
    as (_ & Hframe & _).
  apply Hframe. discriminate.
Defined.

(** ** Clearing a namespace *)

Lemma parablock_registry (f : PyFunction) (frz : bool) (r : FunctionRegistry.state) :
  FunctionRegistry._registry (parablock f frz r)
  = <[__module__ f +:+ "." +:+ __name__ f :=
        {| func := f; name := __name__ f; module := __module__ f;
           source := getsource f; docstring := default "" (getdoc f);
           signature := inspect_signature f; frozen := frz;
           implementation := None |}]> (FunctionRegistry._registry r).
Proof. reflexivity. Qed.

Lemma exec_module_cons (module_name : string) (d : Declaration)
    (decls : list Declaration) (r : FunctionRegistry.state) :
  exec_module module_name (d :: decls) r
  = exec_module module_name decls (parablock (define module_name d) (decl_frozen d) r).
Proof. reflexivity. Qed.

(** An entry found after a module has run was there before or comes from
    one of the module's definitions. *)
Lemma exec_module_lookup (module_name : string) (decls : list Declaration)
    (r : FunctionRegistry.state) (k : string) (md : FunctionMetadata) :
  FunctionRegistry._registry (exec_module module_name decls r) !! k = Some md →
  FunctionRegistry._registry r !! k = Some md ∨
  ∃ d, d ∈ decls ∧ k = module_name +:+ "." +:+ decl_name d ∧
       md = declared module_name d.
Proof.
  revert r. induction decls as [|d decls IH]; intros r; [by left |].
  rewrite exec_module_cons. intros [Hold | (d' & Hin & Hk & Hmd)]%IH.
  - rewrite parablock_registry in Hold.
    apply lookup_insert_Some in Hold as [[<- <-] | [_ Hold]].
    + right. exists d. split; [apply list_elem_of_here | done].
    + by left.
  - right. exists d'. split; [by apply list_elem_of_further | done].
Qed.

Lemma exec_module_tables (module_name : string) (decls : list Declaration)
    (r : FunctionRegistry.state) :
  FunctionRegistry._implementations (exec_module module_name decls r)
    = FunctionRegistry._implementations r ∧
  FunctionRegistry._needs_generation (exec_module module_name decls r)
    = FunctionRegistry._needs_generation r.
Proof.
  revert r. induction decls as [|d decls IH]; intros r; [done |].
  rewrite exec_module_cons. by destruct (IH (parablock (define module_name d) (decl_frozen d) r)).
Qed.

(** C7, as stated, fails: clearing [demo] leaves the loaded flag of [demo]
    in the cache, and it removes the entry and the implementation of
    [demo2.double], a function of another namespace. *)
Lemma clear_keeps_loaded_flag_and_drops_neighbour :
  let w := Scenario.neighbours in
  let w' := clear_namespace "demo" w in
  "demo" ∈ Cache._loaded_modules (cache w) ∧
  "demo" ∈ Cache._loaded_modules (cache w') ∧
  (module <$> FunctionRegistry._registry (registry w) !! "demo2.double") = Some "demo2" ∧
  FunctionRegistry._registry (registry w') !! "demo2.double" = None ∧
  FunctionRegistry.get_implementation "demo2.double" (registry w) = Some "return n * 2" ∧
  FunctionRegistry.get_implementation "demo2.double" (registry w') = None.
Proof.
  split_and!; by vm_compute.
Qed.

Section clear_properties.
Context {O : Type}.
Implicit Types w : World O.

(** C7, amended.  Clearing a namespace removes every registry entry of the
    namespace and of the namespaces nested in it, and every stored
    implementation and memoized decision whose full name starts with the
    namespace followed by a dot.  Entries whose module name, and
    implementations and decisions whose full name, do not start with the
    namespace are unchanged.  The cache, with its loaded flags and its
    records, and the cache directory are not touched.  When the module is
    declared again after the clear, the entries of the namespace are exactly
    what the current declarations file: nothing of an earlier version is
    left. *)
Theorem clear_module_effect (module_name : string) w :
  (∀ k md, FunctionRegistry._registry (registry w) !! k = Some md →
     Processor.in_module module_name md →
     FunctionRegistry._registry (registry (clear_namespace module_name w)) !! k = None) ∧
  (∀ k, Py.startswith k (module_name +:+ ".") →
     FunctionRegistry._implementations (registry (clear_namespace module_name w)) !! k
       = None ∧
     FunctionRegistry._needs_generation (registry (clear_namespace module_name w)) !! k
       = None) ∧
  (∀ k md, FunctionRegistry._registry (registry w) !! k = Some md →
     ¬ Py.startswith (module md) module_name →
     FunctionRegistry._registry (registry (clear_namespace module_name w)) !! k
       = Some md) ∧
  (∀ k, ¬ Py.startswith k module_name →
     FunctionRegistry._implementations (registry (clear_namespace module_name w)) !! k
       = FunctionRegistry._implementations (registry w) !! k ∧
     FunctionRegistry._needs_generation (registry (clear_namespace module_name w)) !! k
       = FunctionRegistry._needs_generation (registry w) !! k) ∧
  cache (clear_namespace module_name w) = cache w ∧
  files (clear_namespace module_name w) = files w ∧
  (∀ decls k md,
     FunctionRegistry._registry
       (exec_module module_name decls (registry (clear_namespace module_name w))) !! k
       = Some md →
     Processor.in_module module_name md →
     ∃ d, d ∈ decls ∧ md = declared module_name d).
Proof.
  split_and!; try done.
  - intros k md Hk Hin%in_module_startswith. simpl.
    apply map_lookup_filter_None. right. intros md' Hk' Hnot.
    rewrite Hk in Hk'. injection Hk' as <-. by apply Hnot.
  - intros k Hpre%startswith_dotted. simpl.
    split; apply map_lookup_filter_None; right; intros x _ Hnot; by apply Hnot.
  - intros k md Hk Hnot. simpl. by apply map_lookup_filter_Some.
  - intros k Hnot. simpl. split.
    + destruct (FunctionRegistry._implementations (registry w) !! k) as [x|] eqn:Hx.
      * by apply map_lookup_filter_Some.
      * apply map_lookup_filter_None. by left.
    + destruct (FunctionRegistry._needs_generation (registry w) !! k) as [x|] eqn:Hx.
      * by apply map_lookup_filter_Some.
      * apply map_lookup_filter_None. by left.
  - intros decls k md [Hold | (d & Hin & _ & ->)]%exec_module_lookup Hmod.
    + simpl in Hold. apply map_lookup_filter_Some in Hold as [_ Hnot].
      destruct Hnot. by apply in_module_startswith.
    + by exists d.
Qed.

End clear_properties.

Lemma clear_module_effect_witness :
  FunctionRegistry._registry
    (registry (clear_namespace "demo" Scenario.neighbours)) !! "demo.double" = None.
Proof.
  destruct (clear_module_effect "demo" Scenario.neighbours) as (Hgone & _).
  apply (Hgone "demo.double" (declared "demo" Scenario.double)).
  - vm_compute. reflexivity.
  - vm_compute. exact I.
Defined.

(** ** Verification harness *)

Lemma format_exc_nonempty (e : PyException) : format_exc e ≠ "".
Proof. unfold format_exc. discriminate. Qed.

Section harness_properties.
Context `{PythonRuntime}.

Lemma run_test_failure_has_diagnostic (f : PyFunction) (impl test_code : string)
    (test_error : option string) :
  TestRunner.run_test f impl test_code = (false, test_error) →
  ∃ d, test_error = Some d ∧ d ≠ "".
Proof.
  unfold TestRunner.run_test.
  destruct (exec_and_run_test _) as [|e]; [discriminate |].
  intros [= <-]. eauto using format_exc_nonempty.
Qed.


End harness_properties.


(** ** Dispatch *)

Lemma split_nonempty (sep : ascii) (s : string) : Py.split sep s ≠ [].
Proof.
  destruct s as [|c s]; simpl; [done |].
  destruct (decide (c = sep)); [done |]. by destruct (Py.split sep s).
Qed.

Lemma join_cons (sep x : string) (l : list string) :
  l ≠ [] → Py.join sep (x :: l) = x +:+ sep +:+ Py.join sep l.
Proof. by destruct l. Qed.

Lemma join_split (s : string) : Py.join "." (Py.split "." s) = s.
Proof.
  induction s as [|c s IH]; simpl; [done |].
  destruct (decide (c = "."%char)) as [->|Hc].
  - rewrite join_cons by apply split_nonempty. by rewrite IH.
  - pose proof (split_nonempty "." s) as Hne.
    destruct (Py.split "." s) as [|w ws]; [done |].
    destruct ws as [|w' ws].
    + simpl in *. by rewrite IH.
    + rewrite join_cons by done. rewrite join_cons in IH by done.
      by rewrite string_app_cons, IH.
Qed.

Lemma split_dot_free (s : string) : dot_free s → Py.split "." s = [s].
Proof.
  induction s as [|c s IH]; simpl; [done |].
  intros [Hc Hs]%andb_True. apply negb_True in Hc.
  rewrite decide_False by (intros ->; apply Hc; by apply bool_decide_pack).
  by rewrite IH.
Qed.

Lemma split_dotted (p n : string) :
  dot_free n → Py.split "." (p +:+ "." +:+ n) = Py.split "." p ++ [n].
Proof.
  intros Hn. induction p as [|c p IH].
  - change (Py.split "." (String "." n) = [""; n]). simpl.
    by rewrite (split_dot_free n).
  - rewrite string_app_cons. simpl. rewrite IH.
    destruct (decide (c = "."%char)); [done |].
    pose proof (split_nonempty "." p) as Hne.
    by destruct (Py.split "." p).
Qed.

(** The parent of [p.n] is [p], and a module without a dot has no parent. *)
Lemma parent_module_dotted (p n : string) :
  dot_free n → parent_module (p +:+ "." +:+ n) = p.
Proof.
  intros Hn. unfold parent_module, Py.but_last.
  rewrite split_dotted by done.
  rewrite length_app, Nat.add_sub. simpl.
  rewrite take_app_length. apply join_split.
Qed.

Lemma parent_module_top (n : string) : dot_free n → parent_module n = "".
Proof. intros Hn. unfold parent_module. by rewrite split_dot_free. Qed.

Section dispatch_properties.
Context `{PythonRuntime} {O : Type}.
Implicit Types w : World O.

(** C9.  A call of a declared function first loads the cache of the
    function's module and, if that leaves no implementation, the cache of the
    module one level up.  When no implementation results (none, or an empty
    text), the call ends in [RuntimeError] with the message that names the
    function and says how to generate an implementation; no function body is
    built or run, and the state is the one after the cache loads. *)
Theorem pararun_without_implementation {A : Type} (f : PyFunction) (args : A) w :
  let full_name := __module__ f +:+ "." +:+ __name__ f in
  let w1 := cache_load (__module__ f) w in
  let w2 := cache_load (parent_module (__module__ f)) w1 in
  Py.truthy (FunctionRegistry.get_implementation full_name (registry w1)) = false →
  (parent_module (__module__ f) ≠ "" →
   Py.truthy (FunctionRegistry.get_implementation full_name (registry w2)) = false) →
  (wrapper f args w).2
    = RuntimeError
        ("No implementation available for " +:+ full_name +:+ ". " +:+
         "Run 'make process' to generate an implementation.") ∧
  (∀ src a, (wrapper f args w).2 ≠ Executes src a) ∧
  (wrapper f args w).1 = (if decide (parent_module (__module__ f) = "") then w1 else w2).
Proof.
  intros full_name w1 w2 Hfirst Hsecond. unfold wrapper.
  assert ((pararun f args w).2 = RuntimeError (no_implementation_message full_name) ∧
          (pararun f args w).1
          = (if decide (parent_module (__module__ f) = "") then w1 else w2))
    as [Hres Hstate].
  { unfold pararun. fold full_name. fold w1. rewrite Hfirst.
    destruct (parent_module (__module__ f)) as [|c parent] eqn:Hparent; simpl.
    - destruct (FunctionRegistry.get_implementation full_name (registry w1))
        as [[|a s]|]; done.
    - fold w2. specialize (Hsecond ltac:(done)).
      destruct (FunctionRegistry.get_implementation full_name (registry w2))
        as [[|a s]|]; done. }
  split_and!; [exact Hres | | exact Hstate].
  intros src a. by rewrite Hres.
Qed.

(** With an implementation in place the call builds the function from it. *)
Lemma pararun_with_implementation {A : Type} (f : PyFunction) (args : A) w
    (a : ascii) (s : string) :
  let full_name := __module__ f +:+ "." +:+ __name__ f in
  FunctionRegistry.get_implementation full_name
    (registry (cache_load (__module__ f) w)) = Some (String a s) →
  (pararun f args w).2 = Executes (implementation_func_source f (String a s)) args.
Proof. intros full_name Himpl. unfold pararun. fold full_name. by rewrite Himpl. Qed.

End dispatch_properties.

Lemma pararun_without_implementation_witness :
  (wrapper (H := Scenario.runtime) (define "demo" Scenario.double) [3] Scenario.start).2
  = RuntimeError
      ("No implementation available for demo.double. " +:+
       "Run 'make process' to generate an implementation.").
Proof.
  apply (pararun_without_implementation (H := Scenario.runtime)
           (define "demo" Scenario.double) [3] Scenario.start).
  - vm_compute. reflexivity.
  - vm_compute. intros _. reflexivity.
Defined.

(** ** The generate-and-verify loop *)

Section loop_properties.
Context `{PythonRuntime} {O : Type} `{SynthesisOracle O}.
Implicit Types w : World O.

(** What one run of the loop does, for any number of remaining attempts. *)
Arguments TestRunner.run_test : simpl never.
Arguments Processor.generation_failed_message : simpl never.

Ltac split_spec :=
  split; [| split; [| split; [| split; [| split; [| split; [| split]]]]]].

Lemma attempts_spec (remaining attempt : nat) (f : PyFunction) (nm doc : string)
    (sg : Signature) (test_code : string) (feedback : option string) w w'
    (ok : bool) (err : option string) :
  Processor.attempts remaining attempt f nm doc sg test_code feedback w
    = (w', (ok, err)) →
  ∃ new,
    oracle_calls w' = oracle_calls w ++ new ∧
    length new ≤ remaining ∧
    (0 < remaining → 0 < length new) ∧
    Forall (λ c, call_full_name c = __module__ f +:+ "." +:+ nm) new ∧
    answered_in_turn (oracle w) new (oracle w') ∧
    feedback_chain f test_code feedback new ∧
    (cache w' = cache w ∧ files w' = files w ∧ sys_modules w' = sys_modules w ∧
     module_sources w' = module_sources w) ∧
    match last new with
    | None => ok = false ∧ err = feedback ∧ registry w' = registry w
    | Some c =>
        match call_reply c with
        | (false, _) =>
            ok = false ∧
            err = Some (Processor.generation_failed_message (attempt + length new - 1)) ∧
            registry w' = registry w
        | (true, impl) =>
            match TestRunner.run_test f impl test_code with
            | (true, _) =>
                ok = true ∧ err = None ∧
                registry w'
                = FunctionRegistry.store_implementation
                    (__module__ f +:+ "." +:+ nm) impl (registry w)
            | (false, diagnostic) =>
                ok = false ∧ err = diagnostic ∧ length new = remaining ∧
                registry w' = registry w
            end
        end
    end.
Proof.
  revert attempt feedback w.
  induction remaining as [|remaining IH]; intros attempt feedback w; simpl.
  { intros [= <- <- <-]. exists []. rewrite app_nil_r. simpl.
    split_and!; try done; lia. }
  set (request := {| req_name := nm; req_docstring := doc; req_signature := sg;
                     req_test_code := test_code; req_error_feedback := feedback |}).
  destruct (generate_implementation (oracle w) request) as [o [success impl]] eqn:Hgen.
  set (c := {| call_full_name := __module__ f +:+ "." +:+ nm;
               call_request := request; call_reply := (success, impl) |}).
  assert (∀ rest o', answered_in_turn o rest o' →
                     answered_in_turn (oracle w) (c :: rest) o') as Hanswered.
  { intros rest o' Hrest. simpl. by rewrite Hgen. }
  destruct success; cbv beta iota; cbn [negb].
  - destruct (TestRunner.run_test f impl test_code) as [passed diagnostic] eqn:Htest.
    destruct passed.
    + intros [= <- <- <-]. exists [c]. split_spec.
      * done.
      * simpl; lia.
      * simpl; lia.
      * by apply Forall_singleton.
      * by apply Hanswered.
      * done.
      * done.
      * subst c. cbn [last call_reply]. by rewrite Htest.
    + intros Hrest. apply IH in Hrest
        as (new & Hcalls & Hlen & Hpos & Htags & Hanswers & Hchain & Hframe & Hlast).
      exists (c :: new). split_spec.
      * rewrite Hcalls. simpl. by rewrite <- app_assoc.
      * simpl; lia.
      * simpl; lia.
      * by apply Forall_cons.
      * by apply Hanswered.
      * simpl. split; [done |]. destruct new; [done |]. by exists impl, diagnostic.
      * done.
      * destruct new as [|c' new].
        -- subst c. cbn [last call_reply]. rewrite Htest.
           cbn [last] in Hlast. destruct Hlast as (-> & -> & ->).
           split_and!; try done. destruct remaining; [reflexivity |].
           specialize (Hpos ltac:(lia)). simpl in Hpos. lia.
        -- change (last (c :: c' :: new)) with (last (c' :: new)).
           destruct (last (c' :: new)) as [cl|] eqn:Hcl;
             [| by apply last_None in Hcl].
           destruct (call_reply cl) as [[] impl'].
           ++ destruct (TestRunner.run_test f impl' test_code) as [[] d'].
              ** done.
              ** destruct Hlast as (? & ? & Hfull & ?). split_and!; try done.
                 simpl in *. lia.
           ++ destruct Hlast as (? & -> & ?). split_and!; try done.
              do 2 f_equal. simpl. lia.
  - intros [= <- <- <-]. exists [c]. split_spec.
    + done.
    + simpl; lia.
    + simpl; lia.
    + by apply Forall_singleton.
    + by apply Hanswered.
    + done.
    + done.
    + subst c. cbn [last call_reply]. split_and!; try done.
      do 2 f_equal. simpl. lia.
Qed.

(** C2.  For a function that needs generation, one pass makes between one
    and three oracle calls, all for that function and answered in turn.  The
    first call carries no feedback; every later call carries the diagnostic
    of the harness for the candidate before it.  The calls end with the first
    candidate that passes, which is then the implementation of the registry
    and, with the hash of the specification, the record of the cache; or with
    an oracle failure, reported as a failure of the function; or with a third
    rejected candidate, reported as a failure with the diagnostic of that
    last attempt. *)
Theorem generation_protocol (md : FunctionMetadata) w w' (outcome : Outcome) :
  let full_name := get_full_name md in
  let test_code := TestRunner.extract_test_code (source md) in
  let func_hash := get_function_hash (docstring md) (signature md) in
  __module__ (func md) = module md →
  (FunctionRegistry.needs_generation full_name
     (Processor.entry_hash (Cache.get full_name (cache w))) (registry w)).1 = true →
  Processor.process_function md w = (w', outcome) →
  ∃ new,
    oracle_calls w' = oracle_calls w ++ new ∧
    1 ≤ length new ≤ 3 ∧
    Forall (λ c, call_full_name c = full_name) new ∧
    answered_in_turn (oracle w) new (oracle w') ∧
    feedback_chain (func md) test_code None new ∧
    match last new with
    | None => False
    | Some c =>
        match call_reply c with
        | (false, _) =>
            outcome = GenerationFailed
                        (Some (Processor.generation_failed_message (length new - 1))) ∧
            cache w' = cache w ∧
            FunctionRegistry._implementations (registry w')
            = FunctionRegistry._implementations (registry w)
        | (true, impl) =>
            match TestRunner.run_test (func md) impl test_code with
            | (true, _) =>
                outcome = Generated ∧
                FunctionRegistry.get_implementation full_name (registry w') = Some impl ∧
                (impl ≠ "" →
                 Cache.get full_name (cache w')
                 = Some {[ "hash" := func_hash; "implementation" := impl ]})
            | (false, diagnostic) =>
                length new = 3 ∧
                outcome = GenerationFailed diagnostic ∧
                cache w' = cache w ∧
                FunctionRegistry._implementations (registry w')
                = FunctionRegistry._implementations (registry w)
            end
        end
    end.
Proof.
  intros full_name test_code func_hash Hconsistent Hneeds.
  unfold Processor.process_function. fold full_name test_code func_hash.
  destruct (FunctionRegistry.needs_generation full_name
              (Processor.entry_hash (Cache.get full_name (cache w))) (registry w))
    as [needs r] eqn:Hdecision.
  simpl in Hneeds. subst needs. cbn [negb].
  apply needs_generation_memoizes in Hdecision as (_ & _ & Himpls & _).
  unfold Processor._generate_and_test.
  destruct (Processor.attempts Processor.max_attempts 0 (func md) (name md)
              (docstring md) (signature md) test_code None (set_registry r w))
    as [w1 [ok err]] eqn:Hloop.
  apply attempts_spec in Hloop
    as (new & Hcalls & Hlen & Hpos & Htags & Hanswers & Hchain & Hframe & Hlast).
  destruct Hframe as (Hcache & _).
  rewrite Hconsistent in Htags, Hlast. fold (get_full_name md) in Htags, Hlast.
  fold full_name in Htags, Hlast.
  specialize (Hpos ltac:(unfold Processor.max_attempts; lia)).
  unfold Processor.max_attempts in Hlen.
  destruct (last new) as [c|] eqn:Hc; [| apply last_None in Hc; subst new; simpl in Hpos; lia].
  intros Hresult. exists new. rewrite Hc.
  assert (ok = false → w' = w1 ∧ outcome = GenerationFailed err) as Hfailed.
  { intros ->. by injection Hresult as <- <-. }
  assert (oracle_calls w' = oracle_calls w1 ∧ oracle w' = oracle w1) as [Hsame Hstate].
  { destruct ok;
      [destruct (FunctionRegistry.get_implementation full_name (registry w1))
         as [[|a impl]|] |];
      by injection Hresult as <- <-. }
  rewrite Hsame, Hstate.
  split; [done |]. split; [lia |]. split; [done |]. split; [done |]. split; [done |].
  destruct (call_reply c) as [[] impl].
  - destruct (TestRunner.run_test (func md) impl test_code) as [[] diagnostic].
    + destruct Hlast as (-> & -> & Hregistry).
      assert (FunctionRegistry.get_implementation full_name (registry w1) = Some impl)
        as Hstored by (rewrite Hregistry; apply get_implementation_store).
      rewrite Hstored in Hresult.
      destruct impl as [|a impl]; injection Hresult as <- <-.
      * done.
      * split_and!; try done. intros _. simpl. apply lookup_insert_eq.
    + destruct Hlast as (-> & -> & Hfull & Hregistry).
      destruct (Hfailed eq_refl) as [-> ->].
      unfold Processor.max_attempts in Hfull.
      split_and!; try done. by rewrite Hregistry.
  - destruct Hlast as (-> & -> & Hregistry).
    destruct (Hfailed eq_refl) as [-> ->].
    split_and!; try done. by rewrite Hregistry.
Qed.

End loop_properties.

Lemma generation_protocol_witness :
  let w := set_registry (exec_module "demo" [Scenario.double] FunctionRegistry.empty)
             Scenario.start in
  let run := Processor.process_function (H := Scenario.runtime)
               (H0 := Scenario.second_time_right) (declared "demo" Scenario.double) w in
  run.2 = Generated ∧
  FunctionRegistry.get_implementation "demo.double" (registry run.1)
    = Some "return n * 2" ∧
  ∃ new, oracle_calls run.1 = oracle_calls w ++ new ∧ 1 ≤ length new ≤ 3 ∧
         feedback_chain (H := Scenario.runtime) (func (declared "demo" Scenario.double))
           "assert fn(3) == 6" None new.
Proof.
  intros w run.
  split; [vm_compute; reflexivity |]. split; [vm_compute; reflexivity |].
  destruct (generation_protocol (H := Scenario.runtime)
              (H0 := Scenario.second_time_right)
              (declared "demo" Scenario.double) w run.1 run.2
              eq_refl ltac:(vm_compute; reflexivity) (surjective_pairing run))
    as (new & Hcalls & Hlen & _ & _ & Hchain & _).
  exists new. split; [exact Hcalls |]. split; [exact Hlen | exact Hchain].
Defined.

(** An oracle whose service is down ends the processing of the function
    with its first call. *)
Example oracle_failure_aborts :
  let w := set_registry (exec_module "demo" [Scenario.double] FunctionRegistry.empty)
             Scenario.start in
  let run := Processor.process_function (H := Scenario.runtime)
               (H0 := Scenario.unavailable) (declared "demo" Scenario.double) w in
  run.2 = GenerationFailed (Some "Failed to generate implementation after 1 attempts") ∧
  length (oracle_calls run.1) = 1 ∧
  Cache.get "demo.double" (cache run.1) = None.
Proof. intros w run. split_and!; vm_compute; reflexivity. Qed.

(** ** Invariants of the registry *)

Lemma dotted_inj (p1 n1 p2 n2 : string) :
  dot_free n1 → dot_free n2 →
  p1 +:+ "." +:+ n1 = p2 +:+ "." +:+ n2 → p1 = p2.
Proof.
  intros H1 H2 Heq.
  rewrite <- (parent_module_dotted p1 n1 H1), <- (parent_module_dotted p2 n2 H2).
  by rewrite Heq.
Qed.

Lemma specs_lookup (r : FunctionRegistry.state) (k : string) :
  specs r !! k = declared_part <$> FunctionRegistry._registry r !! k.
Proof. apply lookup_fmap. Qed.

(** Two registries with the same declarations have, under every name,
    entries that differ at most in the implementation. *)
Lemma specs_same_entry (r r' : FunctionRegistry.state) (k : string)
    (md' : FunctionMetadata) :
  specs r' = specs r →
  FunctionRegistry._registry r' !! k = Some md' →
  ∃ md, FunctionRegistry._registry r !! k = Some md ∧
        func md = func md' ∧ name md = name md' ∧ module md = module md' ∧
        frozen md = frozen md'.
Proof.
  intros Hspecs Hk.
  assert (specs r !! k = Some (declared_part md')) as Hspec
    by (by rewrite <- Hspecs, specs_lookup, Hk).
  rewrite specs_lookup in Hspec.
  destruct (FunctionRegistry._registry r !! k) as [md|]; [| done].
  injection Hspec as Hf Hn Hm _ _ _ Hfrozen. by exists md.
Qed.

Lemma specs_store (k impl : string) (r : FunctionRegistry.state) :
  specs (FunctionRegistry.store_implementation k impl r) = specs r.
Proof.
  apply map_eq. intros k'. rewrite !specs_lookup. simpl. rewrite lookup_alter.
  destruct (decide (k = k')) as [->|]; [| done].
  by destruct (FunctionRegistry._registry r !! k').
Qed.

Lemma specs_populate (module_cache : gmap string (gmap string string))
    (r : FunctionRegistry.state) :
  specs (Cache.populate_registry module_cache r) = specs r.
Proof.
  unfold Cache.populate_registry.
  apply (map_fold_weak_ind
    (λ (r' : FunctionRegistry.state) (_ : gmap string (gmap string string)),
       specs r' = specs r)); [done |].
  intros i x m r' _ IH. destruct (x !! "implementation"); [| done].
  by rewrite specs_store.
Qed.

Section invariant_properties.
Context `{PythonRuntime} {O : Type} `{SynthesisOracle O}.
Implicit Types w : World O.

Lemma entries_consistent_same_specs (r r' : FunctionRegistry.state) :
  specs r' = specs r → entries_consistent r → entries_consistent r'.
Proof.
  intros Hspecs Hr k md' Hk.
  destruct (specs_same_entry r r' k md' Hspecs Hk) as (md & Hmd & Hf & Hn & Hm & _).
  destruct (Hr k md Hmd) as (Hkey & Hfm & Hfn & Hdot).
  unfold get_full_name in *. rewrite <- Hf, <- Hn, <- Hm. done.
Qed.

Lemma memo_sound_same_specs (r r' : FunctionRegistry.state) :
  specs r' = specs r →
  FunctionRegistry._needs_generation r' = FunctionRegistry._needs_generation r →
  memo_sound r → memo_sound r'.
Proof.
  intros Hspecs Hmemo Hr k Hk. rewrite Hmemo in Hk.
  destruct (Hr k Hk) as (md & Hmd & Hfrozen).
  assert (specs r' !! k = Some (declared_part md)) as Hspec
    by (by rewrite Hspecs, specs_lookup, Hmd).
  rewrite specs_lookup in Hspec.
  destruct (FunctionRegistry._registry r' !! k) as [md'|]; [| done].
  injection Hspec as _ _ _ _ _ _ Hsame. exists md'. split; [done | congruence].
Qed.

(** A call of [needs_generation] keeps the memo sound. *)
Lemma memo_sound_needs_generation (full_name : string) (h : option string)
    (r r' : FunctionRegistry.state) (d : bool) :
  FunctionRegistry.needs_generation full_name h r = (d, r') →
  memo_sound r → memo_sound r'.
Proof.
  unfold FunctionRegistry.needs_generation.
  destruct (FunctionRegistry._needs_generation r !! full_name) as [d0|] eqn:Hmemo.
  { by intros [= <- <-]. }
  intros Hcall Hr k Hk.
  assert (FunctionRegistry._registry r' = FunctionRegistry._registry r ∧
          FunctionRegistry._needs_generation r'
          = <[full_name := d]> (FunctionRegistry._needs_generation r)) as [Hreg Hnew].
  { destruct (FunctionRegistry._registry r !! full_name) as [md|];
      [destruct (frozen md); [| destruct h] |];
      by injection Hcall as <- <-. }
  rewrite Hreg. rewrite Hnew in Hk.
  apply lookup_insert_Some in Hk as [[<- ->] | [_ Hk]]; [| by apply Hr].
  destruct (FunctionRegistry._registry r !! full_name) as [md|];
    [destruct (frozen md) eqn:Hfrozen; [| destruct h] |];
    try discriminate; eauto.
Qed.

(** The states with the same declarations, modules and sources, and a
    sound memo, satisfy the invariant together. *)
Lemma invariant_same_specs w w' :
  specs (registry w') = specs (registry w) →
  memo_sound (registry w') →
  sys_modules w' = sys_modules w →
  module_sources w' = module_sources w →
  invariant w → invariant w'.
Proof.
  intros Hspecs Hmemo Hmods Hsrcs (Hcons & _ & Himp & Hnamed).
  split_and!.
  - by apply (entries_consistent_same_specs (registry w)).
  - done.
  - intros k md' Hk. rewrite Hmods.
    destruct (specs_same_entry _ _ k md' Hspecs Hk) as (md & Hmd & _ & _ & Hm & _).
    rewrite <- Hm. by apply (Himp k).
  - unfold sources_well_named. by rewrite Hsrcs.
Qed.

(** The loop changes the registry by at most one stored implementation. *)
Lemma attempts_registry (remaining attempt : nat) (f : PyFunction) (nm doc : string)
    (sg : Signature) (test_code : string) (feedback : option string) w w'
    (result : bool * option string) :
  Processor.attempts remaining attempt f nm doc sg test_code feedback w = (w', result) →
  (registry w' = registry w ∨
   ∃ impl, registry w'
           = FunctionRegistry.store_implementation (__module__ f +:+ "." +:+ nm) impl
               (registry w)) ∧
  sys_modules w' = sys_modules w ∧ module_sources w' = module_sources w.
Proof.
  destruct result as [ok err]. intros Hloop.
  apply attempts_spec in Hloop
    as (new & _ & _ & _ & _ & _ & _ & (_ & _ & Hmods & Hsrcs) & Hlast).
  split; [| done].
  destruct (last new) as [c|]; [| left; apply Hlast].
  destruct (call_reply c) as [[] impl]; [| left; apply Hlast].
  destruct (TestRunner.run_test f impl test_code) as [[] d].
  - right. exists impl. apply Hlast.
  - left. apply Hlast.
Qed.

Lemma cache_load_frame (module_name : string) w :
  specs (registry (cache_load module_name w)) = specs (registry w) ∧
  FunctionRegistry._needs_generation (registry (cache_load module_name w))
    = FunctionRegistry._needs_generation (registry w) ∧
  sys_modules (cache_load module_name w) = sys_modules w ∧
  module_sources (cache_load module_name w) = module_sources w ∧
  oracle (cache_load module_name w) = oracle w ∧
  oracle_calls (cache_load module_name w) = oracle_calls w.
Proof.
  unfold cache_load, Cache.load.
  destruct (decide (module_name ∈ Cache._loaded_modules (cache w))); [done |].
  destruct (files w !! Cache.module_name_to_cache_file module_name) as [[records|]|];
    simpl; try done.
  split_and!; try done.
  - apply specs_populate.
  - apply populate_registry_memo.
Qed.

Lemma invariant_cache_load (module_name : string) w :
  invariant w → invariant (cache_load module_name w).
Proof.
  intros Hw.
  destruct (cache_load_frame module_name w) as (Hspecs & Hmemo & Hmods & Hsrcs & _).
  apply (invariant_same_specs w); try done.
  apply (memo_sound_same_specs (registry w)); try done. apply Hw.
Qed.

(** Processing one function leaves the declarations, the imported modules
    and the sources alone, and keeps the memo sound. *)
Lemma process_function_frame (md : FunctionMetadata) w w' (outcome : Outcome) :
  Processor.process_function md w = (w', outcome) →
  specs (registry w') = specs (registry w) ∧
  sys_modules w' = sys_modules w ∧
  module_sources w' = module_sources w ∧
  (memo_sound (registry w) → memo_sound (registry w')).
Proof.
  unfold Processor.process_function.
  destruct (FunctionRegistry.needs_generation _ _ (registry w)) as [needs r] eqn:Hdecision.
  pose proof (memo_sound_needs_generation _ _ _ _ _ Hdecision) as Hsound.
  apply needs_generation_memoizes in Hdecision as (_ & Hreg & _ & _).
  assert (specs r = specs (registry w)) as Hspecs by (unfold specs; by rewrite Hreg).
  destruct needs; cbn [negb].
  - unfold Processor._generate_and_test.
    destruct (Processor.attempts _ _ _ _ _ _ _ _ _) as [w1 [ok err]] eqn:Hloop.
    apply attempts_registry in Hloop as (Hregistry & Hmods & Hsrcs).
    assert (specs (registry w1) = specs (registry w) ∧
            (memo_sound (registry w) → memo_sound (registry w1))) as [Hspecs1 Hsound1].
    { destruct Hregistry as [-> | [impl ->]]; simpl.
      - done.
      - rewrite specs_store. split; [done |]. intros Hw.
        apply (memo_sound_same_specs r); [apply specs_store | done | by apply Hsound]. }
    destruct ok.
    + destruct (FunctionRegistry.get_implementation _ (registry w1)) as [[|a impl]|];
        by intros [= <- <-].
    + by intros [= <- <-].
  - destruct (Py.truthy_dict (Cache.get (get_full_name md) (cache w)));
      intros [= <- <-]; simpl; [| done].
    rewrite specs_store. split_and!; try done. intros Hw.
    apply (memo_sound_same_specs r); [apply specs_store | done | by apply Hsound].
Qed.

(** A property of the state that every iteration keeps is kept by the
    loop. *)
Lemma process_steps_preserve (P : World O → Prop) (Q : FunctionMetadata → Prop) :
  (∀ md w w' outcome,
     Q md → Processor.process_function md w = (w', outcome) → P w → P w') →
  ∀ functions acc,
    Forall Q functions → P acc.1 → P (foldl Processor.process_step acc functions).1.
Proof.
  intros Hstep functions.
  induction functions as [|md functions IH]; intros acc Hall Hacc; [done |].
  apply Forall_cons in Hall as [Hmd Hall]. simpl. apply IH; [done |].
  unfold Processor.process_step.
  destruct (Processor.process_function md acc.1) as [w' outcome] eqn:Hrun.
  simpl. by eapply Hstep.
Qed.

(** The oracle calls made for one function carry its full name. *)
Lemma process_function_calls (md : FunctionMetadata) w w' (outcome : Outcome) :
  Processor.process_function md w = (w', outcome) →
  __module__ (func md) = module md →
  ∃ new, oracle_calls w' = oracle_calls w ++ new ∧
         Forall (λ c, call_full_name c = get_full_name md) new ∧
         length new ≤ 3.
Proof.
  intros Hrun Hconsistent. revert Hrun. unfold Processor.process_function.
  destruct (FunctionRegistry.needs_generation _ _ (registry w)) as [needs r].
  destruct needs; cbn [negb].
  - unfold Processor._generate_and_test.
    destruct (Processor.attempts _ _ _ _ _ _ _ _ _) as [w1 [ok err]] eqn:Hloop.
    apply attempts_spec in Hloop as (new & Hcalls & Hlen & _ & Htags & _).
    rewrite Hconsistent in Htags.
    intros Hrun. exists new. split; [| done].
    destruct ok;
      [destruct (FunctionRegistry.get_implementation _ (registry w1)) as [[|a impl]|] |];
      by injection Hrun as <- <-.
  - intros Hrun. exists []. rewrite app_nil_r. split; [| split; [done | simpl; lia]].
    destruct (Py.truthy_dict _); by injection Hrun as <- <-.
Qed.

(** Without a decision to generate, the oracle is left alone and the cached
    record, if there is one, is adopted. *)
Lemma process_function_no_generation (md : FunctionMetadata) w w' (outcome : Outcome) :
  (FunctionRegistry.needs_generation (get_full_name md)
     (Processor.entry_hash (Cache.get (get_full_name md) (cache w))) (registry w)).1
  = false →
  Processor.process_function md w = (w', outcome) →
  oracle_calls w' = oracle_calls w ∧ oracle w' = oracle w ∧ cache w' = cache w ∧
  (∀ entry, Cache.get (get_full_name md) (cache w) = Some entry → entry ≠ ∅ →
     outcome = UsedCache ∧
     FunctionRegistry.get_implementation (get_full_name md) (registry w')
     = Some (default "" (entry !! "implementation"))) ∧
  (Py.truthy_dict (Cache.get (get_full_name md) (cache w)) = false →
     outcome = NoCachedImplementation).
Proof.
  intros Hdecision. unfold Processor.process_function.
  destruct (FunctionRegistry.needs_generation _ _ (registry w)) as [needs r].
  simpl in Hdecision. subst needs. cbn [negb].
  destruct (Cache.get (get_full_name md) (cache w)) as [entry|] eqn:Hentry; simpl.
  - destruct (decide (entry = ∅)) as [->|Hne].
    + rewrite bool_decide_eq_true_2 by done. simpl.
      intros [= <- <-]. split_and!; try done. intros entry [= <-]. done.
    + rewrite bool_decide_eq_false_2 by done. simpl.
      intros [= <- <-]. split_and!; try done.
      intros entry' [= <-] _. split; [done |]. apply get_implementation_store.
  - intros [= <- <-]. done.
Qed.

(** A frozen function is never found to need generation when the memo is
    sound. *)
Lemma frozen_needs_no_generation (r : FunctionRegistry.state) (full_name : string)
    (md : FunctionMetadata) (h : option string) :
  memo_sound r →
  FunctionRegistry._registry r !! full_name = Some md → frozen md = true →
  (FunctionRegistry.needs_generation full_name h r).1 = false.
Proof.
  intros Hsound Hmd Hfrozen. unfold FunctionRegistry.needs_generation.
  destruct (FunctionRegistry._needs_generation r !! full_name) as [[]|] eqn:Hmemo.
  - destruct (Hsound full_name Hmemo) as (md' & Hmd' & Hnot). congruence.
  - done.
  - by rewrite Hmd, Hfrozen.
Qed.

Lemma invariant_process_function (md : FunctionMetadata) w w' (outcome : Outcome) :
  Processor.process_function md w = (w', outcome) → invariant w → invariant w'.
Proof.
  intros Hrun Hw.
  destruct (process_function_frame md w w' outcome Hrun)
    as (Hspecs & Hmods & Hsrcs & Hsound).
  apply (invariant_same_specs w); try done. apply Hsound, Hw.
Qed.

Lemma exec_module_lookup_other (module_name : string) (decls : list Declaration)
    (r : FunctionRegistry.state) (k : string) :
  (∀ d, d ∈ decls → k ≠ module_name +:+ "." +:+ decl_name d) →
  FunctionRegistry._registry (exec_module module_name decls r) !! k
  = FunctionRegistry._registry r !! k.
Proof.
  revert r. induction decls as [|d decls IH]; intros r Hother; [done |].
  rewrite exec_module_cons, IH.
  - rewrite parablock_registry. apply lookup_insert_ne.
    intros Heq. apply (Hother d); [apply list_elem_of_here | done].
  - intros d' Hd'. apply Hother. by apply list_elem_of_further.
Qed.

(** Running a module whose functions have no pending decision to generate
    keeps the registry consistent and the memo sound. *)
Lemma exec_module_invariant (module_name : string) (decls : list Declaration)
    (r : FunctionRegistry.state) :
  well_named decls → entries_consistent r → memo_sound r →
  (∀ d, d ∈ decls →
     FunctionRegistry._needs_generation r !! (module_name +:+ "." +:+ decl_name d)
     ≠ Some true) →
  entries_consistent (exec_module module_name decls r) ∧
  memo_sound (exec_module module_name decls r).
Proof.
  intros Hnamed Hcons Hsound Hfresh. split.
  - intros k md [Hold | (d & Hd & -> & ->)]%exec_module_lookup; [by apply Hcons |].
    split_and!; try done.
    unfold well_named in Hnamed. rewrite Forall_forall in Hnamed. by apply Hnamed.
  - intros k Hk.
    destruct (exec_module_tables module_name decls r) as [_ Hmemo].
    rewrite Hmemo in Hk. destruct (Hsound k Hk) as (md & Hmd & Hfrozen).
    exists md. split; [| done].
    rewrite exec_module_lookup_other; [done |].
    intros d Hd ->. by apply (Hfresh d).
Qed.

Lemma invariant_import (module_name : string) w w' :
  invariant w → import_module module_name w = Some w' → invariant w'.
Proof.
  intros (Hcons & Hsound & Himp & Hnamed). unfold import_module.
  destruct (decide (module_name ∈ sys_modules w)) as [|Hnew]; [by intros [= <-] |].
  destruct (module_sources w !! module_name) as [decls|] eqn:Hsrc; [| done].
  intros [= <-].
  pose proof (Hnamed module_name decls Hsrc) as Hdecls. simpl in Hdecls.
  destruct (exec_module_invariant module_name decls (registry w)) as [Hcons' Hsound'];
    try done.
  { intros d Hd Hpending.
    destruct (Hsound _ Hpending) as (md & Hmd & _).
    destruct (Hcons _ _ Hmd) as (Hkey & _ & _ & Hdot).
    apply Hnew. rewrite (dotted_inj module_name (decl_name d) (module md) (name md)).
    - by apply (Himp _ _ Hmd).
    - unfold well_named in Hdecls. rewrite Forall_forall in Hdecls. by apply Hdecls.
    - done.
    - exact Hkey. }
  split_and!; try done.
  intros k md [Hold | (d & _ & _ & ->)]%exec_module_lookup; simpl.
  - apply elem_of_union_r. by apply (Himp k).
  - apply elem_of_union_l. by apply elem_of_singleton.
Qed.

Lemma invariant_clear (module_name : string) w :
  invariant w → invariant (clear_namespace module_name w).
Proof.
  intros (Hcons & Hsound & Himp & Hnamed). split_and!; try done.
  - intros k md [Hk _]%map_lookup_filter_Some. by apply Hcons.
  - intros k [Hk Hkeep]%map_lookup_filter_Some. simpl in Hkeep.
    destruct (Hsound k Hk) as (md & Hmd & Hfrozen). exists md. split; [| done].
    apply map_lookup_filter_Some. split; [done |]. simpl. intros Hpre.
    apply Hkeep. destruct (Hcons k md Hmd) as (-> & _).
    by apply startswith_app.
  - intros k md [Hk _]%map_lookup_filter_Some. by apply (Himp k).
Qed.

Lemma clear_no_pending (module_name n : string) (r : FunctionRegistry.state) :
  FunctionRegistry._needs_generation (FunctionRegistry.clear_module module_name r)
    !! (module_name +:+ "." +:+ n) = None.
Proof.
  apply map_lookup_filter_None. right. intros d _ Hnot. apply Hnot. simpl.
  apply startswith_app, startswith_refl.
Qed.

Lemma invariant_process_module (module_name : string) w :
  invariant w → invariant (Processor.process_module module_name w).1.
Proof.
  intros Hw. unfold Processor.process_module.
  destruct (import_module module_name w) as [w1|] eqn:Himport; [| done].
  apply (invariant_import _ _ _ Hw) in Himport.
  apply (invariant_cache_load module_name) in Himport.
  destruct (filter _ _) as [|md functions]; [done |].
  unfold Processor.process_functions.
  pose proof (process_steps_preserve invariant (λ _, True)
                (λ md w w' outcome _ Hrun, invariant_process_function md w w' outcome Hrun)
                (md :: functions) (cache_load module_name w1, true)
                ltac:(by apply Forall_true) Himport) as Hloop.
  by destruct (foldl _ _ _).
Qed.

(** The state between the clearing and the processing pass of a reload: the
    namespace is cleared and, if the module was imported, declared again. *)
Lemma reload_module_steps (module_name : string) w :
  ∃ w0, Processor._reload_module module_name w
        = (Processor.process_module module_name w0).1 ∧
        oracle_calls w0 = oracle_calls w ∧
        (invariant w → invariant w0)
        ∨ Processor._reload_module module_name w = w0 ∧
          oracle_calls w0 = oracle_calls w ∧
          module_name ∈ sys_modules w ∧ module_sources w !! module_name = None.
Proof.
  unfold Processor._reload_module.
  pose proof (invariant_clear module_name w) as Hclear.
  destruct (decide (module_name ∈ sys_modules (clear_namespace module_name w)))
    as [Hloaded|]; [| exists (clear_namespace module_name w); by left].
  unfold reload.
  destruct (module_sources (clear_namespace module_name w) !! module_name)
    as [decls|] eqn:Hsrc; [| exists (clear_namespace module_name w); by right].
  eexists. left. split; [reflexivity |]. split; [done |].
  intros (Hcons & Hsound & Himp & Hnamed)%Hclear.
  pose proof (Hnamed module_name decls Hsrc) as Hdecls. simpl in Hdecls.
  destruct (exec_module_invariant module_name decls
              (registry (clear_namespace module_name w))) as [Hcons' Hsound'];
    try done.
  { intros d _.
    change (registry (clear_namespace module_name w))
      with (FunctionRegistry.clear_module module_name (registry w)).
    by rewrite clear_no_pending. }
  split_and!; try done.
  intros k md [Hold | (d & _ & _ & ->)]%exec_module_lookup; [by apply (Himp k) | done].
Qed.

Lemma invariant_reload_module (module_name : string) w :
  invariant w → invariant (Processor._reload_module module_name w).
Proof.
  intros Hw.
  destruct (reload_module_steps module_name w)
    as (w0 & [(-> & _ & Hw0) | (Hsame & _ & Hloaded & Hsrc)]).
  - by apply invariant_process_module, Hw0.
  - revert Hsame. unfold Processor._reload_module.
    rewrite decide_True by done. unfold reload. simpl. rewrite Hsrc.
    intros <-. by apply invariant_clear.
Qed.

Lemma invariant_pararun {A : Type} (f : PyFunction) (args : A) w :
  invariant w → invariant (pararun f args w).1.
Proof.
  intros Hw. unfold pararun.
  pose proof (invariant_cache_load (__module__ f) w Hw) as Hfirst.
  destruct (Py.truthy _).
  - by destruct (FunctionRegistry.get_implementation _ _) as [[|a s]|].
  - destruct (Py.truthy (Some _)).
    + pose proof (invariant_cache_load (parent_module (__module__ f)) _ Hfirst).
      by destruct (FunctionRegistry.get_implementation _ _) as [[|a s]|].
    + by destruct (FunctionRegistry.get_implementation _ _) as [[|a s]|].
Qed.

Lemma invariant_peek (f : PyFunction) w : invariant w → invariant (peek f w).1.
Proof.
  intros Hw. unfold peek.
  pose proof (invariant_cache_load (__module__ f) w Hw) as Hload.
  by destruct (FunctionRegistry.get_implementation _ _) as [[|a s]|].
Qed.

(** Every state of an execution satisfies the invariant. *)
Lemma reachable_invariant w : reachable w → invariant w.
Proof.
  induction 1 as [fs srcs o Hsrcs | m w w' _ IH Himport | m w _ IH | m w _ IH
                  | f args w _ IH | f w _ IH | m decls w _ IH Hdecls].
  - by split_and!.
  - by apply (invariant_import m w).
  - by apply invariant_process_module.
  - by apply invariant_reload_module.
  - by apply invariant_pararun.
  - by apply invariant_peek.
  - destruct IH as (Hcons & Hsound & Himp & Hnamed). split_and!; try done.
    by apply map_Forall_insert_2.
Qed.

Lemma get_all_registered (r : FunctionRegistry.state) (md : FunctionMetadata) :
  md ∈ FunctionRegistry.get_all r →
  ∃ k, FunctionRegistry._registry r !! k = Some md.
Proof.
  unfold FunctionRegistry.get_all.
  intros ([k md'] & -> & Hin)%list_elem_of_fmap.
  exists k. by apply elem_of_map_to_list.
Qed.

(** A frozen entry stays a frozen entry wherever the declarations stay the
    same. *)
Lemma frozen_entry_same_specs (r r' : FunctionRegistry.state) (full_name : string) :
  specs r' = specs r →
  (∃ md, FunctionRegistry._registry r !! full_name = Some md ∧ frozen md = true) →
  ∃ md, FunctionRegistry._registry r' !! full_name = Some md ∧ frozen md = true.
Proof.
  intros Hspecs (md & Hmd & Hfrozen).
  destruct (specs_same_entry r' r full_name md (eq_sym Hspecs) Hmd)
    as (md' & Hmd' & _ & _ & _ & Hsame).
  exists md'. split; [done | congruence].
Qed.

(** While a function is registered as frozen, processing any function makes
    no oracle call for it. *)
Lemma process_function_spares_frozen (full_name : string) (md' : FunctionMetadata)
    w w' (outcome : Outcome) :
  __module__ (func md') = module md' →
  Processor.process_function md' w = (w', outcome) →
  memo_sound (registry w) →
  (∃ md, FunctionRegistry._registry (registry w) !! full_name = Some md ∧
         frozen md = true) →
  ∃ new, oracle_calls w' = oracle_calls w ++ new ∧
         Forall (λ c, call_full_name c ≠ full_name) new.
Proof.
  intros Hconsistent Hrun Hsound (md & Hmd & Hfrozen).
  destruct (decide (get_full_name md' = full_name)) as [Heq|Hne].
  - exists []. rewrite app_nil_r. split; [| done].
    eapply process_function_no_generation; [| exact Hrun].
    rewrite Heq. by apply (frozen_needs_no_generation _ _ md).
  - destruct (process_function_calls md' w w' outcome Hrun Hconsistent)
      as (new & Hcalls & Htags & _).
    exists new. split; [done |].
    eapply Forall_impl; [exact Htags |]. intros c Hc. simpl in Hc. congruence.
Qed.

Lemma import_module_calls (module_name : string) w w' :
  import_module module_name w = Some w' → oracle_calls w' = oracle_calls w.
Proof.
  unfold import_module.
  destruct (decide (module_name ∈ sys_modules w)); [by intros [= <-] |].
  destruct (module_sources w !! module_name); [| done]. by intros [= <-].
Qed.

(** A processing pass makes no oracle call for a function that it leaves
    registered as frozen. *)
Lemma process_module_spares_frozen (module_name full_name : string) w :
  invariant w →
  (∃ md, FunctionRegistry._registry
           (registry (Processor.process_module module_name w).1) !! full_name
         = Some md ∧ frozen md = true) →
  ∃ new, oracle_calls (Processor.process_module module_name w).1
         = oracle_calls w ++ new ∧
         Forall (λ c, call_full_name c ≠ full_name) new.
Proof.
  intros Hinv. unfold Processor.process_module.
  destruct (import_module module_name w) as [w1|] eqn:Himport;
    [| exists []; by rewrite app_nil_r].
  pose proof (invariant_import _ _ _ Hinv Himport) as Hinv1.
  apply import_module_calls in Himport as Hcalls1.
  pose proof (invariant_cache_load module_name w1 Hinv1) as Hinv2.
  destruct (cache_load_frame module_name w1) as (_ & _ & _ & _ & _ & Hcalls2).
  set (w2 := cache_load module_name w1) in *.
  destruct (filter _ (FunctionRegistry.get_all (registry w2))) as [|md0 functions]
    eqn:Hfunctions.
  { exists []. simpl. by rewrite app_nil_r, Hcalls2, Hcalls1. }
  assert (Forall (λ md', __module__ (func md') = module md') (md0 :: functions))
    as Hall.
  { rewrite <- Hfunctions. apply Forall_forall. intros md' Hin.
    apply list_elem_of_filter in Hin as [_ Hin].
    apply get_all_registered in Hin as [k Hk].
    destruct Hinv2 as (Hcons2 & _). by destruct (Hcons2 _ _ Hk) as (_ & ? & _). }
  unfold Processor.process_functions.
  pose proof (process_steps_preserve
    (λ w', specs (registry w') = specs (registry w2)) (λ _, True)
    ltac:(intros md' wa wb outcome _ Hrun Hsa;
          destruct (process_function_frame md' wa wb outcome Hrun) as (Hspecs & _);
          by rewrite Hspecs)
    (md0 :: functions) (w2, true) ltac:(by apply Forall_true) eq_refl) as Hspecs3.
  pose proof (process_steps_preserve
    (λ w', memo_sound (registry w') ∧
           ((∃ md, FunctionRegistry._registry (registry w2) !! full_name = Some md ∧
                   frozen md = true) →
            specs (registry w') = specs (registry w2) ∧
            ∃ new, oracle_calls w' = oracle_calls w ++ new ∧
                   Forall (λ c, call_full_name c ≠ full_name) new))
    (λ md', __module__ (func md') = module md')) as Hloop.
  specialize (Hloop ltac:(
    intros md' wa wb outcome Hmd' Hrun (Hsa & Ha);
    destruct (process_function_frame md' wa wb outcome Hrun) as (Hspecs & _ & _ & Hsb);
    split; [by apply Hsb |];
    intros Hfrozen; destruct (Ha Hfrozen) as (Hspecsa & newa & Hca & Hta);
    destruct (process_function_spares_frozen full_name md' wa wb outcome
                Hmd' Hrun Hsa) as (newb & Hcb & Htb);
      [by apply (frozen_entry_same_specs (registry w2)) |];
    split; [by rewrite Hspecs |];
    exists (newa ++ newb); split;
      [ by rewrite Hcb, Hca, app_assoc | by apply Forall_app ])
    (md0 :: functions) (w2, true) Hall).
  destruct Hloop as (_ & Hloop).
  { simpl. split; [apply Hinv2 |]. intros _. split; [done |].
    exists []. by rewrite app_nil_r, Hcalls2, Hcalls1. }
  destruct (foldl _ _ _) as [w3 success]. simpl in *.
  intros Hfrozen3. apply Hloop.
  by apply (frozen_entry_same_specs (registry w3)).
Qed.

(** A processing pass leaves a registered frozen function registered and
    frozen. *)
Lemma process_module_keeps_frozen (module_name full_name : string) w :
  invariant w →
  (∃ md, FunctionRegistry._registry (registry w) !! full_name = Some md ∧
         frozen md = true) →
  ∃ md, FunctionRegistry._registry
          (registry (Processor.process_module module_name w).1) !! full_name
        = Some md ∧ frozen md = true.
Proof.
  intros (Hcons & Hsound & Himp & Hnamed) (md & Hmd & Hfrozen).
  unfold Processor.process_module.
  destruct (import_module module_name w) as [w1|] eqn:Himport; [| by exists md].
  assert (FunctionRegistry._registry (registry w1) !! full_name = Some md) as Hmd1.
  { revert Himport. unfold import_module.
    destruct (decide (module_name ∈ sys_modules w)) as [|Hnew]; [by intros [= <-] |].
    destruct (module_sources w !! module_name) as [decls|] eqn:Hsrc; [| done].
    intros [= <-]. simpl.
    rewrite exec_module_lookup_other; [done |].
    destruct (Hcons _ _ Hmd) as (Hkey & _ & _ & Hdot).
    intros d Hd Heq. apply Hnew.
    rewrite (dotted_inj module_name (decl_name d) (module md) (name md)).
    - by apply (Himp _ _ Hmd).
    - pose proof (Hnamed module_name decls Hsrc) as Hdecls. simpl in Hdecls.
      unfold well_named in Hdecls. rewrite Forall_forall in Hdecls. by apply Hdecls.
    - done.
    - by rewrite <- Heq. }
  destruct (cache_load_frame module_name w1) as (Hspecs2 & _).
  set (w2 := cache_load module_name w1) in *.
  assert (∃ md2, FunctionRegistry._registry (registry w2) !! full_name = Some md2 ∧
                 frozen md2 = true) as Hmd2
    by (apply (frozen_entry_same_specs (registry w1)); eauto).
  destruct (filter _ (FunctionRegistry.get_all (registry w2))) as [|md0 functions];
    [done |].
  unfold Processor.process_functions.
  pose proof (process_steps_preserve
    (λ w', specs (registry w') = specs (registry w2)) (λ _, True)
    ltac:(intros md' wa wb outcome _ Hrun Hsa;
          destruct (process_function_frame md' wa wb outcome Hrun) as (Hspecs & _);
          by rewrite Hspecs)
    (md0 :: functions) (w2, true) ltac:(by apply Forall_true) eq_refl) as Hspecs3.
  destruct (foldl _ _ _) as [w3 success]. simpl in *.
  by apply (frozen_entry_same_specs (registry w2)).
Qed.

(** The functions of a pass have pairwise different full names. *)
Lemma get_all_names_NoDup (r : FunctionRegistry.state) (P : FunctionMetadata → Prop)
    `{∀ md, Decision (P md)} :
  entries_consistent r →
  NoDup (get_full_name <$> filter P (FunctionRegistry.get_all r)).
Proof.
  intros Hcons.
  apply (sublist_NoDup _ (get_full_name <$> FunctionRegistry.get_all r));
    [| apply fmap_sublist, sublist_filter].
  unfold FunctionRegistry.get_all. rewrite <- list_fmap_compose.
  rewrite (list_fmap_ext (get_full_name ∘ snd) fst).
  - apply NoDup_fst_map_to_list.
  - intros i [k md] Hi. simpl.
    apply list_elem_of_lookup_2, elem_of_map_to_list in Hi.
    by destruct (Hcons k md Hi) as (-> & _).
Qed.

(** The loop over functions with different names makes at most three oracle
    calls for any one name. *)
Lemma process_steps_calls (full_name : string) (functions : list FunctionMetadata)
    (acc : World O * bool) :
  Forall (λ md, __module__ (func md) = module md) functions →
  NoDup (get_full_name <$> functions) →
  ∃ new, oracle_calls (foldl Processor.process_step acc functions).1
         = oracle_calls acc.1 ++ new ∧
         length (filter (λ c, call_full_name c = full_name) new)
         ≤ (if decide (full_name ∈ get_full_name <$> functions) then 3 else 0).
Proof.
  revert acc. induction functions as [|md functions IH]; intros acc Hall Hdup.
  { exists []. simpl. by rewrite app_nil_r. }
  apply Forall_cons in Hall as [Hmd Hall].
  rewrite fmap_cons in Hdup. apply NoDup_cons in Hdup as [Hfresh Hdup].
  simpl. unfold Processor.process_step at 2.
  destruct (Processor.process_function md acc.1) as [w1 outcome] eqn:Hrun.
  destruct (process_function_calls md acc.1 w1 outcome Hrun Hmd)
    as (new1 & Hcalls1 & Htags1 & Hlen1).
  destruct (IH (w1, acc.2 && succeeded outcome) Hall Hdup) as (new2 & Hcalls2 & Hlen2).
  exists (new1 ++ new2). split.
  { rewrite Hcalls2. simpl. by rewrite Hcalls1, app_assoc. }
  rewrite filter_app, length_app.
  destruct (decide (get_full_name md = full_name)) as [Heq|Hne].
  - rewrite decide_True by (rewrite <- Heq; apply list_elem_of_here).
    rewrite decide_False in Hlen2 by (by rewrite <- Heq).
    pose proof (length_filter (λ c, call_full_name c = full_name) new1). lia.
  - assert (filter (λ c, call_full_name c = full_name) new1 = []) as ->.
    { clear -Htags1 Hne. induction new1 as [|c new1 IHnew]; [done |].
      apply Forall_cons in Htags1 as [Hc Htags1].
      rewrite filter_cons, decide_False by (simpl in Hc; congruence).
      by apply IHnew. }
    simpl. destruct (decide (full_name ∈ get_full_name <$> functions)) as [Hin|Hnot].
    + by rewrite decide_True by (by apply list_elem_of_further).
    + lia.
Qed.

(** A processing pass makes at most three oracle calls for any one
    function. *)
Lemma pass_calls_per_function (module_name full_name : string) w :
  invariant w →
  ∃ new, oracle_calls (Processor.process_module module_name w).1
         = oracle_calls w ++ new ∧
         length (filter (λ c, call_full_name c = full_name) new) ≤ 3.
Proof.
  intros Hinv. unfold Processor.process_module.
  destruct (import_module module_name w) as [w1|] eqn:Himport;
    [| exists []; rewrite app_nil_r; split; [done | simpl; lia]].
  pose proof (invariant_import _ _ _ Hinv Himport) as Hinv1.
  apply import_module_calls in Himport as Hcalls1.
  pose proof (invariant_cache_load module_name w1 Hinv1) as (Hcons2 & _).
  destruct (cache_load_frame module_name w1) as (_ & _ & _ & _ & _ & Hcalls2).
  set (w2 := cache_load module_name w1) in *.
  pose proof (get_all_names_NoDup (registry w2)
                (λ md, Processor.in_module module_name md) Hcons2) as Hdup.
  assert (Forall (λ md', __module__ (func md') = module md')
            (filter (λ md, Processor.in_module module_name md)
               (FunctionRegistry.get_all (registry w2)))) as Hall.
  { apply Forall_forall. intros md' Hin.
    apply list_elem_of_filter in Hin as [_ Hin].
    apply get_all_registered in Hin as [k Hk].
    by destruct (Hcons2 _ _ Hk) as (_ & ? & _). }
  destruct (filter _ (FunctionRegistry.get_all (registry w2))) as [|md0 functions].
  { exists []. simpl. rewrite app_nil_r, Hcalls2, Hcalls1. split; [done | lia]. }
  unfold Processor.process_functions.
  destruct (process_steps_calls full_name (md0 :: functions) (w2, true) Hall Hdup)
    as (new & Hcalls & Hlen).
  destruct (foldl _ _ _) as [w3 success]. simpl in *.
  exists new. split; [by rewrite Hcalls, Hcalls2, Hcalls1 |].
  destruct (decide _); lia.
Qed.

(** C4.  In every state that an execution reaches, a function registered as
    frozen is never found to need generation, whatever hash the cache holds
    for it: processing it leaves the oracle alone and adopts the cached
    implementation when there is a cached record, and a processing pass over
    any module makes no oracle call for it.  The pass that follows a reload
    makes no oracle call for a function that the reload leaves registered as
    frozen. *)
Theorem frozen_function_never_regenerated w (full_name : string)
    (md : FunctionMetadata) :
  reachable w →
  FunctionRegistry._registry (registry w) !! full_name = Some md →
  frozen md = true →
  (∀ cached_hash,
     (FunctionRegistry.needs_generation full_name cached_hash (registry w)).1 = false) ∧
  (∀ w' outcome, Processor.process_function md w = (w', outcome) →
     oracle_calls w' = oracle_calls w ∧ oracle w' = oracle w ∧
     (∀ entry, Cache.get full_name (cache w) = Some entry → entry ≠ ∅ →
        outcome = UsedCache ∧
        FunctionRegistry.get_implementation full_name (registry w')
        = Some (default "" (entry !! "implementation")))) ∧
  (∀ module_name,
     ∃ new, oracle_calls (Processor.process_module module_name w).1
            = oracle_calls w ++ new ∧
            Forall (λ c, call_full_name c ≠ full_name) new) ∧
  (∀ module_name md',
     FunctionRegistry._registry
       (registry (Processor._reload_module module_name w)) !! full_name = Some md' →
     frozen md' = true →
     ∃ new, oracle_calls (Processor._reload_module module_name w)
            = oracle_calls w ++ new ∧
            Forall (λ c, call_full_name c ≠ full_name) new).
Proof.
  intros Hreach Hmd Hfrozen.
  pose proof (reachable_invariant w Hreach) as Hinv.
  pose proof Hinv as (Hcons & Hsound & Himp & Hnamed).
  destruct (Hcons _ _ Hmd) as (Hkey & Hfm & _ & Hdot).
  split_and!.
  - intros h. by apply (frozen_needs_no_generation _ _ md).
  - intros w' outcome Hrun.
    destruct (process_function_no_generation md w w' outcome) as (? & ? & _ & Hhit & _);
      [rewrite <- Hkey; by apply (frozen_needs_no_generation _ _ md) | done |].
    rewrite <- Hkey in Hhit. done.
  - intros module_name. apply process_module_spares_frozen; [done |].
    apply process_module_keeps_frozen; eauto.
  - intros module_name md' Hmd' Hfrozen'.
    destruct (reload_module_steps module_name w)
      as (w0 & [(Hsteps & Hcalls0 & Hw0) | (Hsame & Hcalls0 & _)]).
    + rewrite Hsteps in Hmd' |- *. rewrite <- Hcalls0.
      apply process_module_spares_frozen; [by apply Hw0 | eauto].
    + exists []. by rewrite app_nil_r, Hsame.
Qed.

End invariant_properties.

Lemma frozen_function_never_regenerated_witness :
  let w := set_registry
             (exec_module "demo" [Scenario.double_frozen] FunctionRegistry.empty)
             (set_sys_modules {[ "demo" ]} Scenario.start_frozen) in
  (FunctionRegistry.needs_generation (H := Scenario.runtime) "demo.double"
     (Some "stale") (registry w)).1 = false ∧
  ∃ new,
    oracle_calls (Processor.process_module (H := Scenario.runtime)
                    (H0 := Scenario.counting_oracle) "demo" w).1
    = oracle_calls w ++ new ∧
    Forall (λ c, call_full_name c ≠ "demo.double") new.
Proof.
  intros w.
  assert (reachable (H := Scenario.runtime) (H0 := Scenario.counting_oracle) w)
    as Hreach.
  { apply (reach_import "demo" Scenario.start_frozen).
    - apply reach_fresh. apply map_Forall_singleton, Forall_singleton. exact I.
    - unfold import_module. rewrite decide_False by apply not_elem_of_empty.
      simpl. rewrite lookup_singleton_eq. do 2 f_equal. }
  destruct (frozen_function_never_regenerated (H := Scenario.runtime)
              (H0 := Scenario.counting_oracle) w "demo.double"
              (declared "demo" Scenario.double_frozen) Hreach
              ltac:(vm_compute; reflexivity) eq_refl)
    as (Hdecision & _ & Hpass & _).
  split; [apply Hdecision | apply Hpass].
Defined.

(** ** Processing a module twice *)

(** C1 at its failing input.  A new process with the module [demo], an empty
    cache directory and an oracle that answers with a body the harness
    accepts.  The first pass makes one oracle call, stores the
    implementation and caches it under the hash of the specification; the
    decision [true] stays memoized.  In the second pass the cached hash
    equals the hash of the unchanged specification, and the oracle is
    called again for the same function. *)
Lemma second_pass_calls_oracle_again :
  let pass := Processor.process_module (H := Scenario.runtime)
                (H0 := Scenario.counting_oracle) "demo" in
  let w1 := (pass Scenario.start).1 in
  let w2 := (pass w1).1 in
  length (oracle_calls w1) = 1 ∧
  Cache.get "demo.double" (cache w1) ≫= (λ e, e !! "hash")
    = Some (get_function_hash (H := Scenario.runtime) "double the input"
              Scenario.double_signature) ∧
  (docstring <$> FunctionRegistry._registry (registry w1) !! "demo.double")
    = Some "double the input" ∧
  FunctionRegistry._needs_generation (registry w1) !! "demo.double" = Some true ∧
  length (oracle_calls w2) = 2 ∧
  call_full_name <$> oracle_calls w2 = ["demo.double"; "demo.double"].
Proof. intros pass w1 w2. split_and!; vm_compute; reflexivity. Qed.

(** The general form of the failure: a memoized decision to generate sends
    the function to the oracle whatever the cache holds, so also when the
    cached hash is the hash of the specification. *)
Lemma pending_decision_calls_oracle `{PythonRuntime} {O : Type}
    `{SynthesisOracle O} (md : FunctionMetadata) (w w' : World O)
    (outcome : Outcome) :
  FunctionRegistry._needs_generation (registry w) !! get_full_name md = Some true →
  Processor.process_function md w = (w', outcome) →
  ∃ new, oracle_calls w' = oracle_calls w ++ new ∧ 1 ≤ length new.
Proof.
  intros Hmemo. unfold Processor.process_function.
  rewrite (needs_generation_memoized _ _ _ _ Hmemo). cbn [negb].
  unfold Processor._generate_and_test.
  destruct (Processor.attempts _ _ _ _ _ _ _ _ _) as [w1 [ok err]] eqn:Hloop.
  apply attempts_spec in Hloop as (new & Hcalls & _ & Hpos & _).
  specialize (Hpos ltac:(unfold Processor.max_attempts; lia)).
  intros Hrun. exists new. split; [| lia].
  destruct ok;
    [destruct (FunctionRegistry.get_implementation _ (registry w1)) as [[|a impl]|] |];
    by injection Hrun as <- <-.
Qed.

(** The short circuit as far as it holds: when no decision to generate is
    memoized for a registered function that is not frozen, and the cached
    record carries the hash of the current specification, processing the
    function makes no oracle call and adopts the cached implementation. *)
Lemma cache_hit_without_pending_decision `{PythonRuntime} {O : Type}
    `{SynthesisOracle O} (md : FunctionMetadata) (w w' : World O)
    (outcome : Outcome) (entry : gmap string string) :
  FunctionRegistry._registry (registry w) !! get_full_name md = Some md →
  FunctionRegistry._needs_generation (registry w) !! get_full_name md ≠ Some true →
  Cache.get (get_full_name md) (cache w) = Some entry →
  entry !! "hash" = Some (get_function_hash (docstring md) (signature md)) →
  Processor.process_function md w = (w', outcome) →
  outcome = UsedCache ∧ oracle_calls w' = oracle_calls w ∧ oracle w' = oracle w ∧
  FunctionRegistry.get_implementation (get_full_name md) (registry w')
  = Some (default "" (entry !! "implementation")).
Proof.
  intros Hmd Hmemo Hentry Hhash Hrun.
  assert (entry ≠ ∅) as Hne by (intros ->; by rewrite lookup_empty in Hhash).
  destruct (process_function_no_generation md w w' outcome)
    as (Hcalls & Horacle & _ & Hhit & _); [| done |].
  - unfold FunctionRegistry.needs_generation.
    destruct (FunctionRegistry._needs_generation (registry w) !! get_full_name md)
      as [[]|]; [done | done |].
    rewrite Hmd. destruct (frozen md); [done |].
    unfold Processor.entry_hash. rewrite Hentry. simpl.
    rewrite bool_decide_eq_false_2 by done. simpl. rewrite Hhash. simpl.
    by rewrite bool_decide_eq_true_2.
  - destruct (Hhit entry Hentry Hne) as [-> Himpl]. done.
Qed.

(** * Further properties of the package *)

(** ** The cache across processes *)

(** X1.  A record that a process holds in memory and saves is what a later
    process finds after loading the namespace, and its implementation is
    then resolvable through the registry; records outside the saved
    namespace are not brought in. *)
Theorem saved_record_survives_restart (module_name k : string)
    (c c0 : Cache.state) (files0 : gmap string CacheFile)
    (r0 : FunctionRegistry.state) (e : gmap string string) :
  Cache._cache c !! k = Some e →
  Py.startswith k (module_name +:+ ".") →
  module_name ∉ Cache._loaded_modules c0 →
  Cache.get k (Cache.load module_name (Cache.save module_name c files0) c0 r0).1
    = Some e ∧
  (∀ impl, e !! "implementation" = Some impl →
     FunctionRegistry.get_implementation k
       (Cache.load module_name (Cache.save module_name c files0) c0 r0).2
     = Some impl) ∧
  module_name ∈ Cache._loaded_modules
    (Cache.load module_name (Cache.save module_name c files0) c0 r0).1 ∧
  (∀ k', ¬ Py.startswith k' (module_name +:+ ".") →
     Cache.get k' (Cache.load module_name (Cache.save module_name c files0) c0 r0).1
     = Cache.get k' c0).
Proof.
  intros Hk Hpre Hnew.
  set (written := filter (λ kv : string * gmap string string,
                            Py.startswith kv.1 (module_name +:+ "."))
                         (Cache._cache c)).
  assert (Cache.save module_name c files0
            !! Cache.module_name_to_cache_file module_name
          = Some (Partition written)) as Hfile by apply lookup_insert_eq.
  assert (written !! k = Some e) as Hwritten by (by apply map_lookup_filter_Some).
  unfold Cache.load. rewrite decide_False by done. rewrite Hfile.
  split_and!.
  - unfold Cache.get. simpl. by rewrite lookup_union, Hwritten, union_Some_l.
  - intros impl Himpl. unfold FunctionRegistry.get_implementation. simpl.
    rewrite populate_registry_implementations, Hwritten. simpl. by rewrite Himpl.
  - simpl. apply elem_of_union_l. by apply elem_of_singleton.
  - intros k' Hk'. unfold Cache.get. simpl. rewrite lookup_union.
    assert (written !! k' = None) as ->
      by (apply map_lookup_filter_None; right; intros x _; done).
    by rewrite (left_id None _).
Qed.

Lemma saved_record_survives_restart_witness :
  let record := {[ "hash" := "h"; "implementation" := "return n * 2" ]} in
  Cache.get "demo.double"
    (Cache.load "demo"
       (Cache.save "demo" (Cache.store "demo.double" "h" "return n * 2" Cache.empty) ∅)
       Cache.empty FunctionRegistry.empty).1
  = Some record.
Proof.
  intros record.
  refine (proj1 (saved_record_survives_restart "demo" "demo.double"
                   (Cache.store "demo.double" "h" "return n * 2" Cache.empty)
                   Cache.empty ∅ FunctionRegistry.empty record _ _ _)).
  - vm_compute. reflexivity.
  - vm_compute. exact I.
  - apply not_elem_of_empty.
Defined.

(** X2.  The file of a namespace is read at most once in a process.  A first
    load that finds no file, or a file that is not a JSON document, changes
    nothing but the loaded flag; and after any first load, a further load of
    the namespace does nothing, whatever the cache directory holds by
    then. *)
Theorem load_reads_once (module_name : string) (files files' : gmap string CacheFile)
    (c : Cache.state) (r : FunctionRegistry.state) :
  Cache.load module_name files'
    (Cache.load module_name files c r).1 (Cache.load module_name files c r).2
  = Cache.load module_name files c r ∧
  (module_name ∉ Cache._loaded_modules c →
   files !! Cache.module_name_to_cache_file module_name = None ∨
   files !! Cache.module_name_to_cache_file module_name = Some Unreadable →
   Cache._cache (Cache.load module_name files c r).1 = Cache._cache c ∧
   (Cache.load module_name files c r).2 = r ∧
   ∀ records,
     files' !! Cache.module_name_to_cache_file module_name = Some (Partition records) →
     Cache._cache (Cache.load module_name files'
                     (Cache.load module_name files c r).1
                     (Cache.load module_name files c r).2).1
     = Cache._cache c).
Proof.
  assert (module_name ∈ Cache._loaded_modules (Cache.load module_name files c r).1)
    as Hflag.
  { unfold Cache.load. destruct (decide (module_name ∈ Cache._loaded_modules c));
      [done |].
    destruct (files !! Cache.module_name_to_cache_file module_name) as [[records|]|];
      simpl; apply elem_of_union_l; by apply elem_of_singleton. }
  assert (Cache.load module_name files'
            (Cache.load module_name files c r).1 (Cache.load module_name files c r).2
          = Cache.load module_name files c r) as Honce.
  { unfold Cache.load at 1. rewrite decide_True by done.
    by destruct (Cache.load module_name files c r). }
  split; [done |].
  intros Hnew Hfile. rewrite Honce.
  unfold Cache.load. rewrite decide_False by done.
  by destruct Hfile as [-> | ->].
Qed.

Lemma load_reads_once_witness :
  Cache._cache
    (Cache.load "demo" (files Scenario.start_frozen)
       (Cache.load "demo" ∅ Cache.empty FunctionRegistry.empty).1
       (Cache.load "demo" ∅ Cache.empty FunctionRegistry.empty).2).1
  = ∅.
Proof.
  destruct (load_reads_once "demo" ∅ (files Scenario.start_frozen) Cache.empty
              FunctionRegistry.empty) as [_ Hmissing].
  destruct Hmissing as (_ & _ & Hlater).
  - apply not_elem_of_empty.
  - left. reflexivity.
  - eapply Hlater. vm_compute. reflexivity.
Defined.

(** X3.  A load merges the file into the in-memory store with the file winning:
    a record read from the file replaces the in-memory record of the same
    name, also one that [Cache.store] put there in this process, and records
    under other names stay. *)
Theorem load_prefers_file_record (module_name k : string)
    (files : gmap string CacheFile) (c : Cache.state) (r : FunctionRegistry.state)
    (records : gmap string (gmap string string)) :
  module_name ∉ Cache._loaded_modules c →
  files !! Cache.module_name_to_cache_file module_name = Some (Partition records) →
  (∀ e, records !! k = Some e →
     ∀ h impl,
       Cache.get k (Cache.load module_name files (Cache.store k h impl c) r).1
       = Some e) ∧
  (records !! k = None →
   Cache.get k (Cache.load module_name files c r).1 = Cache.get k c).
Proof.
  intros Hnew Hfile. split.
  - intros e He h impl. unfold Cache.load.
    rewrite decide_False by done. rewrite Hfile.
    unfold Cache.get. simpl. by rewrite lookup_union, He, union_Some_l.
  - intros Hnone. unfold Cache.load.
    rewrite decide_False by done. rewrite Hfile.
    unfold Cache.get. simpl. by rewrite lookup_union, Hnone, (left_id None _).
Qed.

Lemma load_prefers_file_record_witness :
  Cache.get "demo.double"
    (Cache.load "demo" (files Scenario.start_frozen)
       (Cache.store "demo.double" "fresh" "return n * 2" Cache.empty)
       FunctionRegistry.empty).1
  = Some {[ "hash" := "stale"; "implementation" := "return n + n" ]}.
Proof.
  refine (proj1 (load_prefers_file_record "demo" "demo.double"
                   (files Scenario.start_frozen) Cache.empty FunctionRegistry.empty
                   {[ "demo.double" :=
                        {[ "hash" := "stale"; "implementation" := "return n + n" ]} ]}
                   _ _) _ _ "fresh" "return n * 2").
  - apply not_elem_of_empty.
  - vm_compute. reflexivity.
  - vm_compute. reflexivity.
Defined.

(** X4.  Module names that hold no underscore have cache files of their own: the
    file name determines the module name. *)
Theorem cache_file_determines_module (a b : string) :
  underscore_free a → underscore_free b →
  Cache.module_name_to_cache_file a = Cache.module_name_to_cache_file b → a = b.
Proof.
  intros Ha Hb Heq. unfold Cache.module_name_to_cache_file in Heq.
  apply string_app_inv_r in Heq.
  revert b Hb Heq. induction a as [|c a IH]; intros [|d b] Hb Heq; try done.
  simpl in *. apply andb_True in Ha as [Hc Ha]. apply andb_True in Hb as [Hd Hb].
  apply negb_True in Hc, Hd.
  injection Heq as Hhead Htail. f_equal; [| by apply IH].
  destruct (decide (c = "."%char)) as [->|]; destruct (decide (d = "."%char)) as [->|];
    try done.
  - subst d. destruct Hd. by apply bool_decide_pack.
  - subst c. destruct Hc. by apply bool_decide_pack.
Qed.

Lemma cache_file_determines_module_witness :
  Cache.module_name_to_cache_file "demo.trie" ≠ Cache.module_name_to_cache_file "demo".
Proof.
  intros Heq.
  pose proof (cache_file_determines_module "demo.trie" "demo" I I Heq) as Hsame.
  discriminate Hsame.
Defined.

(** ** Declaring again *)

(** X5.  Declaring a function again replaces its entry by the new specification
    with no implementation in it and leaves every other entry alone; but an
    implementation stored for the name before stays what the registry
    resolves, and the memoized decisions stay as they were. *)
Theorem redeclaration_keeps_implementation (f : PyFunction) (frz : bool)
    (r : FunctionRegistry.state) :
  let full_name := __module__ f +:+ "." +:+ __name__ f in
  (∃ md, FunctionRegistry.get full_name (parablock f frz r) = Some md ∧
         func md = f ∧ frozen md = frz ∧ implementation md = None ∧
         docstring md = default "" (getdoc f)) ∧
  (∀ k, k ≠ full_name →
     FunctionRegistry.get k (parablock f frz r) = FunctionRegistry.get k r) ∧
  (∀ impl,
     FunctionRegistry.get_implementation full_name
       (parablock f frz (FunctionRegistry.store_implementation full_name impl r))
     = Some impl) ∧
  (∀ k h, FunctionRegistry._needs_generation r !! k = Some h →
     ∀ (H : PythonRuntime) cached_hash,
       (FunctionRegistry.needs_generation (H := H) k cached_hash
          (parablock f frz r)).1 = h).
Proof.
  intros full_name. split_and!.
  - eexists. split; [apply lookup_insert_eq | done].
  - intros k Hk. unfold FunctionRegistry.get. rewrite parablock_registry.
    by apply lookup_insert_ne.
  - intros impl. unfold FunctionRegistry.get_implementation. simpl.
    by rewrite lookup_insert_eq.
  - intros k h Hk ? cached_hash. unfold FunctionRegistry.needs_generation.
    simpl. by rewrite Hk.
Qed.

Lemma redeclaration_keeps_implementation_witness :
  (FunctionRegistry.needs_generation (H := Scenario.runtime) "demo.double" None
     (parablock (define "demo" Scenario.double_frozen) true
        (FunctionRegistry.memoize "demo.double" true FunctionRegistry.empty))).1
  = true.
Proof.
  destruct (redeclaration_keeps_implementation (define "demo" Scenario.double_frozen)
              true (FunctionRegistry.memoize "demo.double" true FunctionRegistry.empty))
    as (_ & _ & _ & Hmemo).
  apply (Hmemo "demo.double" true).
  vm_compute. reflexivity.
Defined.

(** ** Processing passes *)

Lemma specs_same_hash `{PythonRuntime} (r r' : FunctionRegistry.state) (k : string)
    (md md' : FunctionMetadata) :
  specs r' = specs r →
  FunctionRegistry._registry r !! k = Some md →
  FunctionRegistry._registry r' !! k = Some md' →
  FunctionRegistry.get_hash md' = FunctionRegistry.get_hash md ∧
  frozen md' = frozen md.
Proof.
  intros Hspecs Hmd Hmd'.
  assert (Some (declared_part md') = Some (declared_part md)) as Heq
    by (by rewrite <- (fmap_Some_2 _ _ _ Hmd'), <- (fmap_Some_2 _ _ _ Hmd),
          <- !specs_lookup, Hspecs).
  injection Heq as _ _ _ _ Hdoc Hsig Hfrozen.
  unfold FunctionRegistry.get_hash. by rewrite Hdoc, Hsig.
Qed.

Lemma registered_in_get_all (r : FunctionRegistry.state) (k : string)
    (md : FunctionMetadata) :
  FunctionRegistry._registry r !! k = Some md → md ∈ FunctionRegistry.get_all r.
Proof.
  intros Hk. unfold FunctionRegistry.get_all.
  apply list_elem_of_fmap. exists (k, md). split; [done |].
  by apply elem_of_map_to_list.
Qed.

Section pass_properties.
Context `{PythonRuntime} {O : Type} `{SynthesisOracle O}.
Implicit Types w : World O.

(** A property of the state and the flag that every iteration keeps is kept
    by the loop. *)
Lemma process_steps_preserve_flag (P : World O * bool → Prop)
    (Q : FunctionMetadata → Prop) :
  (∀ md acc, Q md → P acc → P (Processor.process_step acc md)) →
  ∀ functions acc,
    Forall Q functions → P acc → P (foldl Processor.process_step acc functions).
Proof.
  intros Hstep functions.
  induction functions as [|md functions IH]; intros acc Hall Hacc; [done |].
  apply Forall_cons in Hall as [Hmd Hall]. simpl. apply IH; [done |]. by apply Hstep.
Qed.

Lemma process_step_unfold (acc : World O * bool) (md : FunctionMetadata) :
  Processor.process_step acc md
  = ((Processor.process_function md acc.1).1,
     acc.2 && succeeded (Processor.process_function md acc.1).2).
Proof.
  unfold Processor.process_step. by destruct (Processor.process_function md acc.1).
Qed.

(** A successful run of the loop stored an implementation. *)
Lemma attempts_success (remaining attempt : nat) (f : PyFunction) (nm doc : string)
    (sg : Signature) (test_code : string) (feedback : option string) w w'
    (err : option string) :
  Processor.attempts remaining attempt f nm doc sg test_code feedback w
    = (w', (true, err)) →
  ∃ impl, registry w'
          = FunctionRegistry.store_implementation (__module__ f +:+ "." +:+ nm) impl
              (registry w).
Proof.
  intros Hloop.
  apply attempts_spec in Hloop as (new & _ & _ & _ & _ & _ & _ & _ & Hlast).
  destruct (last new) as [c|]; [| by destruct Hlast].
  destruct (call_reply c) as [[] impl]; [| by destruct Hlast].
  destruct (TestRunner.run_test f impl test_code) as [[] d]; [| by destruct Hlast].
  exists impl. apply Hlast.
Qed.

(** What processing one function leaves alone, and what it only adds to. *)
Lemma process_function_grows (md : FunctionMetadata) w w' (outcome : Outcome) :
  Processor.process_function md w = (w', outcome) →
  files w' = files w ∧
  Cache._loaded_modules (cache w') = Cache._loaded_modules (cache w) ∧
  (∀ k, is_Some (Cache._cache (cache w) !! k) →
        is_Some (Cache._cache (cache w') !! k)) ∧
  (∀ k, is_Some (FunctionRegistry._implementations (registry w) !! k) →
        is_Some (FunctionRegistry._implementations (registry w') !! k)) ∧
  (succeeded outcome → __module__ (func md) = module md →
   is_Some (FunctionRegistry._implementations (registry w') !! get_full_name md)).
Proof.
  unfold Processor.process_function.
  destruct (FunctionRegistry.needs_generation _ _ (registry w)) as [needs r] eqn:Hdecision.
  apply needs_generation_memoizes in Hdecision as (_ & _ & Himpls & _).
  assert (∀ k i (r0 : FunctionRegistry.state) k',
            is_Some (FunctionRegistry._implementations r0 !! k') →
            is_Some (FunctionRegistry._implementations
                       (FunctionRegistry.store_implementation k i r0) !! k'))
    as Hstore.
  { intros k i r0 k' Hk'. simpl. destruct (decide (k = k')) as [->|].
    - by rewrite lookup_insert_eq.
    - by rewrite lookup_insert_ne. }
  destruct needs; cbn [negb].
  - unfold Processor._generate_and_test.
    destruct (Processor.attempts _ _ _ _ _ _ _ _ _) as [w1 [ok err]] eqn:Hloop.
    pose proof Hloop as Hspec.
    apply attempts_spec in Hspec
      as (_ & _ & _ & _ & _ & _ & _ & (Hcache & Hfiles & _) & _).
    pose proof (attempts_registry _ _ _ _ _ _ _ _ _ _ _ Hloop) as (Hregistry & _).
    assert (∀ k, is_Some (FunctionRegistry._implementations (registry w) !! k) →
                 is_Some (FunctionRegistry._implementations (registry w1) !! k))
      as Hmono.
    { intros k Hk. rewrite <- Himpls in Hk.
      destruct Hregistry as [-> | [impl ->]]; [done | by apply Hstore]. }
    destruct ok.
    + apply attempts_success in Hloop as [impl Hstored].
      assert (__module__ (func md) = module md →
              is_Some (FunctionRegistry._implementations (registry w1)
                         !! get_full_name md)) as Hnow.
      { intros Hcons. rewrite Hstored, Hcons. simpl.
        unfold get_full_name. by rewrite lookup_insert_eq. }
      destruct (FunctionRegistry.get_implementation _ (registry w1)) as [[|a s]|];
        intros [= <- <-]; simpl; rewrite ?Hcache, ?Hfiles; split_and!; try done;
        try (intros _; exact Hnow).
      intros k Hk. destruct (decide (get_full_name md = k)) as [->|].
      * by rewrite lookup_insert_eq.
      * by rewrite lookup_insert_ne.
    + intros [= <- <-]. rewrite Hcache, Hfiles. split_and!; try done.
  - destruct (Py.truthy_dict _); intros [= <- <-]; simpl; split_and!; try done.
    + intros k Hk. apply Hstore. by rewrite Himpls.
    + intros _ _. by rewrite lookup_insert_eq.
    + intros k Hk. by rewrite Himpls.
Qed.

Lemma import_module_frame (module_name : string) w w1 :
  import_module module_name w = Some w1 →
  files w1 = files w ∧ cache w1 = cache w ∧ oracle w1 = oracle w ∧
  oracle_calls w1 = oracle_calls w ∧ module_sources w1 = module_sources w ∧
  sys_modules w ⊆ sys_modules w1 ∧
  FunctionRegistry._implementations (registry w1)
    = FunctionRegistry._implementations (registry w) ∧
  FunctionRegistry._needs_generation (registry w1)
    = FunctionRegistry._needs_generation (registry w).
Proof.
  unfold import_module.
  destruct (decide (module_name ∈ sys_modules w)); [by intros [= <-] |].
  destruct (module_sources w !! module_name) as [decls|]; [| done].
  intros [= <-]. simpl.
  destruct (exec_module_tables module_name decls (registry w)) as [-> ->].
  split_and!; try done. set_solver.
Qed.

Lemma cache_load_grows (module_name : string) w :
  files (cache_load module_name w) = files w ∧
  Cache._loaded_modules (cache w) ⊆ Cache._loaded_modules (cache (cache_load module_name w)) ∧
  (∀ k, is_Some (Cache._cache (cache w) !! k) →
        is_Some (Cache._cache (cache (cache_load module_name w)) !! k)) ∧
  (∀ k, is_Some (FunctionRegistry._implementations (registry w) !! k) →
        is_Some (FunctionRegistry._implementations
                   (registry (cache_load module_name w)) !! k)).
Proof.
  unfold cache_load, Cache.load.
  destruct (decide (module_name ∈ Cache._loaded_modules (cache w))); [done |].
  destruct (files w !! Cache.module_name_to_cache_file module_name) as [[records|]|];
    simpl; split_and!; try done; try set_solver.
  - intros k [e He]. rewrite lookup_union.
    destruct (records !! k) as [e'|];
      [rewrite union_Some_l | rewrite (left_id None _), He]; by eexists.
  - intros k [i Hi]. rewrite populate_registry_implementations.
    destruct (records !! k ≫= _); [by eexists |]. by rewrite Hi.
Qed.

(** X6.  The edges of a pass over a module whose parent package is imported
    already, or that has none, so that the import runs no other module.  When
    the module is not found the pass reports failure and changes nothing.
    When the namespace holds no declared function the pass reports success
    after importing the module and loading its cache; it writes no cache file
    and calls no oracle. *)
Theorem pass_without_functions (module_name : string) w :
  parent_module module_name = "" ∨ parent_module module_name ∈ sys_modules w →
  (module_name ∉ sys_modules w → module_sources w !! module_name = None →
   Processor.process_module module_name w = (w, false)) ∧
  (∀ w1, import_module module_name w = Some w1 →
     (∀ md, md ∈ FunctionRegistry.get_all (registry (cache_load module_name w1)) →
            ¬ Processor.in_module module_name md) →
     Processor.process_module module_name w = (cache_load module_name w1, true) ∧
     files (Processor.process_module module_name w).1 = files w ∧
     oracle_calls (Processor.process_module module_name w).1 = oracle_calls w).
Proof.
  intros _. split.
  - intros Hnew Hsrc. unfold Processor.process_module, import_module.
    rewrite decide_False by done. by rewrite Hsrc.
  - intros w1 Himport Hnone.
    assert (Processor.process_module module_name w = (cache_load module_name w1, true))
      as Hpass.
    { unfold Processor.process_module. rewrite Himport.
      destruct (filter _ _) as [|md functions] eqn:Hfilter; [done |].
      assert (md ∈ filter (λ md, Processor.in_module module_name md)
                     (FunctionRegistry.get_all (registry (cache_load module_name w1))))
        as Hin by (rewrite Hfilter; apply list_elem_of_here).
      apply list_elem_of_filter in Hin as [Hmod Hin]. by destruct (Hnone md Hin). }
    rewrite Hpass. simpl.
    destruct (import_module_frame _ _ _ Himport) as (Hfiles & _ & _ & Hcalls & _).
    destruct (cache_load_grows module_name w1) as (Hfiles' & _).
    destruct (cache_load_frame module_name w1) as (_ & _ & _ & _ & _ & Hcalls').
    by rewrite Hfiles', Hfiles, Hcalls', Hcalls.
Qed.

End pass_properties.

Lemma pass_without_functions_witness :
  let w := default Scenario.start_package
             (import_module (O := nat) "pkg" Scenario.start_package) in
  Processor.process_module (H := Scenario.runtime) (H0 := Scenario.counting_oracle)
    "pkg.missing" w = (w, false).
Proof.
  intros w.
  refine (proj1 (pass_without_functions (H := Scenario.runtime)
                   (H0 := Scenario.counting_oracle) "pkg.missing" w _) _ _).
  - right. apply (bool_decide_unpack (parent_module "pkg.missing" ∈ sys_modules w)).
    vm_compute. exact I.
  - apply (bool_decide_unpack ("pkg.missing" ∉ sys_modules w)). vm_compute. exact I.
  - vm_compute. reflexivity.
Defined.

Section pass_frame.
Context `{PythonRuntime} {O : Type} `{SynthesisOracle O}.
Implicit Types w : World O.

(** X7.  What a pass never does: it writes no cache file but the one of its
    module, drops no in-memory record, no loaded flag, no stored
    implementation and no imported module, and leaves the sources alone. *)
Theorem pass_only_adds (module_name : string) w :
  (∀ path, path ≠ Cache.module_name_to_cache_file module_name →
     files (Processor.process_module module_name w).1 !! path = files w !! path) ∧
  (∀ k, is_Some (Cache._cache (cache w) !! k) →
        is_Some (Cache._cache (cache (Processor.process_module module_name w).1) !! k)) ∧
  Cache._loaded_modules (cache w)
    ⊆ Cache._loaded_modules (cache (Processor.process_module module_name w).1) ∧
  (∀ k, is_Some (FunctionRegistry._implementations (registry w) !! k) →
        is_Some (FunctionRegistry._implementations
                   (registry (Processor.process_module module_name w).1) !! k)) ∧
  sys_modules w ⊆ sys_modules (Processor.process_module module_name w).1 ∧
  module_sources (Processor.process_module module_name w).1 = module_sources w.
Proof.
  unfold Processor.process_module.
  destruct (import_module module_name w) as [w1|] eqn:Himport; [| done].
  destruct (import_module_frame _ _ _ Himport)
    as (Hfiles1 & Hcache1 & _ & _ & Hsrcs1 & Hmods1 & Himpls1 & _).
  destruct (cache_load_grows module_name w1) as (Hfiles2 & Hloaded2 & Hcache2 & Himpls2).
  destruct (cache_load_frame module_name w1) as (_ & _ & Hmods2 & Hsrcs2 & _).
  set (w2 := cache_load module_name w1) in *.
  assert (files w2 = files w ∧
          (∀ k, is_Some (Cache._cache (cache w) !! k) →
                is_Some (Cache._cache (cache w2) !! k)) ∧
          Cache._loaded_modules (cache w) ⊆ Cache._loaded_modules (cache w2) ∧
          (∀ k, is_Some (FunctionRegistry._implementations (registry w) !! k) →
                is_Some (FunctionRegistry._implementations (registry w2) !! k)) ∧
          sys_modules w ⊆ sys_modules w2 ∧ module_sources w2 = module_sources w)
    as Hstart.
  { rewrite Hfiles2, Hfiles1, Hmods2, Hsrcs2, Hsrcs1, <- Hcache1, <- Himpls1.
    by split_and!. }
  destruct (filter _ (FunctionRegistry.get_all (registry w2))) as [|md functions].
  { simpl. destruct Hstart as (-> & ? & ? & ? & ? & ?). done. }
  unfold Processor.process_functions.
  pose proof (process_steps_preserve
    (λ w', files w' = files w ∧
           (∀ k, is_Some (Cache._cache (cache w) !! k) →
                 is_Some (Cache._cache (cache w') !! k)) ∧
           Cache._loaded_modules (cache w) ⊆ Cache._loaded_modules (cache w') ∧
           (∀ k, is_Some (FunctionRegistry._implementations (registry w) !! k) →
                 is_Some (FunctionRegistry._implementations (registry w') !! k)) ∧
           sys_modules w ⊆ sys_modules w' ∧ module_sources w' = module_sources w)
    (λ _, True)) as Hloop.
  specialize (Hloop ltac:(
    intros md' wa wb outcome _ Hrun (Hf & Hc & Hl & Hi & Hm & Hs);
    destruct (process_function_grows md' wa wb outcome Hrun)
      as (Hf' & Hl' & Hc' & Hi' & _);
    destruct (process_function_frame md' wa wb outcome Hrun) as (_ & Hm' & Hs' & _);
    rewrite Hf', Hl', Hm', Hs'; split_and!; try done;
      [intros k Hk; by apply Hc', Hc | intros k Hk; by apply Hi', Hi])
    (md :: functions) (w2, true) ltac:(by apply Forall_true) Hstart).
  destruct (foldl _ _ _) as [w3 success]. simpl in *.
  destruct Hloop as (Hf & ? & ? & ? & ? & ?). split_and!; try done.
  intros path Hpath. unfold Cache.save. by rewrite lookup_insert_ne, Hf.
Qed.

End pass_frame.

Section pass_success.
Context `{PythonRuntime} {O : Type} `{SynthesisOracle O}.
Implicit Types w : World O.

(** When the loop ends with the flag set, the flag was set before it and
    every function of the list has a stored implementation. *)
Lemma process_steps_success (functions : list FunctionMetadata)
    (acc : World O * bool) w' :
  Forall (λ md, __module__ (func md) = module md) functions →
  foldl Processor.process_step acc functions = (w', true) →
  acc.2 = true ∧
  (∀ k, is_Some (FunctionRegistry._implementations (registry acc.1) !! k) →
        is_Some (FunctionRegistry._implementations (registry w') !! k)) ∧
  ∀ md, md ∈ functions →
    is_Some (FunctionRegistry._implementations (registry w') !! get_full_name md).
Proof.
  revert acc. induction functions as [|md functions IH]; intros acc Hall Hrun.
  - simpl in Hrun. subst acc. split_and!; try done. intros md Hmd. by inversion Hmd.
  - apply Forall_cons in Hall as [Hmd Hall]. simpl in Hrun.
    destruct (IH _ Hall Hrun) as (Hflag & Hmono & Hrest).
    rewrite process_step_unfold in Hflag, Hmono. simpl in Hflag, Hmono.
    apply andb_true_iff in Hflag as [Hacc Hok].
    destruct (Processor.process_function md acc.1) as [w1 outcome] eqn:Hstep.
    destruct (process_function_grows _ _ _ _ Hstep) as (_ & _ & _ & Himpls & Hnow).
    simpl in *. split_and!; [done | intros k Hk; by apply Hmono, Himpls |].
    intros md' [-> | Hin]%elem_of_cons; [| by apply Hrest].
    apply Hmono, Hnow; [by rewrite Hok | done].
Qed.

Lemma cache_load_flag (module_name : string) w :
  module_name ∈ Cache._loaded_modules (cache (cache_load module_name w)).
Proof.
  unfold cache_load, Cache.load.
  destruct (decide (module_name ∈ Cache._loaded_modules (cache w))); [done |].
  destruct (files w !! Cache.module_name_to_cache_file module_name) as [[records|]|];
    simpl; apply elem_of_union_l; by apply elem_of_singleton.
Qed.

Lemma cache_load_loaded (module_name : string) w :
  module_name ∈ Cache._loaded_modules (cache w) → cache_load module_name w = w.
Proof.
  intros Hloaded. unfold cache_load, Cache.load. rewrite decide_True by done.
  by destruct w.
Qed.

(** X8.  A pass that reports success leaves every function of the namespace with
    a stored implementation; a call of a function of the processed module
    then executes that text, unless it is empty. *)
Theorem successful_pass_resolves_functions (module_name : string) w :
  reachable w →
  (Processor.process_module module_name w).2 = true →
  ∀ k md,
    FunctionRegistry.get k (registry (Processor.process_module module_name w).1)
      = Some md →
    Processor.in_module module_name md →
    ∃ impl,
      FunctionRegistry.get_implementation k
        (registry (Processor.process_module module_name w).1) = Some impl ∧
      (module md = module_name → impl ≠ "" →
       ∀ args : list string,
         (wrapper (func md) args (Processor.process_module module_name w).1).2
         = Executes (implementation_func_source (func md) impl) args).
Proof.
  intros Hreach Hflag k md Hk Hin.
  pose proof (reachable_invariant w Hreach) as Hw.
  revert Hflag k md Hk Hin.
  unfold Processor.process_module.
  destruct (import_module module_name w) as [w1|] eqn:Himport; [| done].
  pose proof (invariant_cache_load module_name w1 (invariant_import _ _ _ Hw Himport))
    as (Hcons & _).
  pose proof (cache_load_flag module_name w1) as Hloaded.
  set (w2 := cache_load module_name w1) in *.
  pose proof (process_steps_preserve
    (λ w', specs (registry w') = specs (registry w2) ∧
           module_name ∈ Cache._loaded_modules (cache w'))
    (λ _, True)) as Hloop.
  specialize (Hloop ltac:(
    intros md' wa wb outcome _ Hrun [Hs Hl];
    destruct (process_function_grows md' wa wb outcome Hrun) as (_ & Hl' & _);
    destruct (process_function_frame md' wa wb outcome Hrun) as (Hs' & _);
    by rewrite Hs', Hl')).
  assert (∀ w3 : World O,
            specs (registry w3) = specs (registry w2) →
            module_name ∈ Cache._loaded_modules (cache w3) →
            (∀ md0, md0 ∈ filter (λ md, Processor.in_module module_name md)
                             (FunctionRegistry.get_all (registry w2)) →
                    is_Some (FunctionRegistry._implementations (registry w3)
                               !! get_full_name md0)) →
            ∀ k md, FunctionRegistry.get k (registry w3) = Some md →
              Processor.in_module module_name md →
              ∃ impl, FunctionRegistry.get_implementation k (registry w3) = Some impl ∧
                (module md = module_name → impl ≠ "" →
                 ∀ args : list string,
                   (wrapper (func md) args w3).2
                   = Executes (implementation_func_source (func md) impl) args))
    as Hend.
  { intros w3 Hspecs Hl Hall k md Hk Hin.
    destruct (specs_same_entry _ _ _ _ Hspecs Hk) as (md0 & Hk0 & Hf & Hn & Hm & _).
    destruct (Hcons _ _ Hk0) as (Hname & Hfm & Hfn & _).
    assert (is_Some (FunctionRegistry._implementations (registry w3) !! k))
      as [impl Himpl].
    { rewrite Hname. apply Hall. apply list_elem_of_filter. split.
      - unfold Processor.in_module in *. by rewrite Hm.
      - by eapply registered_in_get_all. }
    assert (FunctionRegistry.get_implementation k (registry w3) = Some impl) as Hget
      by (unfold FunctionRegistry.get_implementation; by rewrite Himpl).
    exists impl. split; [done |].
    intros Hmod Hne args. destruct impl as [|a s]; [done |].
    unfold wrapper. apply pararun_with_implementation.
    rewrite <- Hf, Hfm, Hfn, Hm, Hmod, cache_load_loaded by done.
    unfold get_full_name in Hname. by rewrite <- Hmod, <- Hm, <- Hname. }
  destruct (filter _ (FunctionRegistry.get_all (registry w2)))
    as [|md1 functions] eqn:Hfilter.
  - intros _. apply Hend; try done. intros md0 Hmd0. by inversion Hmd0.
  - unfold Processor.process_functions.
    specialize (Hloop (md1 :: functions) (w2, true) ltac:(by apply Forall_true)
                  ltac:(done)).
    destruct (foldl _ _ _) as [w3 success] eqn:Hrun.
    intros Hflag. simpl in Hflag. subst success. destruct Hloop as [Hspecs Hl].
    apply (Hend (cache_save module_name w3)); try done.
    apply (process_steps_success _ _ _) in Hrun as (_ & _ & Hall); [done |].
    rewrite <- Hfilter. apply Forall_forall. intros md0 Hmd0.
    apply list_elem_of_filter in Hmd0 as [_ Hmd0].
    apply get_all_registered in Hmd0 as [k0 Hk0]. by destruct (Hcons _ _ Hk0) as (_ & ? & _).
Qed.

End pass_success.

Lemma successful_pass_resolves_functions_witness :
  ∃ impl,
    FunctionRegistry.get_implementation "demo.double"
      (registry (Processor.process_module (H := Scenario.runtime)
                   (H0 := Scenario.counting_oracle) "demo" Scenario.start).1)
    = Some impl ∧
    (module (set_implementation "return n * 2" (declared "demo" Scenario.double))
     = "demo" →
     impl ≠ "" →
     ∀ args : list string,
       (wrapper (H := Scenario.runtime)
          (func (set_implementation "return n * 2" (declared "demo" Scenario.double)))
          args
          (Processor.process_module (H := Scenario.runtime)
             (H0 := Scenario.counting_oracle) "demo" Scenario.start).1).2
       = Executes
           (implementation_func_source (H := Scenario.runtime)
              (func (set_implementation "return n * 2"
                       (declared "demo" Scenario.double))) impl) args).
Proof.
  apply (successful_pass_resolves_functions (H := Scenario.runtime)
           (H0 := Scenario.counting_oracle) "demo" Scenario.start).
  - apply reach_fresh. apply map_Forall_singleton, Forall_singleton. exact I.
  - vm_compute. reflexivity.
  - vm_compute. reflexivity.
  - vm_compute. exact I.
Defined.

(** ** A pass over an up-to-date cache *)

Section up_to_date.
Context `{PythonRuntime} {O : Type} `{SynthesisOracle O}.
Implicit Types w : World O.

Lemma process_function_up_to_date (md : FunctionMetadata) w w' (outcome : Outcome) :
  specs (registry w) !! get_full_name md = Some (declared_part md) →
  FunctionRegistry._needs_generation (registry w) !! get_full_name md ≠ Some true →
  up_to_date (cache w) md →
  Processor.process_function md w = (w', outcome) →
  outcome = UsedCache ∧ oracle_calls w' = oracle_calls w ∧ oracle w' = oracle w ∧
  cache w' = cache w ∧ files w' = files w ∧
  specs (registry w') = specs (registry w) ∧
  (∀ k, FunctionRegistry._needs_generation (registry w') !! k = Some true →
        FunctionRegistry._needs_generation (registry w) !! k = Some true) ∧
  FunctionRegistry._implementations (registry w')
  = <[get_full_name md := cached_implementation (cache w) (get_full_name md)]>
      (FunctionRegistry._implementations (registry w)).
Proof.
  intros Hspec Hmemo (entry & Hentry & Hne & Hfresh).
  assert ((FunctionRegistry.needs_generation (get_full_name md)
             (Processor.entry_hash (Some entry)) (registry w)).1 = false) as Hdecision.
  { unfold FunctionRegistry.needs_generation.
    destruct (FunctionRegistry._needs_generation (registry w) !! get_full_name md)
      as [[]|] eqn:Hm; [done | done |].
    rewrite specs_lookup in Hspec.
    destruct (FunctionRegistry._registry (registry w) !! get_full_name md)
      as [md0|]; [| done].
    injection Hspec as _ _ _ _ Hdoc Hsig Hfrozen.
    destruct (frozen md0); [done |].
    destruct Hfresh as [Hf | Hhash]; [congruence |].
    unfold Processor.entry_hash. simpl. rewrite bool_decide_eq_false_2 by done.
    simpl. rewrite Hhash. simpl. rewrite bool_decide_eq_true_2; [done |].
    unfold FunctionRegistry.get_hash, get_function_hash. by rewrite Hdoc, Hsig. }
  unfold Processor.process_function, cached_implementation. rewrite Hentry.
  destruct (FunctionRegistry.needs_generation _ _ (registry w)) as [needs r] eqn:Hd.
  simpl in Hdecision. subst needs.
  apply needs_generation_memoizes in Hd as (Hk & Hreg & Himpls & Hother).
  cbn [negb]. simpl. rewrite bool_decide_eq_false_2 by done. simpl.
  intros [= <- <-]. simpl. split_and!; try done.
  - rewrite specs_store. unfold specs. by rewrite Hreg.
  - intros k. destruct (decide (k = get_full_name md)) as [->|Hne'].
    + by rewrite Hk.
    + by rewrite Hother.
  - by rewrite Himpls.
Qed.

Lemma process_steps_up_to_date (sp : gmap string FunctionMetadata) (c : Cache.state)
    (functions : list FunctionMetadata) :
  Forall (λ md, sp !! get_full_name md = Some (declared_part md) ∧ up_to_date c md)
         functions →
  ∀ acc : World O * bool,
    specs (registry acc.1) = sp → cache acc.1 = c →
    (∀ md, md ∈ functions →
       FunctionRegistry._needs_generation (registry acc.1) !! get_full_name md
       ≠ Some true) →
    (foldl Processor.process_step acc functions).2 = acc.2 ∧
    oracle_calls (foldl Processor.process_step acc functions).1 = oracle_calls acc.1 ∧
    oracle (foldl Processor.process_step acc functions).1 = oracle acc.1 ∧
    cache (foldl Processor.process_step acc functions).1 = c ∧
    files (foldl Processor.process_step acc functions).1 = files acc.1 ∧
    ∀ k, FunctionRegistry._implementations
           (registry (foldl Processor.process_step acc functions).1) !! k
         = if decide (k ∈ get_full_name <$> functions)
           then Some (cached_implementation c k)
           else FunctionRegistry._implementations (registry acc.1) !! k.
Proof.
  induction 1 as [|md functions [Hspec Hfresh] Hall IH]; intros acc Hsp Hc Hmemo.
  - simpl. split_and!; try done.
  - simpl. rewrite process_step_unfold.
    destruct (Processor.process_function md acc.1) as [w1 outcome] eqn:Hstep.
    destruct (process_function_up_to_date md acc.1 w1 outcome)
      as (-> & Hcalls & Horacle & Hcache & Hfiles & Hspecs & Hmemo' & Himpls);
      try done;
      [by rewrite Hsp | apply Hmemo, list_elem_of_here | by rewrite Hc |].
    simpl.
    destruct (IH (w1, acc.2 && true)) as (Hflag & Hcalls' & Horacle' & Hc' & Hf' & Hi');
      simpl; [by rewrite Hspecs | by rewrite Hcache | |].
    { intros md' Hmd' Hpending%Hmemo'. revert Hpending.
      by apply Hmemo, list_elem_of_further. }
    simpl in *. rewrite Hflag, Hcalls', Horacle', Hc', Hf'.
    split_and!; try done; [by rewrite andb_true_r |].
    intros k. rewrite Hi', Himpls, Hc.
    destruct (decide (k ∈ get_full_name <$> functions)) as [Hin|Hout].
    + rewrite decide_True; [done |]. by apply list_elem_of_further.
    + destruct (decide (k = get_full_name md)) as [->|Hne].
      * rewrite lookup_insert_eq. rewrite decide_True; [done |]. apply list_elem_of_here.
      * rewrite lookup_insert_ne by done. rewrite decide_False; [done |].
        intros [?|?]%elem_of_cons; done.
Qed.

Lemma up_to_date_declared (c : Cache.state) (md md' : FunctionMetadata) :
  declared_part md = declared_part md' → up_to_date c md → up_to_date c md'.
Proof.
  intros [= _ Hn Hm _ Hdoc Hsig Hfrozen] (entry & Hentry & Hne & Hfresh).
  exists entry. unfold get_full_name. by rewrite <- Hn, <- Hm, <- Hdoc, <- Hsig, <- Hfrozen.
Qed.

Lemma pass_over_usable_records (module_name : string) w w1 :
  invariant w →
  import_module module_name w = Some w1 →
  (∀ k md, FunctionRegistry.get k (registry w1) = Some md →
           Processor.in_module module_name md →
           FunctionRegistry._needs_generation (registry w) !! k ≠ Some true) →
  (∀ k md, FunctionRegistry.get k (registry w1) = Some md →
           Processor.in_module module_name md →
           up_to_date (cache (cache_load module_name w1)) md) →
  (Processor.process_module module_name w).2 = true ∧
  oracle_calls (Processor.process_module module_name w).1 = oracle_calls w ∧
  oracle (Processor.process_module module_name w).1 = oracle w ∧
  cache (Processor.process_module module_name w).1 = cache (cache_load module_name w1) ∧
  ∀ k md, FunctionRegistry.get k (registry w1) = Some md →
    Processor.in_module module_name md →
    FunctionRegistry.get_implementation k
      (registry (Processor.process_module module_name w).1)
    = Some (cached_implementation (cache (cache_load module_name w1)) k).
Proof.
  intros Hw Himport Hmemo Hrecords.
  pose proof (invariant_import _ _ _ Hw Himport) as Hw1.
  pose proof (invariant_cache_load module_name w1 Hw1) as (Hcons & _).
  destruct (import_module_frame _ _ _ Himport)
    as (_ & _ & Horacle1 & Hcalls1 & _ & _ & _ & Hmemo1).
  destruct (cache_load_frame module_name w1)
    as (Hspecs2 & Hmemo2 & _ & _ & Horacle2 & Hcalls2).
  unfold Processor.process_module. rewrite Himport.
  set (w2 := cache_load module_name w1) in *.
  set (functions := filter (λ md, Processor.in_module module_name md)
                           (FunctionRegistry.get_all (registry w2))).
  assert (∀ k md, FunctionRegistry.get k (registry w1) = Some md →
            Processor.in_module module_name md →
            ∃ md2, md2 ∈ functions ∧ k = get_full_name md2 ∧
                   declared_part md2 = declared_part md) as Hlisted.
  { intros k md Hk Hin. unfold FunctionRegistry.get in Hk.
    assert (specs (registry w2) !! k = Some (declared_part md)) as Hspec
      by (by rewrite Hspecs2, specs_lookup, Hk).
    rewrite specs_lookup in Hspec.
    destruct (FunctionRegistry._registry (registry w2) !! k) as [md2|] eqn:Hk2;
      [| done].
    simpl in Hspec.
    assert (declared_part md2 = declared_part md) as Hdecl by congruence.
    pose proof (f_equal module Hdecl) as Hm. simpl in Hm.
    exists md2. split_and!; [| by destruct (Hcons _ _ Hk2) | done].
    apply list_elem_of_filter. split; [| by eapply registered_in_get_all].
    unfold Processor.in_module in *. by rewrite Hm. }
  assert (Forall (λ md, (specs (registry w2) !! get_full_name md
                         = Some (declared_part md) ∧ up_to_date (cache w2) md) ∧
                        FunctionRegistry._needs_generation (registry w2)
                          !! get_full_name md ≠ Some true)
                 functions) as Hall.
  { apply Forall_forall. intros md2 [Hin Hmd2]%list_elem_of_filter.
    apply get_all_registered in Hmd2 as [k Hk2].
    destruct (Hcons _ _ Hk2) as (-> & _).
    assert (specs (registry w1) !! get_full_name md2 = Some (declared_part md2))
      as Hspec by (by rewrite <- Hspecs2, specs_lookup, Hk2).
    rewrite specs_lookup in Hspec.
    destruct (FunctionRegistry._registry (registry w1) !! get_full_name md2)
      as [md|] eqn:Hk1; [| done].
    simpl in Hspec.
    assert (declared_part md = declared_part md2) as Hdecl by congruence.
    pose proof (f_equal module Hdecl) as Hm. simpl in Hm.
    assert (Processor.in_module module_name md) as Hin'
      by (unfold Processor.in_module in *; by rewrite Hm).
    split_and!.
    - by rewrite specs_lookup, Hk2.
    - apply (up_to_date_declared _ md); [done |].
      by apply (Hrecords (get_full_name md2)).
    - rewrite Hmemo2, Hmemo1. by apply (Hmemo _ md). }
  apply Forall_and in Hall as [Hall Hquiet].
  destruct (process_steps_up_to_date _ _ _ Hall (w2, true))
    as (Hflag & Hcalls & Horacle & Hcache & _ & Himpls); try done.
  { intros md Hmd. by apply (proj1 (Forall_forall _ _) Hquiet). }
  fold functions. unfold Processor.process_functions.
  destruct functions as [|md1 functions'] eqn:Hfunctions.
  - simpl. rewrite Horacle2, Hcalls2. split_and!; try done.
    intros k md Hk Hin. destruct (Hlisted k md Hk Hin) as (md2 & Hmd2 & _).
    by inversion Hmd2.
  - rewrite <- Hfunctions in *.
    destruct (foldl Processor.process_step (w2, true) functions) as [w3 success].
    simpl in *. rewrite Hcalls, Horacle, Horacle2, Hcalls2. split_and!; try done.
    intros k md Hk Hin. destruct (Hlisted k md Hk Hin) as (md2 & Hmd2 & -> & _).
    unfold FunctionRegistry.get_implementation. rewrite Himpls.
    rewrite decide_True; [done |]. by apply list_elem_of_fmap_2.
Qed.

(** X9.  A pass over a namespace whose functions all have a usable cache record,
    in a process that holds no decision to generate for them (a new process
    holds none): the pass reports success, calls no oracle, leaves the
    in-memory cache as loaded, and every function of the namespace resolves
    to the implementation of its record. *)
Theorem up_to_date_pass_calls_no_oracle (module_name : string) w w1 :
  reachable w →
  import_module module_name w = Some w1 →
  (∀ k md, FunctionRegistry.get k (registry w1) = Some md →
           Processor.in_module module_name md →
           FunctionRegistry._needs_generation (registry w) !! k ≠ Some true) →
  (∀ k md, FunctionRegistry.get k (registry w1) = Some md →
           Processor.in_module module_name md →
           up_to_date (cache (cache_load module_name w1)) md) →
  (Processor.process_module module_name w).2 = true ∧
  oracle_calls (Processor.process_module module_name w).1 = oracle_calls w ∧
  oracle (Processor.process_module module_name w).1 = oracle w ∧
  cache (Processor.process_module module_name w).1 = cache (cache_load module_name w1) ∧
  ∀ k md, FunctionRegistry.get k (registry w1) = Some md →
    Processor.in_module module_name md →
    FunctionRegistry.get_implementation k
      (registry (Processor.process_module module_name w).1)
    = Some (cached_implementation (cache (cache_load module_name w1)) k).
Proof.
  intros Hreach. apply pass_over_usable_records. by apply reachable_invariant.
Qed.

End up_to_date.

Lemma up_to_date_pass_calls_no_oracle_witness :
  let first_run :=
    (Processor.process_module (H := Scenario.runtime) (H0 := Scenario.counting_oracle)
       "demo" Scenario.start).1 in
  let restarted :=
    fresh_process (files first_run) (module_sources Scenario.start) (oracle first_run) in
  oracle_calls (Processor.process_module (H := Scenario.runtime)
                  (H0 := Scenario.counting_oracle) "demo" restarted).1 = [].
Proof.
  intros first_run restarted.
  refine (proj1 (proj2 (up_to_date_pass_calls_no_oracle (H := Scenario.runtime)
                          (H0 := Scenario.counting_oracle) "demo" restarted
                          (set_registry
                             (exec_module "demo" [Scenario.double] FunctionRegistry.empty)
                             (set_sys_modules {[ "demo" ]} restarted))
                          _ _ _ _))).
  - apply reach_fresh. apply map_Forall_singleton, Forall_singleton. exact I.
  - vm_compute. reflexivity.
  - intros k md _ _. vm_compute. discriminate.
  - intros k md [Hold | (d & Hd & -> & ->)]%exec_module_lookup _.
    + simpl in Hold. by rewrite lookup_empty in Hold.
    + apply list_elem_of_singleton in Hd as ->.
      exists {[ "hash" := "md5(double the input|(fn, n))";
                "implementation" := "return n * 2" ]}.
      split_and!.
      * vm_compute. reflexivity.
      * intros Hempty. apply (f_equal (λ e : gmap string string, e !! "hash")) in Hempty.
        vm_compute in Hempty. discriminate Hempty.
      * right. vm_compute. reflexivity.
Defined.
(** ** Reloading a module *)

(** After a module has run, every name it declares is registered, with the
    last definition of that name. *)
Lemma exec_module_registered (module_name : string) (decls : list Declaration)
    (r : FunctionRegistry.state) (n : string) :
  n ∈ decl_name <$> decls →
  ∃ d, d ∈ decls ∧ decl_name d = n ∧
       FunctionRegistry._registry (exec_module module_name decls r)
         !! (module_name +:+ "." +:+ n)
       = Some (declared module_name d).
Proof.
  revert r. induction decls as [|d0 decls IH]; intros r Hn; [by inversion Hn |].
  rewrite exec_module_cons.
  destruct (decide (n ∈ decl_name <$> decls)) as [Hlater | Hlast].
  - destruct (IH (parablock (define module_name d0) (decl_frozen d0) r) Hlater)
      as (d & Hd & Hname & Hlookup).
    exists d. split_and!; [by apply list_elem_of_further | done | done].
  - rewrite fmap_cons in Hn. apply elem_of_cons in Hn as [-> | Hn]; [| done].
    exists d0. split_and!; [apply list_elem_of_here | done |].
    rewrite exec_module_lookup_other.
    + rewrite parablock_registry. apply lookup_insert_eq.
    + intros d' Hd' Heq. apply Hlast.
      apply (inj (String.append module_name)), (inj (String.append ".")) in Heq.
      rewrite Heq.
      by apply list_elem_of_fmap_2.
Qed.

Section reload_properties.
Context `{PythonRuntime} {O : Type} `{SynthesisOracle O}.
Implicit Types w : World O.

(** The records that a load leaves in memory depend on the cache directory
    and on the records in memory, not on the registry. *)
Lemma cache_load_cache (module_name : string) w w' :
  files w' = files w → cache w' = cache w →
  cache (cache_load module_name w') = cache (cache_load module_name w).
Proof.
  intros Hfiles Hcache. unfold cache_load, Cache.load. rewrite Hfiles, Hcache.
  destruct (decide (module_name ∈ Cache._loaded_modules (cache w))); [done |].
  by destruct (files w !! Cache.module_name_to_cache_file module_name) as [[records|]|].
Qed.

Lemma reload_module_reloaded (module_name : string) (decls : list Declaration) w :
  module_name ∈ sys_modules w →
  module_sources w !! module_name = Some decls →
  Processor._reload_module module_name w
  = (Processor.process_module module_name (reloaded module_name decls w)).1 ∧
  import_module module_name (reloaded module_name decls w)
  = Some (reloaded module_name decls w).
Proof.
  intros Hmod Hsrc. unfold Processor._reload_module, reload, import_module.
  simpl. rewrite !decide_True by done. by rewrite Hsrc.
Qed.

Lemma invariant_reloaded (module_name : string) (decls : list Declaration) w :
  invariant w → module_name ∈ sys_modules w →
  module_sources w !! module_name = Some decls →
  invariant (reloaded module_name decls w).
Proof.
  intros Hw Hmod Hsrc.
  destruct (invariant_clear module_name w Hw) as (Hcons & Hsound & Himp & Hnamed).
  pose proof (Hnamed module_name decls Hsrc) as Hdecls. simpl in Hdecls.
  destruct (exec_module_invariant module_name decls
              (registry (clear_namespace module_name w))) as [Hcons' Hsound'];
    try done.
  { intros d _.
    change (registry (clear_namespace module_name w))
      with (FunctionRegistry.clear_module module_name (registry w)).
    by rewrite clear_no_pending. }
  split_and!; try done.
  intros k md [Hold | (d & _ & _ & ->)]%exec_module_lookup; [by apply (Himp k) | done].
Qed.

(** The entries of the namespace at the start of the pass of a reload are
    the definitions of the module. *)
Lemma reloaded_entries (module_name : string) (decls : list Declaration) w
    (k : string) (md : FunctionMetadata) :
  FunctionRegistry.get k (registry (reloaded module_name decls w)) = Some md →
  Processor.in_module module_name md →
  ∃ d, d ∈ decls ∧ k = module_name +:+ "." +:+ decl_name d ∧
       md = declared module_name d.
Proof.
  intros [Hold | Hnew]%exec_module_lookup Hin; [| done].
  apply map_lookup_filter_Some in Hold as [_ Hkeep]. destruct Hkeep.
  by apply in_module_startswith.
Qed.

Lemma reload_over_usable_records (module_name : string) (decls : list Declaration) w :
  invariant w →
  module_name ∈ sys_modules w →
  module_sources w !! module_name = Some decls →
  (∀ d, d ∈ decls →
     up_to_date (cache (cache_load module_name w)) (declared module_name d)) →
  oracle_calls (Processor._reload_module module_name w) = oracle_calls w ∧
  oracle (Processor._reload_module module_name w) = oracle w ∧
  ∀ d, d ∈ decls →
    FunctionRegistry.get_implementation (module_name +:+ "." +:+ decl_name d)
      (registry (Processor._reload_module module_name w))
    = Some (cached_implementation (cache (cache_load module_name w))
              (module_name +:+ "." +:+ decl_name d)).
Proof.
  intros Hw Hmod Hsrc Hrecords.
  destruct (reload_module_reloaded module_name decls w Hmod Hsrc) as [-> Himport].
  pose proof (invariant_reloaded module_name decls w Hw Hmod Hsrc) as Hw0.
  assert (cache (cache_load module_name (reloaded module_name decls w))
          = cache (cache_load module_name w)) as Hcache
    by (by apply cache_load_cache).
  destruct (pass_over_usable_records module_name _ _ Hw0 Himport)
    as (_ & Hcalls & Horacle & _ & Himpls).
  - intros k md Hk Hin.
    destruct (reloaded_entries _ _ _ _ _ Hk Hin) as (d & _ & -> & _).
    simpl. destruct (exec_module_tables module_name decls
                       (FunctionRegistry.clear_module module_name (registry w)))
      as [_ ->].
    by rewrite clear_no_pending.
  - intros k md Hk Hin.
    destruct (reloaded_entries _ _ _ _ _ Hk Hin) as (d & Hd & _ & ->).
    rewrite Hcache. by apply Hrecords.
  - split_and!; [done | done |].
    intros d Hd.
    destruct (exec_module_registered module_name decls
                (FunctionRegistry.clear_module module_name (registry w))
                (decl_name d)) as (d' & _ & _ & Hlookup);
      [by apply list_elem_of_fmap_2 |].
    rewrite <- Hcache. apply (Himpls _ (declared module_name d')); [exact Hlookup |].
    unfold Processor.in_module. simpl. by rewrite bool_decide_eq_true_2.
Qed.

(** X10.  A reload whose definitions all have a usable cache record calls no
    oracle: the clearing that precedes the pass removes the decisions
    memoized for the namespace, so the pass compares the hashes again and
    adopts the records. *)
Theorem reload_uses_cache (module_name : string) (decls : list Declaration) w :
  reachable w →
  module_name ∈ sys_modules w →
  module_sources w !! module_name = Some decls →
  (∀ d, d ∈ decls →
     up_to_date (cache (cache_load module_name w)) (declared module_name d)) →
  oracle_calls (Processor._reload_module module_name w) = oracle_calls w ∧
  oracle (Processor._reload_module module_name w) = oracle w ∧
  ∀ d, d ∈ decls →
    FunctionRegistry.get_implementation (module_name +:+ "." +:+ decl_name d)
      (registry (Processor._reload_module module_name w))
    = Some (cached_implementation (cache (cache_load module_name w))
              (module_name +:+ "." +:+ decl_name d)).
Proof.
  intros Hreach. apply reload_over_usable_records. by apply reachable_invariant.
Qed.

End reload_properties.

Lemma reload_uses_cache_witness :
  let processed :=
    (Processor.process_module (H := Scenario.runtime) (H0 := Scenario.counting_oracle)
       "demo" Scenario.start).1 in
  oracle_calls (Processor._reload_module (H := Scenario.runtime)
                  (H0 := Scenario.counting_oracle) "demo" processed)
  = oracle_calls processed.
Proof.
  intros processed.
  refine (proj1 (reload_uses_cache (H := Scenario.runtime)
                   (H0 := Scenario.counting_oracle) "demo" [Scenario.double] processed
                   _ _ _ _)).
  - apply reach_process, reach_fresh.
    apply map_Forall_singleton, Forall_singleton. exact I.
  - apply (bool_decide_unpack ("demo" ∈ sys_modules processed)). vm_compute. exact I.
  - vm_compute. reflexivity.
  - intros d ->%list_elem_of_singleton.
    exists {[ "hash" := "md5(double the input|(fn, n))";
              "implementation" := "return n * 2" ]}.
    split_and!.
    + vm_compute. reflexivity.
    + intros Hempty. apply (f_equal (λ e : gmap string string, e !! "hash")) in Hempty.
      vm_compute in Hempty. discriminate Hempty.
    + right. vm_compute. reflexivity.
Defined.

(** ** Calls *)

Section call_properties.
Context `{PythonRuntime} {O : Type}.
Implicit Types w : World O.

Lemma cache_load_registry (module_name : string) w :
  registry (cache_load module_name w)
  = (Cache.load module_name (files w) (cache w) (registry w)).2.
Proof. unfold cache_load. by destruct (Cache.load _ _ _ _). Qed.

Lemma cache_load_flags (module_name : string) w (k : string) :
  k ∈ Cache._loaded_modules (cache (cache_load module_name w)) →
  k = module_name ∨ k ∈ Cache._loaded_modules (cache w).
Proof.
  unfold cache_load, Cache.load.
  destruct (decide (module_name ∈ Cache._loaded_modules (cache w))); [by right |].
  destruct (files w !! Cache.module_name_to_cache_file module_name) as [[records|]|];
    simpl; intros [->%elem_of_singleton | Hk]%elem_of_union; auto.
Qed.

(** X11.  What a process wrote with [Cache.save] is what a call executes in a
    process that has not loaded the namespace: the saved implementation,
    whatever the registry of that process held for the name. *)
Theorem saved_implementation_serves_call {A : Type} (f : PyFunction) (args : A)
    (c : Cache.state) (fs : gmap string CacheFile) w (e : gmap string string)
    (a : ascii) (s : string) :
  Cache.get (__module__ f +:+ "." +:+ __name__ f) c = Some e →
  e !! "implementation" = Some (String a s) →
  files w = Cache.save (__module__ f) c fs →
  __module__ f ∉ Cache._loaded_modules (cache w) →
  (wrapper f args w).2 = Executes (implementation_func_source f (String a s)) args.
Proof.
  intros He Himpl Hfiles Hnew. unfold wrapper.
  apply pararun_with_implementation.
  unfold FunctionRegistry.get_implementation.
  rewrite cache_load_registry, Hfiles.
  erewrite load_implementations; [| done | apply lookup_insert_eq].
  rewrite (map_lookup_filter_Some_2 _ _ _ e); [simpl; by rewrite Himpl | done |].
  simpl. rewrite <- string_app_assoc. apply startswith_app, startswith_refl.
Qed.

(** X12.  A call never touches the cache directory, the oracle, the declarations,
    the memoized decisions, the imported modules or the sources; it drops no
    record of the in-memory cache, and the only loaded flags it adds are the
    one of the function's module and the one of the module above it. *)
Theorem call_reads_only {A : Type} (f : PyFunction) (args : A) w :
  files (wrapper f args w).1 = files w ∧
  oracle (wrapper f args w).1 = oracle w ∧
  oracle_calls (wrapper f args w).1 = oracle_calls w ∧
  specs (registry (wrapper f args w).1) = specs (registry w) ∧
  FunctionRegistry._needs_generation (registry (wrapper f args w).1)
    = FunctionRegistry._needs_generation (registry w) ∧
  sys_modules (wrapper f args w).1 = sys_modules w ∧
  module_sources (wrapper f args w).1 = module_sources w ∧
  (∀ k, is_Some (Cache.get k (cache w)) →
        is_Some (Cache.get k (cache (wrapper f args w).1))) ∧
  (∀ k, k ∈ Cache._loaded_modules (cache (wrapper f args w).1) →
        k ∈ Cache._loaded_modules (cache w) ∨ k = __module__ f ∨
        k = parent_module (__module__ f)).
Proof.
  unfold wrapper.
  set (w1 := cache_load (__module__ f) w).
  set (w2 := cache_load (parent_module (__module__ f)) w1).
  assert ((pararun f args w).1 = w1 ∨ (pararun f args w).1 = w2) as Hstate.
  { unfold pararun. fold w1.
    destruct (Py.truthy (FunctionRegistry.get_implementation _ (registry w1))).
    - left. by destruct (FunctionRegistry.get_implementation _ (registry w1)) as [[|a s]|].
    - destruct (Py.truthy (Some (parent_module (__module__ f)))).
      + right. fold w2.
        by destruct (FunctionRegistry.get_implementation _ (registry w2)) as [[|a s]|].
      + left. by destruct (FunctionRegistry.get_implementation _ (registry w1))
          as [[|a s]|]. }
  destruct (cache_load_frame (__module__ f) w) as (Hs1 & Hm1 & Hmods1 & Hsrc1 & Ho1 & Hc1).
  destruct (cache_load_grows (__module__ f) w) as (Hf1 & _ & Hrec1 & _).
  destruct (cache_load_frame (parent_module (__module__ f)) w1)
    as (Hs2 & Hm2 & Hmods2 & Hsrc2 & Ho2 & Hc2).
  destruct (cache_load_grows (parent_module (__module__ f)) w1) as (Hf2 & _ & Hrec2 & _).
  fold w1 in Hs1, Hm1, Hmods1, Hsrc1, Ho1, Hc1, Hf1, Hrec1.
  fold w2 in Hs2, Hm2, Hmods2, Hsrc2, Ho2, Hc2, Hf2, Hrec2.
  destruct Hstate as [-> | ->].
  - split_and!; try done.
    intros k [-> | Hk]%cache_load_flags; auto.
  - rewrite Hf2, Ho2, Hc2, Hs2, Hm2, Hmods2, Hsrc2. split_and!; try done.
    + intros k Hk. by apply Hrec2, Hrec1.
    + intros k [-> | [-> | Hk]%cache_load_flags]%cache_load_flags; auto.
Qed.

Lemma dotted_longer (p c : string) : p ≠ p +:+ "." +:+ c.
Proof.
  intros Heq. apply (f_equal String.length) in Heq.
  rewrite !string_app_length in Heq. simpl in Heq. lia.
Qed.

(** X13.  A function of a module [p.c] whose implementation is in the partition
    of the module [p] above: the call loads that partition and executes the
    implementation.  [peek] does not look there: before the call it reports
    that there is no implementation, after the call it shows the one the
    call executed. *)
Theorem call_escalates_to_parent {A : Type} (f : PyFunction) (args : A) w
    (p c : string) (records : gmap string (gmap string string))
    (e : gmap string string) (a : ascii) (s : string) :
  __module__ f = p +:+ "." +:+ c → dot_free c → p ≠ "" →
  Py.truthy (FunctionRegistry.get_implementation (__module__ f +:+ "." +:+ __name__ f)
               (registry (cache_load (__module__ f) w))) = false →
  p ∉ Cache._loaded_modules (cache w) →
  files w !! Cache.module_name_to_cache_file p = Some (Partition records) →
  records !! (__module__ f +:+ "." +:+ __name__ f) = Some e →
  e !! "implementation" = Some (String a s) →
  (wrapper f args w).2 = Executes (implementation_func_source f (String a s)) args ∧
  (peek f w).2 = "Could not find implementation" ∧
  (peek f (wrapper f args w).1).2 = String a s.
Proof.
  intros Hmod Hc Hp Hnone Hnew Hfile He Himpl.
  set (full_name := __module__ f +:+ "." +:+ __name__ f) in *.
  set (w1 := cache_load (__module__ f) w) in *.
  assert (parent_module (__module__ f) = p) as Hparent
    by (rewrite Hmod; by apply parent_module_dotted).
  assert (FunctionRegistry.get_implementation full_name (registry (cache_load p w1))
          = Some (String a s)) as Hfound.
  { unfold FunctionRegistry.get_implementation. rewrite cache_load_registry.
    erewrite load_implementations; [by rewrite He; simpl; rewrite Himpl | |].
    - intros [Heq | Hold]%cache_load_flags; [| done].
      rewrite Hmod in Heq. by apply dotted_longer in Heq.
    - destruct (cache_load_grows (__module__ f) w) as (Hf & _). fold w1 in Hf.
      by rewrite Hf. }
  assert (pararun f args w
          = (cache_load p w1, Executes (implementation_func_source f (String a s)) args))
    as Hcall.
  { unfold pararun. fold full_name. fold w1. rewrite Hnone, Hparent.
    destruct p as [|b p]; [done |]. simpl Py.truthy. cbv iota. by rewrite Hfound. }
  unfold wrapper. rewrite Hcall. split_and!; [done | |].
  - unfold peek. fold full_name. fold w1.
    by destruct (FunctionRegistry.get_implementation full_name (registry w1))
      as [[|b t]|].
  - cbn [fst]. unfold peek. fold full_name. rewrite cache_load_loaded.
    + by rewrite Hfound.
    + destruct (cache_load_grows p w1) as (_ & Hsub & _). apply Hsub.
      apply cache_load_flag.
Qed.

(** X14.  [peek] loads the cache of the function's module and nothing else.  Where
    that resolves an implementation, [peek] returns the text that a call
    executes, and leaves the state that the call leaves; where it does not,
    [peek] returns its message and does not raise. *)
Theorem peek_shows_what_a_call_executes (f : PyFunction) w :
  (peek f w).1 = cache_load (__module__ f) w ∧
  (∀ a s,
     FunctionRegistry.get_implementation (__module__ f +:+ "." +:+ __name__ f)
       (registry (cache_load (__module__ f) w)) = Some (String a s) →
     (peek f w).2 = String a s ∧
     ∀ (A : Type) (args : A),
       wrapper f args w
       = ((peek f w).1, Executes (implementation_func_source f (String a s)) args)) ∧
  (Py.truthy (FunctionRegistry.get_implementation (__module__ f +:+ "." +:+ __name__ f)
                (registry (cache_load (__module__ f) w))) = false →
   (peek f w).2 = "Could not find implementation").
Proof.
  unfold peek, wrapper, pararun.
  set (impl := FunctionRegistry.get_implementation _ _).
  split_and!.
  - by destruct impl as [[|a s]|].
  - intros a s Himpl. rewrite Himpl. done.
  - by destruct impl as [[|a s]|].
Qed.

End call_properties.

Lemma saved_implementation_serves_call_witness :
  (wrapper (H := Scenario.runtime) (define "demo" Scenario.double) [3]
     (fresh_process
        (Cache.save "demo" (Cache.store "demo.double" "h" "return n * 2" Cache.empty) ∅)
        ∅ 0)).2
  = Executes
      (implementation_func_source (H := Scenario.runtime)
         (define "demo" Scenario.double) "return n * 2") [3].
Proof.
  apply (saved_implementation_serves_call (H := Scenario.runtime)
           (define "demo" Scenario.double) [3]
           (Cache.store "demo.double" "h" "return n * 2" Cache.empty) ∅ _
           {[ "hash" := "h"; "implementation" := "return n * 2" ]}).
  - vm_compute. reflexivity.
  - vm_compute. reflexivity.
  - reflexivity.
  - apply not_elem_of_empty.
Defined.

Lemma call_escalates_to_parent_witness :
  let record := {[ "hash" := "h"; "implementation" := "return n * 2" ]} in
  let w := fresh_process (O := nat)
             {[ "pkg.json" := Partition {[ "pkg.sub.double" := record ]} ]} ∅ 0 in
  (wrapper (H := Scenario.runtime) (define "pkg.sub" Scenario.double) [3] w).2
  = Executes
      (implementation_func_source (H := Scenario.runtime)
         (define "pkg.sub" Scenario.double) "return n * 2") [3] ∧
  (peek (define "pkg.sub" Scenario.double) w).2 = "Could not find implementation" ∧
  (peek (define "pkg.sub" Scenario.double)
     (wrapper (H := Scenario.runtime) (define "pkg.sub" Scenario.double) [3] w).1).2
  = "return n * 2".
Proof.
  intros record w.
  apply (call_escalates_to_parent (H := Scenario.runtime)
           (define "pkg.sub" Scenario.double) [3] w "pkg" "sub"
           {[ "pkg.sub.double" := record ]} record).
  - reflexivity.
  - exact I.
  - discriminate.
  - vm_compute. reflexivity.
  - apply not_elem_of_empty.
  - vm_compute. reflexivity.
  - vm_compute. reflexivity.
  - vm_compute. reflexivity.
Defined.

Lemma peek_shows_what_a_call_executes_witness :
  (peek (define "demo" Scenario.double) Scenario.start_frozen).2 = "return n + n".
Proof.
  destruct (peek_shows_what_a_call_executes (H := Scenario.runtime)
              (define "demo" Scenario.double) Scenario.start_frozen)
    as (_ & Hfound & _).
  apply (Hfound "r"%char "eturn n + n").
  vm_compute. reflexivity.
Defined.

(** ** A reload that fails *)

Section failed_reload.
Context `{PythonRuntime} {O : Type} `{SynthesisOracle O}.
Implicit Types w : World O.

(** X15.  When the reload of an imported module fails, the namespace stays
    cleared: the registry resolves no implementation for a function of the
    module, and a call of one raises although the records of the namespace
    are still in the in-memory cache, because the loaded flags keep the
    cache from being read again. *)
Theorem failed_reload_leaves_namespace_cleared (module_name : string) w :
  entries_consistent (registry w) →
  module_name ∈ sys_modules w →
  module_sources w !! module_name = None →
  Processor._reload_module module_name w = clear_namespace module_name w ∧
  cache (Processor._reload_module module_name w) = cache w ∧
  ∀ (A : Type) (f : PyFunction) (args : A),
    __module__ f = module_name → dot_free (__name__ f) →
    module_name ∈ Cache._loaded_modules (cache w) →
    parent_module module_name = "" ∨
    parent_module module_name ∈ Cache._loaded_modules (cache w) →
    wrapper f args (Processor._reload_module module_name w)
    = (clear_namespace module_name w,
       RuntimeError (no_implementation_message (module_name +:+ "." +:+ __name__ f))).
Proof.
  intros Hcons Hmod Hsrc.
  assert (Processor._reload_module module_name w = clear_namespace module_name w)
    as Hreload.
  { unfold Processor._reload_module, reload. simpl.
    rewrite decide_True by done. by rewrite Hsrc. }
  rewrite Hreload. split_and!; [done | done |].
  intros A f args Hf Hname Hloaded Hparent.
  set (w' := clear_namespace module_name w).
  assert (FunctionRegistry.get_implementation (module_name +:+ "." +:+ __name__ f)
            (registry w') = None) as Hnone.
  { unfold FunctionRegistry.get_implementation. simpl.
    rewrite (proj2 (map_lookup_filter_None _ (FunctionRegistry._implementations _) _)).
    - rewrite (proj2 (map_lookup_filter_None _ (FunctionRegistry._registry _) _));
        [done |].
      right. intros md Hmd Hkeep. apply Hkeep. simpl.
      destruct (Hcons _ _ Hmd) as (Hkey & _ & _ & Hdot).
      unfold get_full_name in Hkey.
      apply dotted_inj in Hkey as <-; [apply startswith_refl | done | done].
    - right. intros impl _ Hkeep. apply Hkeep. simpl.
      apply startswith_app, startswith_refl. }
  unfold wrapper, pararun. rewrite Hf.
  rewrite (cache_load_loaded module_name w') by done. rewrite Hnone. simpl.
  destruct Hparent as [-> | Hparent]; [done |].
  destruct (parent_module module_name) as [|b p]; [done |].
  rewrite (cache_load_loaded _ w') by done. by rewrite Hnone.
Qed.

End failed_reload.

Lemma failed_reload_leaves_namespace_cleared_witness :
  let processed :=
    (Processor.process_module (H := Scenario.runtime) (H0 := Scenario.counting_oracle)
       "demo" Scenario.start).1 in
  let deleted := set_module_sources ∅ processed in
  wrapper (H := Scenario.runtime) (define "demo" Scenario.double) [3]
    (Processor._reload_module (H := Scenario.runtime) (H0 := Scenario.counting_oracle)
       "demo" deleted)
  = (clear_namespace "demo" deleted,
     RuntimeError (no_implementation_message "demo.double")).
Proof.
  intros processed deleted.
  destruct (failed_reload_leaves_namespace_cleared (H := Scenario.runtime)
              (H0 := Scenario.counting_oracle) "demo" deleted)
    as (_ & _ & Hcalls).
  - unfold deleted, set_module_sources. cbn [registry].
    refine (proj1 (reachable_invariant (H := Scenario.runtime)
                     (H0 := Scenario.counting_oracle) processed _)).
    apply reach_process, reach_fresh.
    apply map_Forall_singleton, Forall_singleton. exact I.
  - apply (bool_decide_unpack ("demo" ∈ sys_modules deleted)). vm_compute. exact I.
  - apply lookup_empty.
  - apply (Hcalls _ (define "demo" Scenario.double) [3]).
    + reflexivity.
    + exact I.
    + apply (bool_decide_unpack ("demo" ∈ Cache._loaded_modules (cache deleted))).
      vm_compute. exact I.
    + left. vm_compute. reflexivity.
Defined.

(** ** The reply of the language model *)

Lemma string_snoc_nonempty (v : string) (c : ascii) : v +:+ String c "" ≠ "".
Proof. destruct v; [done |]. by rewrite string_app_cons. Qed.

Lemma rstrip_ends (s : string) :
  Py.rstrip s = "" ∨
  ∃ v c, Py.rstrip s = v +:+ String c "" ∧ Py.isspace c = false.
Proof.
  induction s as [|a s IH]; [by left |]. simpl.
  destruct IH as [-> | (v & c & -> & Hc)].
  - destruct (Py.isspace a) eqn:Ha; [by left |].
    right. by exists "", a.
  - right. exists (String a v), c. split; [| done].
    rewrite string_app_cons.
    destruct (v +:+ String c "") eqn:Hv; [by apply string_snoc_nonempty in Hv | done].
Qed.

Lemma rstrip_nonspace_end (v : string) (c : ascii) :
  Py.isspace c = false → Py.rstrip (v +:+ String c "") ≠ "".
Proof.
  intros Hc. induction v as [|a v IH].
  - change ("" +:+ String c "") with (String c ""). simpl. by rewrite Hc.
  - rewrite string_app_cons. simpl.
    by destruct (Py.rstrip (v +:+ String c "")).
Qed.

Lemma lstrip_nonspace_end (v : string) (c : ascii) :
  Py.isspace c = false → ∃ u, Py.lstrip (v +:+ String c "") = u +:+ String c "".
Proof.
  intros Hc. induction v as [|a v [u IH]].
  - exists "". change ("" +:+ String c "") with (String c ""). simpl. by rewrite Hc.
  - rewrite string_app_cons. simpl. destruct (Py.isspace a).
    + by exists u.
    + exists (String a v). by rewrite string_app_cons.
Qed.

(** A line that ends in a character that is not whitespace is not blank. *)
Lemma strip_nonspace_end (v : string) (c : ascii) :
  Py.isspace c = false → Py.strip (v +:+ String c "") ≠ "".
Proof.
  intros Hc. unfold Py.strip.
  destruct (lstrip_nonspace_end v c Hc) as [u ->]. by apply rstrip_nonspace_end.
Qed.

(** The last piece of a split holds the end of the text. *)
Lemma split_last (sep : ascii) (v : string) (c : ascii) :
  c ≠ sep → ∃ u, last (Py.split sep (v +:+ String c "")) = Some (u +:+ String c "").
Proof.
  intros Hc. induction v as [|a v [u IH]].
  - exists "". change ("" +:+ String c "") with (String c ""). simpl.
    by rewrite decide_False.
  - rewrite string_app_cons. simpl.
    destruct (Py.split sep (v +:+ String c "")) as [|w ws] eqn:Hsplit; [done |].
    destruct (decide (a = sep)).
    + exists u. by rewrite last_cons, IH.
    + destruct ws as [|w' ws].
      * simpl in IH. injection IH as ->. exists (String a u).
        by rewrite string_app_cons.
      * exists u. rewrite <- IH. done.
Qed.

Lemma last_drop_nonempty {A : Type} (l : list A) (k : nat) :
  drop k l ≠ [] → last (drop k l) = last l.
Proof.
  revert k. induction l as [|x l IH]; intros k Hne; [by rewrite drop_nil |].
  destruct k as [|k]; [done |]. simpl in *.
  rewrite (IH k Hne). destruct l as [|y l]; [| done].
  rewrite drop_nil in Hne. by destruct Hne.
Qed.

Lemma dedent_total (body_lines : list string) (line : string) :
  last body_lines = Some line → Py.strip line ≠ "" →
  is_Some (CodeGenerator.dedent body_lines).
Proof.
  intros Hlast Hline. unfold CodeGenerator.dedent.
  destruct body_lines as [|first rest] eqn:Hbody; [done |]. rewrite <- Hbody in *.
  assert (line ∈ filter (λ l, ¬ CodeGenerator.blank l) body_lines) as Hin.
  { apply list_elem_of_filter. split.
    - unfold CodeGenerator.blank. by intros Hblank%bool_decide_unpack.
    - apply last_Some in Hlast as [l' ->]. set_solver. }
  destruct (filter _ body_lines) as [|x xs]; [by inversion Hin |].
  by eexists.
Qed.

(** The argument of [min] is never empty: the text is stripped before it is
    split, so that the last of the body lines is not blank. *)
Lemma extract_code_total (response : string) :
  ∃ code, CodeGenerator._extract_code response = Some code.
Proof.
  unfold CodeGenerator._extract_code.
  set (code := Py.strip _).
  destruct (Py.startswith code "def ") eqn:Hdef; [| by eexists].
  set (lines := Py.split _ code).
  set (start_index := CodeGenerator.docstring_end _ _).
  assert (is_Some (CodeGenerator.dedent (drop start_index lines))) as [body ->];
    [| by eexists].
  destruct (drop start_index lines) as [|l0 ls] eqn:Hbody; [by eexists |].
  rewrite <- Hbody.
  destruct (rstrip_ends (Py.lstrip (Py.replace_str "```" ""
                                      (Py.replace_str "```python" "" response))))
    as [Hempty | (v & c & Hcode & Hc)].
  { unfold code, Py.strip in Hdef. by rewrite Hempty in Hdef. }
  fold (Py.strip (Py.replace_str "```" "" (Py.replace_str "```python" "" response)))
    in Hcode. fold code in Hcode.
  destruct (split_last "010" v c) as [u Hlast].
  { intros ->. done. }
  apply (dedent_total _ (u +:+ String c "")); [| by apply strip_nonspace_end].
  rewrite last_drop_nonempty by (by rewrite Hbody).
  unfold lines. by rewrite Hcode.
Qed.
(** Occurrences of a text in another *)

Lemma contains_unfold (s x : string) :
  Py.contains s x
  = Py.startswith s x || match s with "" => false | String _ s' => Py.contains s' x end.
Proof. by destruct s. Qed.

Lemma contains_startswith (s x : string) : Py.startswith s x → Py.contains s x.
Proof. intros Hs. rewrite contains_unfold. by apply orb_True; left. Qed.

Lemma contains_tail (c : ascii) (s x : string) :
  Py.contains s x → Py.contains (String c s) x.
Proof. intros Hs. rewrite contains_unfold. by apply orb_True; right. Qed.

Lemma contains_cons (c : ascii) (s x : string) :
  Py.contains (String c s) x → Py.startswith (String c s) x ∨ Py.contains s x.
Proof. rewrite contains_unfold. by intros ?%orb_True. Qed.

Lemma contains_app_l (a b x : string) : Py.contains a x → Py.contains (a +:+ b) x.
Proof.
  induction a as [|c a IH].
  - rewrite contains_unfold, orb_false_r. intros Hx.
    apply contains_startswith. by apply (startswith_app "").
  - rewrite string_app_cons. intros [Hx | Hx]%contains_cons.
    + apply contains_startswith. rewrite <- string_app_cons. by apply startswith_app.
    + by apply contains_tail, IH.
Qed.

Lemma contains_app_r (a b x : string) : Py.contains b x → Py.contains (a +:+ b) x.
Proof.
  intros Hb. induction a as [|c a IH]; [done |].
  rewrite string_app_cons. by apply contains_tail.
Qed.

(** A text without the character [c] that occurs in [a ++ c :: b] occurs in
    [a] or in [b]. *)
Lemma startswith_cross (a b x : string) (c : ascii) :
  ¬ Py.contains x (String c "") →
  Py.startswith (a +:+ String c b) x → Py.startswith a x.
Proof.
  revert x. induction a as [|e a IH]; intros [|d x] Hc; try done.
  - change ("" +:+ String c b) with (String c b). simpl.
    destruct (decide (d = c)) as [->|]; [| done].
    intros _. apply Hc. simpl. by rewrite decide_True.
  - rewrite string_app_cons. simpl.
    destruct (decide (d = e)) as [->|]; [| done].
    apply IH. intros Hx. by apply Hc, contains_tail.
Qed.

Lemma contains_cross (a b x : string) (c : ascii) :
  ¬ Py.contains x (String c "") →
  Py.contains (a +:+ String c b) x → Py.contains a x ∨ Py.contains b x.
Proof.
  intros Hc. induction a as [|e a IH].
  - change ("" +:+ String c b) with (String c b).
    intros [Hx | Hx]%contains_cons; [| by right].
    left. apply contains_startswith. by apply (startswith_cross "" b x c).
  - rewrite string_app_cons. intros [Hx | Hx]%contains_cons.
    + left. apply contains_startswith.
      apply (startswith_cross (String e a) b x c); [done |].
      by rewrite string_app_cons.
    + destruct (IH Hx) as [Ha | Hb]; [left; by apply contains_tail | by right].
Qed.

Lemma contains_lstrip (s x : string) : Py.contains (Py.lstrip s) x → Py.contains s x.
Proof.
  induction s as [|c s IH]; [done |]. simpl.
  destruct (Py.isspace c); [| done]. intros Hx. by apply contains_tail, IH.
Qed.

Lemma rstrip_prefix (s : string) : ∃ q, s = Py.rstrip s +:+ q.
Proof.
  induction s as [|c s [q IH]]; [by exists "" |]. simpl.
  destruct (Py.rstrip s) as [|d r].
  - destruct (Py.isspace c); [by exists (String c s) |].
    exists s. by rewrite string_app_cons.
  - exists q. by rewrite string_app_cons, <- IH.
Qed.

Lemma contains_rstrip (s x : string) : Py.contains (Py.rstrip s) x → Py.contains s x.
Proof.
  intros Hx. destruct (rstrip_prefix s) as [q Hs]. rewrite Hs. by apply contains_app_l.
Qed.

Lemma contains_strip (s x : string) : Py.contains (Py.strip s) x → Py.contains s x.
Proof. intros Hx. by apply contains_lstrip, contains_rstrip. Qed.

Lemma contains_slice_from (n : nat) (s x : string) :
  Py.contains (Py.slice_from n s) x → Py.contains s x.
Proof.
  revert s. induction n as [|n IH]; intros [|c s]; try done.
  simpl. intros Hx. by apply contains_tail, IH.
Qed.

Lemma split_head_prefix (sep : ascii) (s w : string) (ws : list string) :
  Py.split sep s = w :: ws → ∃ rest, s = w +:+ rest.
Proof.
  revert w ws. induction s as [|c s IH]; intros w ws.
  - intros [= <- <-]. by exists "".
  - simpl. destruct (decide (c = sep)).
    + intros [= <- <-]. by exists (String c s).
    + destruct (Py.split sep s) as [|w' ws'] eqn:Hsplit.
      * by destruct (split_nonempty sep s).
      * intros [= <- <-]. destruct (IH w' ws' eq_refl) as [rest ->].
        exists rest. by rewrite string_app_cons.
Qed.

Lemma contains_empty (s : string) : Py.contains s "".
Proof. apply contains_startswith. by destruct s. Qed.

(** What occurs in a line occurs in the text. *)
Lemma contains_split (sep : ascii) (s x line : string) :
  line ∈ Py.split sep s → Py.contains line x → Py.contains s x.
Proof.
  revert line. induction s as [|c s IH]; intros line Hin Hx.
  - by apply list_elem_of_singleton in Hin as ->.
  - simpl in Hin. destruct (decide (c = sep)).
    + apply elem_of_cons in Hin as [-> | Hin].
      * destruct x; [apply contains_empty | done].
      * by apply contains_tail, (IH line).
    + destruct (Py.split sep s) as [|w ws] eqn:Hsplit.
      * by destruct (split_nonempty sep s).
      * destruct (split_head_prefix _ _ _ _ Hsplit) as [rest Hs].
        apply elem_of_cons in Hin as [-> | Hin].
        -- rewrite Hs, <- string_app_cons. by apply contains_app_l.
        -- apply contains_tail, (IH line); [by apply list_elem_of_further | done].
Qed.

(** What occurs in the joined lines and holds no line break occurs in a
    line. *)
Lemma contains_join (c : ascii) (lines : list string) (x : string) :
  x ≠ "" → ¬ Py.contains x (String c "") →
  Py.contains (Py.join (String c "") lines) x → ∃ line, line ∈ lines ∧ Py.contains line x.
Proof.
  intros Hx Hc. induction lines as [|l lines IH].
  - simpl. by destruct x.
  - destruct lines as [|l' lines].
    + simpl. intros Hl. exists l. split; [apply list_elem_of_here | done].
    + rewrite join_cons by done. rewrite string_app_cons.
      change ("" +:+ Py.join (String c "") (l' :: lines))
        with (Py.join (String c "") (l' :: lines)).
      intros [Hl | Hrest]%contains_cross; [| | done].
      * exists l. split; [apply list_elem_of_here | done].
      * destruct (IH Hrest) as (line & Hin & Hline).
        exists line. split; [by apply list_elem_of_further | done].
Qed.

(** After the replacement of the fences by nothing no fence is left: a run
    of backquotes keeps fewer than three of them. *)
Lemma replace_fence_head1 (s : string) :
  ¬ Py.startswith s "`" → ¬ Py.startswith (Py.replace_str "```" "" s) "`".
Proof.
  destruct s as [|c s]; [done |]. unfold Py.replace_str. simpl.
  destruct (decide ("`"%char = c)) as [<-|]; [intros Hs; by destruct Hs |].
  by rewrite decide_False.
Qed.

Lemma replace_fence_head2 (s : string) :
  ¬ Py.startswith s "``" → ¬ Py.startswith (Py.replace_str "```" "" s) "``".
Proof.
  destruct s as [|c s]; [done |]. unfold Py.replace_str. simpl.
  destruct (decide ("`"%char = c)) as [<-|]; [| by rewrite decide_False].
  destruct s as [|d s]; simpl; [done |].
  destruct (decide ("`"%char = d)) as [<-|]; [intros Hs; by destruct Hs |].
  intros _. simpl. case_decide; [congruence | intros Hf; exact Hf].
Qed.

Lemma replace_from_unfold (old new : string) (c : ascii) (s : string) :
  Py.replace_from old new 0 (String c s)
  = if Py.startswith (String c s) old
    then new +:+ Py.replace_from old new (String.length old - 1) s
    else String c (Py.replace_from old new 0 s).
Proof. reflexivity. Qed.

Lemma replace_fence_free (skip : nat) (s : string) :
  ¬ Py.contains (Py.replace_from "```" "" skip s) "```".
Proof.
  revert skip. induction s as [|c s IH]; intros skip; [intros Hf; exact Hf |].
  destruct skip as [|skip]; [| apply IH]. rewrite replace_from_unfold.
  destruct (Py.startswith (String c s) "```") eqn:Hhead; [apply IH |].
  intros [Hx | Hx]%contains_cons; [| by apply (IH 0)].
  simpl in Hx, Hhead. destruct (decide ("`"%char = c)) as [<-|]; [| done].
  apply (replace_fence_head2 s); [| done].
  simpl. rewrite Hhead. intros Hf; exact Hf.
Qed.

Lemma dedent_lines (body_lines dedented : list string) (line x : string) :
  CodeGenerator.dedent body_lines = Some dedented →
  line ∈ dedented → Py.contains line x →
  ∃ line', line' ∈ body_lines ∧ Py.contains line' x.
Proof.
  unfold CodeGenerator.dedent.
  destruct body_lines as [|l0 ls] eqn:Hbody; [by intros [= <-] ?%elem_of_nil |].
  rewrite <- Hbody.
  destruct (Py.min _) as [min_indent|]; [| done]. simpl.
  intros [= <-] (line' & -> & Hin)%list_elem_of_fmap Hx.
  exists line'. split; [done |].
  destruct (CodeGenerator.blank line'); [done |]. by eapply contains_slice_from.
Qed.

(** X16.  [_extract_code] returns for every reply, it never raises; and the text
    it returns holds no Markdown fence. *)
Theorem extract_code_returns_fence_free (response : string) :
  ∃ code, CodeGenerator._extract_code response = Some code ∧
          ¬ Py.contains code "```".
Proof.
  destruct (extract_code_total response) as [result Hresult].
  exists result. split; [done |].
  revert Hresult. unfold CodeGenerator._extract_code.
  set (code := Py.strip _).
  assert (¬ Py.contains code "```") as Hcode.
  { intros Hx%contains_strip. by apply (replace_fence_free 0) in Hx. }
  destruct (Py.startswith code "def "); [| by intros [= <-]].
  set (lines := Py.split _ code).
  set (start_index := CodeGenerator.docstring_end _ _).
  destruct (CodeGenerator.dedent (drop start_index lines)) as [body|] eqn:Hbody;
    [| done].
  simpl. intros [= <-] Hx.
  apply contains_join in Hx as (line & Hline & Hx); [| done | intros Hf; exact Hf].
  destruct (dedent_lines _ _ _ _ Hbody Hline Hx) as (line' & Hin & Hx').
  apply Hcode. apply (contains_split "010" code "```" line'); [| done].
  by apply (subseteq_drop start_index lines).
Qed.

Lemma contains_prefix (s x y : string) : Py.contains s (x +:+ y) → Py.contains s x.
Proof.
  assert (∀ t, Py.startswith t (x +:+ y) → Py.startswith t x) as Hhead.
  { intros t Ht. eapply startswith_trans; [exact Ht |].
    apply startswith_app, startswith_refl. }
  induction s as [|c s IH].
  - rewrite !contains_unfold, !orb_false_r. apply Hhead.
  - intros [Hx | Hx]%contains_cons.
    + by apply contains_startswith, Hhead.
    + by apply contains_tail, IH.
Qed.

(** A replacement leaves a text without an occurrence as it is. *)
Lemma replace_absent (old new s : string) :
  ¬ Py.contains s old → Py.replace_str old new s = s.
Proof.
  unfold Py.replace_str. induction s as [|c s IH]; [done |]. intros Hs.
  rewrite replace_from_unfold.
  destruct (Py.startswith (String c s) old) eqn:Hhead.
  - destruct Hs. apply contains_startswith. by rewrite Hhead.
  - rewrite IH; [done |]. intros Hx. by apply Hs, contains_tail.
Qed.

(** The closing fence after a line break is removed and nothing else. *)
Lemma replace_closing_fence (u : string) :
  ¬ Py.contains u "```" →
  Py.replace_str "```" "" (u +:+ Py.nl +:+ "```") = u +:+ Py.nl.
Proof.
  unfold Py.replace_str. induction u as [|c u IH]; intros Hu; [done |].
  rewrite string_app_cons, replace_from_unfold.
  destruct (Py.startswith (String c (u +:+ Py.nl +:+ "```")) "```") eqn:Hhead.
  - destruct Hu. apply contains_startswith.
    apply (startswith_cross (String c u) "```" "```" "010");
      [intros Hf; exact Hf |].
    change (Is_true (Py.startswith (String c (u +:+ Py.nl +:+ "```")) "```")).
    by rewrite Hhead.
  - rewrite IH; [by rewrite string_app_cons |].
    intros Hx. by apply Hu, contains_tail.
Qed.

Lemma rstrip_space_end (s : string) (c : ascii) :
  Py.isspace c → Py.rstrip (s +:+ String c "") = Py.rstrip s.
Proof.
  intros Hc. induction s as [|a s IH].
  - change ("" +:+ String c "") with (String c ""). simpl.
    by destruct (Py.isspace c).
  - rewrite string_app_cons. simpl. by rewrite IH.
Qed.

Lemma lstrip_length (s : string) : String.length (Py.lstrip s) ≤ String.length s.
Proof.
  induction s as [|a s IH]; simpl; [lia |].
  destruct (Py.isspace a); simpl; lia.
Qed.

Lemma lstrip_fixed_head (b : ascii) (s : string) :
  Py.lstrip (String b s) = String b s → Py.isspace b = false.
Proof.
  simpl. destruct (Py.isspace b); [| done].
  intros Hl%(f_equal String.length). simpl in Hl.
  pose proof (lstrip_length s). lia.
Qed.

Lemma lstrip_nonspace_head (b : ascii) (s : string) :
  Py.isspace b = false → Py.lstrip (String b s) = String b s.
Proof. intros Hb. simpl. by rewrite Hb. Qed.

Lemma strip_between_line_breaks (body : string) :
  Py.lstrip body = body → Py.rstrip body = body →
  Py.strip (Py.nl +:+ body +:+ Py.nl) = body.
Proof.
  intros Hl Hr. unfold Py.strip.
  change (Py.nl +:+ body +:+ Py.nl) with (String "010" (body +:+ Py.nl)).
  change (Py.lstrip (String "010" (body +:+ Py.nl)))
    with (Py.lstrip (body +:+ Py.nl)).
  destruct body as [|b body]; [done |].
  apply lstrip_fixed_head in Hl.
  rewrite string_app_cons, lstrip_nonspace_head by done.
  rewrite <- string_app_cons. unfold Py.nl. by rewrite rstrip_space_end.
Qed.

(** X17.  A reply that is clean code, bare or inside a fence with the language
    tag, is returned as it is: code without a fence in it, without
    whitespace around it, and that does not begin with [def]. *)
Theorem extract_code_keeps_clean_code (body : string) :
  ¬ Py.contains body "```" →
  Py.lstrip body = body → Py.rstrip body = body →
  ¬ Py.startswith body "def " →
  CodeGenerator._extract_code body = Some body ∧
  CodeGenerator._extract_code ("```python" +:+ Py.nl +:+ body +:+ Py.nl +:+ "```")
  = Some body.
Proof.
  intros Hfence Hl Hr Hdef.
  assert (¬ Py.contains body "```python") as Htag
    by (intros Hx; by apply Hfence, (contains_prefix body "```" "python")).
  assert (Py.strip body = body) as Hstrip by (unfold Py.strip; by rewrite Hl, Hr).
  split; unfold CodeGenerator._extract_code.
  - rewrite (replace_absent "```python") by done.
    rewrite replace_absent by done. rewrite Hstrip.
    by destruct (Py.startswith body "def ").
  - assert (Py.replace_str "```python" ""
              ("```python" +:+ Py.nl +:+ body +:+ Py.nl +:+ "```")
            = Py.nl +:+ body +:+ Py.nl +:+ "```") as ->.
    { transitivity (Py.replace_str "```python" "" (Py.nl +:+ body +:+ Py.nl +:+ "```"));
        [reflexivity |].
      apply replace_absent.
      change (Py.nl +:+ body +:+ Py.nl +:+ "```")
        with ("" +:+ String "010" (body +:+ String "010" "```")).
      intros [Hx | [Hx | Hx]%contains_cross]%contains_cross;
        try done; try (intros Hf; exact Hf). }
    rewrite <- string_app_assoc, replace_closing_fence.
    + rewrite string_app_assoc, strip_between_line_breaks by done.
      by destruct (Py.startswith body "def ").
    + change (Py.nl +:+ body) with ("" +:+ String "010" body).
      intros [Hx | Hx]%contains_cross; done.
Qed.

Lemma extract_code_keeps_clean_code_witness :
  CodeGenerator._extract_code
    ("```python" +:+ Py.nl +:+ "return n * 2" +:+ Py.nl +:+ "```")
  = Some "return n * 2".
Proof.
  refine (proj2 (extract_code_keeps_clean_code "return n * 2" _ _ _ _)).
  - intros Hf; exact Hf.
  - reflexivity.
  - reflexivity.
  - intros Hf; exact Hf.
Defined.

(** ** The requests of one generation *)

Section generation_properties.
Context `{InspectRuntime} {L : Type} `{LanguageModel L}.

Lemma generate_loop_spec (remaining : nat) (nm doc : string)
    (param_info : list ParamInfo) (return_type test_code : string)
    (error_feedback : option string) (l : L) :
  (∃ n l1 feedback l2 response code,
     n < remaining ∧
     CodeGenerator.failed_requests n nm doc param_info return_type test_code
       error_feedback l = Some (l1, feedback) ∧
     _call_llm l1 (CodeGenerator._create_prompt nm doc param_info return_type
                     test_code feedback) = (l2, inl response) ∧
     CodeGenerator._extract_code response = Some code ∧
     CodeGenerator.generate_loop remaining nm doc param_info return_type test_code
       error_feedback l = (l2, (true, code)))
  ∨ (∃ l3 feedback,
       CodeGenerator.failed_requests remaining nm doc param_info return_type
         test_code error_feedback l = Some (l3, feedback) ∧
       CodeGenerator.generate_loop remaining nm doc param_info return_type test_code
         error_feedback l = (l3, (false, ""))).
Proof.
  revert error_feedback l.
  induction remaining as [|remaining IH]; intros error_feedback l.
  { right. by exists l, error_feedback. }
  cbn [CodeGenerator.generate_loop CodeGenerator.failed_requests].
  destruct (_call_llm l _) as [l' [response | e]] eqn:Hcall.
  - destruct (extract_code_total response) as [code Hcode]. rewrite Hcode.
    left. exists 0, l, error_feedback, l', response, code.
    split_and!; try done. lia.
  - destruct (IH (Some e) l')
      as [(n & l1 & feedback & l2 & response & code & Hn & Hfailed & Hlast & Hcode & Hrun)
         | (l3 & feedback & Hfailed & Hrun)].
    + left. exists (S n), l1, feedback, l2, response, code.
      split_and!; try done; [lia |].
      cbn [CodeGenerator.failed_requests]. by rewrite Hcall.
    + right. by exists l3, feedback.
Qed.

(** X18.  One call of [generate_implementation] sends at most three requests.
    The first carries the feedback of the caller; a request after one that
    raised carries the text of that exception in its place.  The call
    returns [(True, code)] for the first reply it gets, with the code
    extracted from it, and [(False, "")] when three requests in a row have
    raised. *)
Theorem generate_implementation_requests (l : L) (request : GenRequest) :
  let param_info := CodeGenerator._extract_param_info (req_signature request) in
  let return_type := return_annotation_str (req_signature request) in
  let prompt :=
    CodeGenerator._create_prompt (req_name request) (req_docstring request)
      param_info return_type (req_test_code request) in
  let failed n :=
    CodeGenerator.failed_requests n (req_name request) (req_docstring request)
      param_info return_type (req_test_code request) (req_error_feedback request) l in
  (∃ n l1 feedback l2 response code,
     n < 3 ∧ failed n = Some (l1, feedback) ∧
     _call_llm l1 (prompt feedback) = (l2, inl response) ∧
     CodeGenerator._extract_code response = Some code ∧
     CodeGenerator.generate_implementation l request = (l2, (true, code)))
  ∨ (∃ l3 feedback,
       failed 3 = Some (l3, feedback) ∧
       CodeGenerator.generate_implementation l request = (l3, (false, ""))).
Proof.
  intros param_info return_type prompt failed.
  apply generate_loop_spec.
Qed.

End generation_properties.

(** ** The prompt *)

Lemma contains_middle (a x b : string) : Py.contains (a +:+ x +:+ b) x.
Proof.
  apply contains_app_r, contains_app_l, contains_startswith, startswith_refl.
Qed.

Ltac find_occurrence :=
  first [ solve [ apply contains_startswith, startswith_spec; eexists;
                  rewrite ?string_app_assoc; reflexivity ]
        | apply contains_app_r; find_occurrence ].

Section prompt_properties.
Context `{PythonRuntime} `{InspectRuntime}.

Lemma extract_param_info_names (sg : Signature) :
  param_name <$> CodeGenerator._extract_param_info sg
  = filter (λ n, n ≠ "fn") (parameters sg).
Proof.
  unfold CodeGenerator._extract_param_info. rewrite <- list_fmap_compose.
  by rewrite list_fmap_id.
Qed.

(** X19.  The prompt shows the language model the header of the function that its
    code is placed in, and this is the header that the verification harness
    and the call of the function build: [implementation_func] with the
    declared parameters without [fn], in their order.  Feedback that is not
    empty is in the prompt under its heading. *)
Theorem prompt_shows_the_header_in_use (f : PyFunction) (nm doc test_code : string)
    (error_feedback : option string) (impl : string) :
  let header :=
    "def implementation_func(" +:+ Py.join ", " (TestRunner.param_names f) +:+ "):" in
  let prompt :=
    CodeGenerator._create_prompt nm doc
      (CodeGenerator._extract_param_info (inspect_signature f))
      (return_annotation_str (inspect_signature f)) test_code error_feedback in
  Py.contains prompt header ∧
  Py.contains (TestRunner.test_func_source f impl test_code) header ∧
  Py.contains (implementation_func_source f impl) header ∧
  (∀ a s, error_feedback = Some (String a s) →
     Py.contains prompt ("Previous Error:" +:+ Py.nl +:+ String a s +:+ Py.nl)).
Proof.
  intros header prompt. split_and!.
  - unfold prompt, CodeGenerator._create_prompt, header.
    rewrite extract_param_info_names. fold (TestRunner.param_names f).
    find_occurrence.
  - unfold TestRunner.test_func_source, header. cbv zeta.
    change "    def implementation_func("
      with ("    " +:+ "def implementation_func(").
    rewrite ?string_app_assoc. find_occurrence.
  - unfold implementation_func_source, header. cbv zeta. find_occurrence.
  - intros a s ->. unfold prompt, CodeGenerator._create_prompt.
    do 3 apply contains_app_r. apply contains_app_l.
    change (CodeGenerator.error_section (Some (String a s)))
      with (Py.nl +:+ "Previous Error:" +:+ Py.nl +:+ String a s +:+ Py.nl +:+
            Py.nl +:+ "Please fix the issues mentioned in the error." +:+ Py.nl).
    find_occurrence.
Qed.

End prompt_properties.

(** ** The code generator as the oracle of the processor *)

Section generator_as_oracle.
Context `{PythonRuntime} `{InspectRuntime} {L : Type} `{LanguageModel L}.

Lemma generate_loop_all_failed (remaining : nat) (nm doc : string)
    (param_info : list ParamInfo) (return_type test_code : string)
    (error_feedback feedback : option string) (l l3 : L) :
  CodeGenerator.failed_requests remaining nm doc param_info return_type test_code
    error_feedback l = Some (l3, feedback) →
  CodeGenerator.generate_loop remaining nm doc param_info return_type test_code
    error_feedback l = (l3, (false, "")).
Proof.
  revert error_feedback l.
  induction remaining as [|remaining IH]; intros error_feedback l.
  { by intros [= -> _]. }
  cbn [CodeGenerator.generate_loop CodeGenerator.failed_requests].
  destruct (_call_llm l _) as [l' [response | e]]; [done |]. apply IH.
Qed.

(** X20.  An outage of the language model: when the three requests of the first
    generation all raise, the function is given up after that one attempt.
    The processor makes one call of the generator, reports that it failed
    after 1 attempts, and stores and caches nothing. *)
Theorem outage_gives_up_after_three_requests (md : FunctionMetadata) (w w' : World L)
    (outcome : Outcome) (l3 : L) (feedback : option string) :
  (FunctionRegistry.needs_generation (get_full_name md)
     (Processor.entry_hash (Cache.get (get_full_name md) (cache w))) (registry w)).1
  = true →
  CodeGenerator.failed_requests 3 (name md) (docstring md)
    (CodeGenerator._extract_param_info (signature md))
    (return_annotation_str (signature md))
    (TestRunner.extract_test_code (source md)) None (oracle w) = Some (l3, feedback) →
  Processor.process_function (H0 := CodeGenerator.as_oracle) md w = (w', outcome) →
  outcome = GenerationFailed (Some "Failed to generate implementation after 1 attempts") ∧
  oracle w' = l3 ∧
  length (oracle_calls w') = S (length (oracle_calls w)) ∧
  cache w' = cache w ∧ files w' = files w ∧
  FunctionRegistry._implementations (registry w')
  = FunctionRegistry._implementations (registry w).
Proof.
  intros Hneeds Hfailed. unfold Processor.process_function.
  destruct (FunctionRegistry.needs_generation _ _ (registry w)) as [needs r] eqn:Hdecision.
  simpl in Hneeds. subst needs.
  apply needs_generation_memoizes in Hdecision as (_ & _ & Himpls & _).
  cbn [negb]. unfold Processor._generate_and_test, Processor.max_attempts.
  cbn [Processor.attempts].
  unfold generate_implementation at 1, CodeGenerator.as_oracle,
    CodeGenerator.generate_implementation, CodeGenerator.max_retries.
  cbn [req_name req_docstring req_signature req_test_code req_error_feedback].
  change (oracle (set_registry r w)) with (oracle w).
  rewrite (generate_loop_all_failed _ _ _ _ _ _ _ _ _ _ Hfailed).
  cbn [negb]. intros [= <- <-]. simpl.
  split_and!; try done. by rewrite length_app, Nat.add_1_r.
Qed.

End generator_as_oracle.

Lemma prompt_shows_the_header_in_use_witness :
  Py.contains
    (CodeGenerator._create_prompt "double" "double the input"
       (CodeGenerator._extract_param_info (H := Scenario.inspect)
          Scenario.double_signature)
       (return_annotation_str (InspectRuntime := Scenario.inspect)
          Scenario.double_signature)
       "assert fn(3) == 6" (Some "AssertionError"))
    ("Previous Error:" +:+ Py.nl +:+ "AssertionError" +:+ Py.nl).
Proof.
  destruct (prompt_shows_the_header_in_use (H := Scenario.runtime)
              (H0 := Scenario.inspect) (define "demo" Scenario.double)
              "double" "double the input" "assert fn(3) == 6"
              (Some "AssertionError") "return n * 2")
    as (_ & _ & _ & Hfeedback).
  by apply (Hfeedback "A"%char "ssertionError").
Defined.

Lemma outage_gives_up_after_three_requests_witness :
  (Processor.process_function (H := Scenario.runtime)
     (H0 := CodeGenerator.as_oracle (H := Scenario.inspect) (H0 := Scenario.outage))
     (declared "demo" Scenario.double) Scenario.imported).2
  = GenerationFailed (Some "Failed to generate implementation after 1 attempts") ∧
  oracle (Processor.process_function (H := Scenario.runtime)
            (H0 := CodeGenerator.as_oracle (H := Scenario.inspect)
                     (H0 := Scenario.outage))
            (declared "demo" Scenario.double) Scenario.imported).1 = 3.
Proof.
  destruct (outage_gives_up_after_three_requests (H := Scenario.runtime)
              (H0 := Scenario.inspect) (H1 := Scenario.outage)
              (declared "demo" Scenario.double) Scenario.imported
              (Processor.process_function (H := Scenario.runtime)
                 (H0 := CodeGenerator.as_oracle (H := Scenario.inspect)
                          (H0 := Scenario.outage))
                 (declared "demo" Scenario.double) Scenario.imported).1
              (Processor.process_function (H := Scenario.runtime)
                 (H0 := CodeGenerator.as_oracle (H := Scenario.inspect)
                          (H0 := Scenario.outage))
                 (declared "demo" Scenario.double) Scenario.imported).2
              3 (Some "Connection error."))
    as (Houtcome & Horacle & _).
  - vm_compute. reflexivity.
  - vm_compute. reflexivity.
  - by destruct (Processor.process_function _ _).
  - by split.
Defined.

(** ** From one process to the next *)

Section across_processes.
Context `{PythonRuntime} {O : Type} `{SynthesisOracle O}.
Implicit Types w : World O.

(** Processing a function leaves the cache records and the memoized
    decisions of the other names alone. *)
Lemma process_function_other_names (md : FunctionMetadata) w w' (outcome : Outcome)
    (k : string) :
  __module__ (func md) = module md →
  Processor.process_function md w = (w', outcome) →
  k ≠ get_full_name md →
  Cache.get k (cache w') = Cache.get k (cache w) ∧
  FunctionRegistry._needs_generation (registry w') !! k
  = FunctionRegistry._needs_generation (registry w) !! k.
Proof.
  intros Hcons Hrun Hk. revert Hrun. unfold Processor.process_function.
  destruct (FunctionRegistry.needs_generation _ _ (registry w)) as [needs r] eqn:Hdecision.
  apply needs_generation_memoizes in Hdecision as (_ & _ & _ & Hother).
  specialize (Hother k Hk).
  destruct needs; cbn [negb].
  - unfold Processor._generate_and_test.
    destruct (Processor.attempts _ _ _ _ _ _ _ _ _) as [w1 [ok err]] eqn:Hloop.
    pose proof Hloop as Hspec.
    apply attempts_spec in Hspec
      as (_ & _ & _ & _ & _ & _ & _ & (Hcache & _) & _).
    pose proof (attempts_registry _ _ _ _ _ _ _ _ _ _ _ Hloop) as (Hregistry & _).
    assert (FunctionRegistry._needs_generation (registry w1) !! k
            = FunctionRegistry._needs_generation (registry w) !! k) as Hmemo.
    { rewrite <- Hother. by destruct Hregistry as [-> | [impl ->]]. }
    destruct ok.
    + destruct (FunctionRegistry.get_implementation _ (registry w1)) as [[|a s]|];
        intros [= <- <-]; simpl; rewrite ?Hcache; split; try done.
      unfold Cache.get. simpl. by rewrite lookup_insert_ne.
    + intros [= <- <-]. by rewrite Hcache.
  - destruct (Py.truthy_dict _); intros [= <- <-]; by simpl.
Qed.

Lemma needs_generation_false_fresh (k : string) (cached_hash : option string)
    (r : FunctionRegistry.state) (md0 : FunctionMetadata) :
  FunctionRegistry._needs_generation r !! k = None →
  FunctionRegistry._registry r !! k = Some md0 →
  (FunctionRegistry.needs_generation k cached_hash r).1 = false →
  frozen md0 = true ∨ cached_hash = Some (FunctionRegistry.get_hash md0).
Proof.
  intros Hmemo Hmd0. unfold FunctionRegistry.needs_generation. rewrite Hmemo, Hmd0.
  destruct (frozen md0); [by left |]. destruct cached_hash as [h|]; [| done].
  simpl. intros Heq%negb_false_iff%bool_decide_eq_true. right. by rewrite Heq.
Qed.

(** A function that is processed with success, without a memoized decision,
    has a usable cache record afterwards, provided the harness rejects an
    empty implementation of it. *)
Lemma process_function_leaves_record (md : FunctionMetadata) w w' (outcome : Outcome) :
  (TestRunner.run_test (func md) "" (TestRunner.extract_test_code (source md))).1
  = false →
  __module__ (func md) = module md →
  specs (registry w) !! get_full_name md = Some (declared_part md) →
  FunctionRegistry._needs_generation (registry w) !! get_full_name md = None →
  Processor.process_function md w = (w', outcome) →
  succeeded outcome →
  up_to_date (cache w') md.
Proof.
  intros Hharness Hcons Hspec Hmemo.
  rewrite specs_lookup in Hspec.
  destruct (FunctionRegistry._registry (registry w) !! get_full_name md)
    as [md0|] eqn:Hmd0; [| done].
  simpl in Hspec. injection Hspec as _ _ _ _ Hdoc Hsig Hfrozen.
  pose proof (needs_generation_false_fresh (get_full_name md)
                (Processor.entry_hash (Cache.get (get_full_name md) (cache w)))
                (registry w) md0 Hmemo Hmd0) as Hfresh.
  unfold Processor.process_function.
  destruct (FunctionRegistry.needs_generation _ _ (registry w)) as [needs r] eqn:Hdecision.
  destruct needs; cbn [negb].
  - unfold Processor._generate_and_test.
    destruct (Processor.attempts _ _ _ _ _ _ _ _ _) as [w1 [ok err]] eqn:Hloop.
    destruct ok; [| by intros [= <- <-]].
    apply attempts_spec in Hloop
      as (new & _ & _ & _ & _ & _ & _ & (Hcache & _) & Hlast).
    destruct (last new) as [c|]; [| by destruct Hlast].
    destruct (call_reply c) as [[] impl]; [| by destruct Hlast].
    destruct (TestRunner.run_test (func md) impl _) as [[] diagnostic] eqn:Htest;
      [| by destruct Hlast].
    destruct Hlast as (_ & _ & Hstored).
    assert (FunctionRegistry.get_implementation (get_full_name md) (registry w1)
            = Some impl) as ->.
    { rewrite Hstored, Hcons. apply get_implementation_store. }
    destruct impl as [|a s].
    { by rewrite Htest in Hharness. }
    intros [= <- <-] _. eexists. split_and!.
    + unfold Cache.get. simpl. apply lookup_insert_eq.
    + intros Hempty%(f_equal (λ e : gmap string string, e !! "hash")).
      by rewrite lookup_insert_eq, lookup_empty in Hempty.
    + right. apply lookup_insert_eq.
  - specialize (Hfresh eq_refl).
    destruct (Cache.get (get_full_name md) (cache w)) as [entry|] eqn:Hentry;
      [| by intros [= <- <-]].
    destruct (decide (entry = ∅)) as [->|Hne].
    { simpl. rewrite bool_decide_eq_true_2 by done. by intros [= <- <-]. }
    simpl. rewrite bool_decide_eq_false_2 by done. simpl.
    intros [= <- <-] _. simpl. exists entry. split_and!; [done | done |].
    destruct Hfresh as [Hfrz | Hhash]; [left; congruence | right].
    unfold Processor.entry_hash in Hhash. simpl in Hhash.
    rewrite bool_decide_eq_false_2 in Hhash by done. simpl in Hhash.
    rewrite Hhash. unfold FunctionRegistry.get_hash, get_function_hash.
    by rewrite Hdoc, Hsig.
Qed.

Lemma process_steps_other_names (functions : list FunctionMetadata)
    (acc : World O * bool) (k : string) :
  Forall (λ md, __module__ (func md) = module md) functions →
  k ∉ get_full_name <$> functions →
  Cache.get k (cache (foldl Processor.process_step acc functions).1)
  = Cache.get k (cache acc.1) ∧
  FunctionRegistry._needs_generation
    (registry (foldl Processor.process_step acc functions).1) !! k
  = FunctionRegistry._needs_generation (registry acc.1) !! k.
Proof.
  revert acc. induction functions as [|md functions IH]; intros acc Hall Hk; [done |].
  apply Forall_cons in Hall as [Hmd Hall].
  rewrite fmap_cons in Hk. apply not_elem_of_cons in Hk as [Hne Hk].
  simpl. destruct (IH (Processor.process_step acc md) Hall Hk) as [-> ->].
  rewrite process_step_unfold. simpl.
  destruct (Processor.process_function md acc.1) as [w1 outcome] eqn:Hstep.
  by apply (process_function_other_names md acc.1 w1 outcome).
Qed.

Lemma process_steps_leave_records (sp : gmap string FunctionMetadata)
    (functions : list FunctionMetadata) :
  NoDup (get_full_name <$> functions) →
  Forall (λ md, (__module__ (func md) = module md ∧
                 sp !! get_full_name md = Some (declared_part md)) ∧
                (TestRunner.run_test (func md) ""
                   (TestRunner.extract_test_code (source md))).1 = false)
         functions →
  ∀ (acc : World O * bool) w',
    specs (registry acc.1) = sp →
    (∀ md, md ∈ functions →
       FunctionRegistry._needs_generation (registry acc.1) !! get_full_name md = None) →
    foldl Processor.process_step acc functions = (w', true) →
    ∀ md, md ∈ functions → up_to_date (cache w') md.
Proof.
  intros Hnodup Hall.
  induction Hall as [|md functions [[Hcons Hspec] Hharness] Hall IH];
    intros acc w' Hsp Hmemo Hrun md' Hin; [by inversion Hin |].
  rewrite fmap_cons in Hnodup. apply NoDup_cons in Hnodup as [Hfirst Hnodup].
  assert (Forall (λ md, __module__ (func md) = module md) functions) as Hall'
    by (eapply Forall_impl; [exact Hall | by intros ? [[] ?]]).
  simpl in Hrun.
  destruct (process_steps_success functions (Processor.process_step acc md) w'
              Hall' Hrun) as (Hflag & _).
  rewrite process_step_unfold in Hflag, Hrun. simpl in Hflag.
  apply andb_true_iff in Hflag as [_ Hok].
  destruct (Processor.process_function md acc.1) as [w1 outcome] eqn:Hstep.
  simpl in Hok, Hrun.
  destruct (process_function_frame md acc.1 w1 outcome Hstep) as (Hspecs & _).
  apply elem_of_cons in Hin as [-> | Hin].
  - assert (up_to_date (cache w1) md) as (entry & Hentry & Hrest).
    { apply (process_function_leaves_record md acc.1 w1 outcome); try done.
      + by rewrite Hsp.
      + apply Hmemo, list_elem_of_here.
      + by rewrite Hok. }
    exists entry. split; [| done].
    destruct (process_steps_other_names functions (w1, acc.2 && succeeded outcome)
                (get_full_name md) Hall' Hfirst) as [Hsame _].
    rewrite Hrun in Hsame. simpl in Hsame. by rewrite Hsame.
  - apply (IH Hnodup (w1, acc.2 && succeeded outcome) w'); try done.
    + simpl. by rewrite Hspecs.
    + intros md0 Hmd0. simpl.
      destruct (process_function_other_names md acc.1 w1 outcome (get_full_name md0)
                  Hcons Hstep) as [_ ->].
      * intros Heq. apply Hfirst. rewrite <- Heq. by apply list_elem_of_fmap_2.
      * by apply Hmemo, list_elem_of_further.
Qed.

Lemma in_module_prefix (module_name : string) (md : FunctionMetadata) :
  Processor.in_module module_name md →
  Py.startswith (get_full_name md) (module_name +:+ ".").
Proof.
  unfold Processor.in_module, get_full_name. intros [Heq | Hpre]%orb_True.
  - apply bool_decide_unpack in Heq as ->.
    rewrite <- string_app_assoc. apply startswith_app, startswith_refl.
  - by apply startswith_app.
Qed.

Lemma lookup_filter_prefix {V : Type} (prefix k : string) (m : gmap string V) :
  Py.startswith k prefix →
  filter (λ kv : string * V, Py.startswith kv.1 prefix) m !! k = m !! k.
Proof.
  intros Hk. destruct (m !! k) as [v|] eqn:Hv.
  - by apply map_lookup_filter_Some_2.
  - apply map_lookup_filter_None_2. by left.
Qed.

Lemma rejects_empty_declared (md md' : FunctionMetadata) :
  declared_part md = declared_part md' → rejects_empty md → rejects_empty md'.
Proof. unfold rejects_empty. intros [= Hf _ _ Hs _ _ _]. by rewrite Hf, Hs. Qed.

Lemma pass_specs (module_name : string) w w1 :
  import_module module_name w = Some w1 →
  specs (registry (Processor.process_module module_name w).1) = specs (registry w1).
Proof.
  intros Himport. unfold Processor.process_module. rewrite Himport.
  destruct (cache_load_frame module_name w1) as (Hspecs & _).
  destruct (filter _ _) as [|md functions]; [done |].
  unfold Processor.process_functions.
  pose proof (process_steps_preserve
                (λ w', specs (registry w') = specs (registry w1)) (λ _, True)
                (λ md wa wb outcome _ Hrun Hs,
                   eq_trans (proj1 (process_function_frame md wa wb outcome Hrun)) Hs)
                (md :: functions) (cache_load module_name w1, true)
                ltac:(by apply Forall_true) Hspecs) as Hloop.
  by destruct (foldl _ _ _).
Qed.

Lemma pass_leaves_usable_records (module_name : string) w w1 :
  invariant w →
  import_module module_name w = Some w1 →
  (∀ k md, FunctionRegistry.get k (registry w1) = Some md →
           Processor.in_module module_name md →
           FunctionRegistry._needs_generation (registry w) !! k = None ∧
           rejects_empty md) →
  (Processor.process_module module_name w).2 = true →
  ∀ k md,
    FunctionRegistry.get k (registry w1) = Some md →
    Processor.in_module module_name md →
    up_to_date (cache (Processor.process_module module_name w).1) md ∧
    ∃ records,
      files (Processor.process_module module_name w).1
        !! Cache.module_name_to_cache_file module_name = Some (Partition records) ∧
      records !! k = Cache.get k (cache (Processor.process_module module_name w).1).
Proof.
  intros Hw Himport Hfresh. unfold Processor.process_module. rewrite Himport.
  pose proof (invariant_cache_load module_name w1 (invariant_import _ _ _ Hw Himport))
    as (Hcons & _).
  destruct (import_module_frame _ _ _ Himport) as (_ & _ & _ & _ & _ & _ & _ & Hmemo1).
  destruct (cache_load_frame module_name w1) as (Hspecs2 & Hmemo2 & _).
  set (w2 := cache_load module_name w1) in *.
  set (functions := filter (λ md, Processor.in_module module_name md)
                           (FunctionRegistry.get_all (registry w2))).
  assert (∀ md, md ∈ functions →
            FunctionRegistry._registry (registry w2) !! get_full_name md = Some md ∧
            Processor.in_module module_name md) as Hlisted.
  { intros md [Hin Hmd]%list_elem_of_filter. split; [| done].
    apply get_all_registered in Hmd as [k Hk].
    by destruct (Hcons _ _ Hk) as (<- & _). }
  assert (∀ k md2, FunctionRegistry._registry (registry w2) !! k = Some md2 →
            ∃ md, FunctionRegistry._registry (registry w1) !! k = Some md ∧
                  declared_part md = declared_part md2) as Hback.
  { intros k md2 Hk2.
    assert (specs (registry w1) !! k = Some (declared_part md2)) as Hspec
      by (by rewrite <- Hspecs2, specs_lookup, Hk2).
    rewrite specs_lookup in Hspec.
    destruct (FunctionRegistry._registry (registry w1) !! k) as [md|]; [| done].
    exists md. split; [done |]. simpl in Hspec. congruence. }
  assert (∀ k md, FunctionRegistry._registry (registry w1) !! k = Some md →
            ∃ md2, FunctionRegistry._registry (registry w2) !! k = Some md2 ∧
                   declared_part md2 = declared_part md) as Hforth.
  { intros k md Hk.
    assert (specs (registry w2) !! k = Some (declared_part md)) as Hspec
      by (by rewrite Hspecs2, specs_lookup, Hk).
    rewrite specs_lookup in Hspec.
    destruct (FunctionRegistry._registry (registry w2) !! k) as [md2|]; [| done].
    exists md2. split; [done |]. simpl in Hspec. congruence. }
  destruct functions as [|md1 functions'] eqn:Hfunctions.
  { intros _ k md Hk Hin. destruct (Hforth k md Hk) as (md2 & Hk2 & Hdecl).
    assert (md2 ∈ functions) as Hmd; [| rewrite Hfunctions in Hmd; by inversion Hmd].
    apply list_elem_of_filter. split; [| by eapply registered_in_get_all].
    pose proof (f_equal module Hdecl) as Hm. simpl in Hm.
    unfold Processor.in_module in *. by rewrite Hm. }
  rewrite <- Hfunctions in *. unfold Processor.process_functions.
  destruct (foldl Processor.process_step (w2, true) functions) as [w3 success] eqn:Hrun.
  simpl. intros -> k md Hk Hin.
  destruct (Hforth k md Hk) as (md2 & Hk2 & Hdecl).
  pose proof (f_equal module Hdecl) as Hm. simpl in Hm.
  destruct (Hcons _ _ Hk2) as (-> & _).
  assert (Processor.in_module module_name md2) as Hin2
    by (unfold Processor.in_module in *; by rewrite Hm).
  assert (md2 ∈ functions) as Hmd2.
  { apply list_elem_of_filter. split; [done |]. by eapply registered_in_get_all. }
  split.
  - apply (up_to_date_declared _ md2); [done |].
    apply (process_steps_leave_records (specs (registry w2)) functions)
      with (acc := (w2, true)); try done.
    + by apply get_all_names_NoDup.
    + apply Forall_forall. intros md0 [Hk0 Hin0]%Hlisted.
      destruct (Hcons _ _ Hk0) as (_ & ? & _).
      destruct (Hback _ _ Hk0) as (md' & Hk' & Hdecl').
      split_and!; [done | by rewrite specs_lookup, Hk0 |].
      apply (rejects_empty_declared md'); [done |].
      apply (Hfresh (get_full_name md0)); [done |].
      pose proof (f_equal module Hdecl') as Hm'. simpl in Hm'.
      unfold Processor.in_module in *. by rewrite Hm'.
    + intros md0 [Hk0 Hin0]%Hlisted. simpl. rewrite Hmemo2, Hmemo1.
      destruct (Hback _ _ Hk0) as (md' & Hk' & Hdecl').
      apply (Hfresh (get_full_name md0) md'); [done |].
      pose proof (f_equal module Hdecl') as Hm'. simpl in Hm'.
      unfold Processor.in_module in *. by rewrite Hm'.
  - eexists. split; [apply lookup_insert_eq |].
    by apply lookup_filter_prefix, in_module_prefix.
Qed.

(** X21.  A pass that reports success, in a process that holds no memoized
    decision for the functions of the namespace, leaves a usable record for
    each of them, in memory and in the cache file of the module: a record
    with an implementation and, unless the function is frozen, with the hash
    of its specification.  The harness is taken to reject an empty
    implementation of each function. *)
Theorem successful_pass_leaves_usable_records (module_name : string) w w1 :
  reachable w →
  import_module module_name w = Some w1 →
  (∀ k md, FunctionRegistry.get k (registry w1) = Some md →
           Processor.in_module module_name md →
           FunctionRegistry._needs_generation (registry w) !! k = None ∧
           rejects_empty md) →
  (Processor.process_module module_name w).2 = true →
  ∀ k md,
    FunctionRegistry.get k (registry w1) = Some md →
    Processor.in_module module_name md →
    up_to_date (cache (Processor.process_module module_name w).1) md ∧
    ∃ records,
      files (Processor.process_module module_name w).1
        !! Cache.module_name_to_cache_file module_name = Some (Partition records) ∧
      records !! k = Cache.get k (cache (Processor.process_module module_name w).1).
Proof.
  intros Hreach. apply pass_leaves_usable_records. by apply reachable_invariant.
Qed.



End across_processes.

Lemma successful_pass_leaves_usable_records_witness :
  up_to_date (H := Scenario.runtime)
    (cache (Processor.process_module (H := Scenario.runtime)
              (H0 := Scenario.counting_oracle) "demo" Scenario.start).1)
    (declared "demo" Scenario.double).
Proof.
  refine (proj1 (successful_pass_leaves_usable_records (H := Scenario.runtime)
                   (H0 := Scenario.counting_oracle) "demo" Scenario.start
                   Scenario.imported _ _ _ _
                   "demo.double" (declared "demo" Scenario.double) _ _)).
  - apply reach_fresh. apply map_Forall_singleton, Forall_singleton. exact I.
  - vm_compute. reflexivity.
  - intros k md [Hold | (d & Hd & -> & ->)]%exec_module_lookup _.
    + simpl in Hold. by rewrite lookup_empty in Hold.
    + apply list_elem_of_singleton in Hd as ->.
      split; vm_compute; reflexivity.
  - vm_compute. reflexivity.
  - vm_compute. reflexivity.
  - vm_compute. exact I.
Defined.


(** ** Processing a package *)

Lemma dot_free_dotted (a b : string) : ¬ dot_free (a +:+ "." +:+ b).
Proof.
  induction a as [|c a IH]; [intros Hf; exact Hf |].
  rewrite string_app_cons. simpl. by intros [_ ?]%andb_True.
Qed.

Section package_properties.
Context `{PythonRuntime} {O : Type} `{SynthesisOracle O}.
Implicit Types w : World O.

(** The oracle calls of a pass are made for functions of its namespace. *)
Lemma pass_calls_in_namespace (module_name : string) w :
  invariant w →
  ∃ new, oracle_calls (Processor.process_module module_name w).1
         = oracle_calls w ++ new ∧
         Forall (λ c, Py.startswith (call_full_name c) (module_name +:+ ".")) new.
Proof.
  intros Hw. unfold Processor.process_module.
  destruct (import_module module_name w) as [w1|] eqn:Himport;
    [| exists []; by rewrite app_nil_r].
  pose proof (invariant_cache_load module_name w1 (invariant_import _ _ _ Hw Himport))
    as (Hcons & _).
  apply import_module_calls in Himport as Hcalls1.
  destruct (cache_load_frame module_name w1) as (_ & _ & _ & _ & _ & Hcalls2).
  set (w2 := cache_load module_name w1) in *.
  set (functions := filter (λ md, Processor.in_module module_name md)
                           (FunctionRegistry.get_all (registry w2))).
  assert (Forall (λ md, __module__ (func md) = module md ∧
                        Processor.in_module module_name md) functions) as Hall.
  { apply Forall_forall. intros md [Hin Hmd]%list_elem_of_filter.
    apply get_all_registered in Hmd as [k Hk].
    by destruct (Hcons _ _ Hk) as (_ & ? & _). }
  pose proof (process_steps_preserve
    (λ w', ∃ new, oracle_calls w' = oracle_calls w ++ new ∧
                  Forall (λ c, Py.startswith (call_full_name c) (module_name +:+ "."))
                         new)
    (λ md, __module__ (func md) = module md ∧ Processor.in_module module_name md))
    as Hloop.
  specialize (Hloop ltac:(
    intros md wa wb outcome [Hmd Hin] Hrun (new & Hcalls & Hnames);
    destruct (process_function_calls md wa wb outcome Hrun Hmd)
      as (new' & Hcalls' & Hnames' & _);
    exists (new ++ new'); split; [by rewrite Hcalls', Hcalls, app_assoc |];
    apply Forall_app; split; [done |];
    eapply Forall_impl; [exact Hnames' |];
    intros c ->; by apply in_module_prefix)
    functions (w2, true) Hall).
  destruct Hloop as (new & Hcalls & Hnames).
  { exists []. rewrite app_nil_r. simpl. by rewrite Hcalls2, Hcalls1. }
  fold functions. destruct functions as [|md functions'] eqn:Hfunctions.
  - exists []. rewrite app_nil_r. simpl. by rewrite Hcalls2, Hcalls1.
  - unfold Processor.process_functions.
    destruct (foldl Processor.process_step (w2, true) (md :: functions'))
      as [w3 success]. simpl in *. by exists new.
Qed.

(** X23.  [process_package] processes the modules below the package only.  Every
    oracle call it makes is for a function of one of the modules that
    [_find_modules] lists; for a function that the module of the package
    itself declares (in its [__init__.py]) it makes none. *)
Theorem package_pass_skips_package_module (package_name : string)
    (is_package : bool) (module_paths : list string) w :
  reachable w →
  ∃ new,
    oracle_calls (Processor.process_package package_name is_package module_paths w).1
    = oracle_calls w ++ new ∧
    Forall (λ c, ∃ module_path,
                   module_path ∈ module_paths ∧
                   Py.startswith (call_full_name c)
                     (package_name +:+ "." +:+ module_path +:+ ".")) new ∧
    ∀ n, dot_free n →
      Forall (λ c, call_full_name c ≠ package_name +:+ "." +:+ n) new.
Proof.
  intros Hw%reachable_invariant.
  assert (∀ paths (acc : World O * bool),
            invariant acc.1 →
            invariant (foldl (Processor.package_step package_name) acc paths).1 ∧
            ∃ new,
              oracle_calls (foldl (Processor.package_step package_name) acc paths).1
              = oracle_calls acc.1 ++ new ∧
              Forall (λ c, ∃ module_path,
                             module_path ∈ paths ∧
                             Py.startswith (call_full_name c)
                               (package_name +:+ "." +:+ module_path +:+ ".")) new)
    as Hloop.
  { induction paths as [|p paths IH]; intros acc Hacc.
    { split; [done |]. exists []. by rewrite app_nil_r. }
    simpl. unfold Processor.package_step at 2 4.
    destruct (pass_calls_in_namespace (package_name +:+ "." +:+ p) acc.1 Hacc)
      as (new1 & Hcalls1 & Hnames1).
    pose proof (invariant_process_module (package_name +:+ "." +:+ p) acc.1 Hacc)
      as Hinv1.
    destruct (Processor.process_module (package_name +:+ "." +:+ p) acc.1)
      as [w1 ok].
    destruct (IH (w1, acc.2 && ok) Hinv1) as (Hinv & new2 & Hcalls2 & Hnames2).
    split; [done |]. exists (new1 ++ new2). simpl in *.
    split; [by rewrite Hcalls2, Hcalls1, app_assoc |].
    apply Forall_app. split.
    - eapply Forall_impl; [exact Hnames1 |]. intros c Hc. exists p.
      split; [apply list_elem_of_here |]. by rewrite string_app_assoc in Hc.
    - eapply Forall_impl; [exact Hnames2 |]. intros c (p' & Hp' & Hc).
      exists p'. split; [by apply list_elem_of_further | done]. }
  assert (∃ new,
            oracle_calls
              (Processor.process_package package_name is_package module_paths w).1
            = oracle_calls w ++ new ∧
            Forall (λ c, ∃ module_path,
                           module_path ∈ module_paths ∧
                           Py.startswith (call_full_name c)
                             (package_name +:+ "." +:+ module_path +:+ ".")) new)
    as (new & Hcalls & Hnames).
  { unfold Processor.process_package.
    destruct (import_module package_name w) as [w1|] eqn:Himport;
      [| exists []; by rewrite app_nil_r].
    pose proof (import_module_calls _ _ _ Himport) as Hcalls1.
    destruct is_package; simpl; [| exists []; by rewrite app_nil_r].
    destruct (Hloop module_paths (w1, true) (invariant_import _ _ _ Hw Himport))
      as (_ & new & Hcalls & Hnames).
    exists new. simpl in Hcalls. by rewrite Hcalls, Hcalls1. }
  exists new. split_and!; [done | done |].
  intros n Hn. eapply Forall_impl; [exact Hnames |].
  intros c (p & _ & Hc) Heq. rewrite Heq in Hc.
  apply startswith_spec in Hc as [rest Hc].
  rewrite !string_app_assoc in Hc.
  apply (inj (String.append package_name)), (inj (String.append ".")) in Hc.
  rewrite Hc in Hn. by apply dot_free_dotted in Hn.
Qed.

End package_properties.

Lemma package_pass_skips_package_module_witness :
  ∃ new,
    oracle_calls (Processor.process_package (H := Scenario.runtime)
                    (H0 := Scenario.counting_oracle) "pkg" true ["mod"]
                    Scenario.start_package).1
    = oracle_calls Scenario.start_package ++ new ∧
    Forall (λ c, call_full_name c ≠ "pkg.double") new.
Proof.
  destruct (package_pass_skips_package_module (H := Scenario.runtime)
              (H0 := Scenario.counting_oracle) "pkg" true ["mod"]
              Scenario.start_package)
    as (new & Hcalls & _ & Hskipped).
  - apply reach_fresh. apply map_Forall_insert_2; [by apply Forall_singleton |].
    apply map_Forall_singleton. by apply Forall_singleton.
  - exists new. split; [exact Hcalls |]. by apply (Hskipped "double").
Defined.

(** ** One function among others *)

Section selective.
Context `{PythonRuntime} {O : Type} `{SynthesisOracle O}.
Implicit Types w : World O.

(** Processing a function leaves the stored implementations of the other
    names alone. *)
Lemma process_function_other_implementations (md : FunctionMetadata) w w'
    (outcome : Outcome) (k : string) :
  __module__ (func md) = module md →
  Processor.process_function md w = (w', outcome) →
  k ≠ get_full_name md →
  FunctionRegistry._implementations (registry w') !! k
  = FunctionRegistry._implementations (registry w) !! k.
Proof.
  intros Hcons Hrun Hk. revert Hrun. unfold Processor.process_function.
  destruct (FunctionRegistry.needs_generation _ _ (registry w)) as [needs r] eqn:Hdecision.
  apply needs_generation_memoizes in Hdecision as (_ & _ & Himpls & _).
  destruct needs; cbn [negb].
  - unfold Processor._generate_and_test.
    destruct (Processor.attempts _ _ _ _ _ _ _ _ _) as [w1 [ok err]] eqn:Hloop.
    pose proof (attempts_registry _ _ _ _ _ _ _ _ _ _ _ Hloop) as (Hregistry & _).
    assert (FunctionRegistry._implementations (registry w1) !! k
            = FunctionRegistry._implementations (registry w) !! k) as Hsame.
    { rewrite <- Himpls. destruct Hregistry as [-> | [impl ->]]; [done |].
      simpl. rewrite Hcons. by rewrite lookup_insert_ne. }
    destruct ok;
      [destruct (FunctionRegistry.get_implementation _ (registry w1)) as [[|a s]|] |];
      by intros [= <- <-].
  - destruct (Py.truthy_dict _); intros [= <- <-]; simpl; rewrite ?Himpls; [| done].
    by rewrite lookup_insert_ne.
Qed.

(** In the loop over the functions of a namespace, a function with a usable
    record and without a pending decision causes no oracle call, whatever
    happens to the functions around it, and is given the implementation of
    its record. *)
Lemma process_steps_spare_up_to_date (sp : gmap string FunctionMetadata)
    (md0 : FunctionMetadata) (functions : list FunctionMetadata) :
  NoDup (get_full_name <$> functions) →
  Forall (λ md, __module__ (func md) = module md ∧
                sp !! get_full_name md = Some (declared_part md)) functions →
  sp !! get_full_name md0 = Some (declared_part md0) →
  ∀ acc : World O * bool,
    specs (registry acc.1) = sp →
    FunctionRegistry._needs_generation (registry acc.1) !! get_full_name md0
      ≠ Some true →
    up_to_date (cache acc.1) md0 →
    ∃ new,
      oracle_calls (foldl Processor.process_step acc functions).1
      = oracle_calls acc.1 ++ new ∧
      Forall (λ c, call_full_name c ≠ get_full_name md0) new ∧
      (get_full_name md0 ∈ get_full_name <$> functions →
       FunctionRegistry._implementations
         (registry (foldl Processor.process_step acc functions).1) !! get_full_name md0
       = Some (cached_implementation (cache acc.1) (get_full_name md0))).
Proof.
  intros Hnodup Hall Hmd0.
  induction Hall as [|md functions [Hcons Hspec] Hall IH];
    intros acc Hsp Hmemo Hrecord.
  { exists []. rewrite app_nil_r. split_and!; try done. by intros ?%elem_of_nil. }
  rewrite fmap_cons in Hnodup. apply NoDup_cons in Hnodup as [Hfirst Hnodup].
  assert (Forall (λ md, __module__ (func md) = module md) functions) as Hall'
    by (eapply Forall_impl; [exact Hall | by intros ? []]).
  simpl. rewrite process_step_unfold.
  destruct (Processor.process_function md acc.1) as [w1 outcome] eqn:Hstep.
  simpl.
  destruct (process_function_frame md acc.1 w1 outcome Hstep) as (Hspecs & _).
  destruct (decide (get_full_name md = get_full_name md0)) as [Heq | Hne].
  - assert (declared_part md = declared_part md0) as Hdecl by congruence.
    destruct (process_function_up_to_date md acc.1 w1 outcome)
      as (_ & Hcalls & _ & Hcache & _ & _ & _ & Himpls); try done.
    { by rewrite Hsp. }
    { by rewrite Heq. }
    { by apply (up_to_date_declared _ md0). }
    destruct (process_steps_calls (get_full_name md0) functions
                (w1, acc.2 && succeeded outcome) Hall' Hnodup) as (new & Hnew & Hcount).
    rewrite decide_False in Hcount by (by rewrite <- Heq).
    exists new. simpl in Hnew. split_and!.
    + by rewrite Hnew, Hcalls.
    + apply Forall_forall. intros c Hc Hname.
      assert (c ∈ filter (λ c, call_full_name c = get_full_name md0) new) as Hin
        by (by apply list_elem_of_filter).
      destruct (filter _ new); [by inversion Hin | simpl in Hcount; lia].
    + intros _.
      assert (∀ fs (a : World O * bool),
                Forall (λ md, __module__ (func md) = module md) fs →
                get_full_name md0 ∉ get_full_name <$> fs →
                FunctionRegistry._implementations
                  (registry (foldl Processor.process_step a fs).1) !! get_full_name md0
                = FunctionRegistry._implementations (registry a.1) !! get_full_name md0)
        as Hkeep.
      { induction fs as [|md' fs IHfs]; intros a Hfs Hout; [done |].
        apply Forall_cons in Hfs as [Hmd' Hfs].
        rewrite fmap_cons in Hout. apply not_elem_of_cons in Hout as [Hne' Hout].
        simpl. rewrite (IHfs _ Hfs Hout), process_step_unfold. simpl.
        destruct (Processor.process_function md' a.1) as [w' outcome'] eqn:Hstep'.
        by apply (process_function_other_implementations md' a.1 w' outcome'). }
      rewrite Hkeep; [| done | by rewrite <- Heq]. simpl.
      by rewrite Himpls, Heq, lookup_insert_eq.
  - destruct (process_function_calls md acc.1 w1 outcome Hstep Hcons)
      as (new1 & Hcalls1 & Hnames1 & _).
    destruct (process_function_other_names md acc.1 w1 outcome (get_full_name md0)
                Hcons Hstep) as [Hcache Hmemo1]; [done |].
    destruct (IH Hnodup (w1, acc.2 && succeeded outcome))
      as (new2 & Hcalls2 & Hnames2 & Himpl); simpl.
    + by rewrite Hspecs.
    + by rewrite Hmemo1.
    + destruct Hrecord as (entry & Hentry & Hrest). exists entry.
      by rewrite Hcache.
    + exists (new1 ++ new2). simpl in *. split_and!.
      * by rewrite Hcalls2, Hcalls1, app_assoc.
      * apply Forall_app. split; [| done].
        eapply Forall_impl; [exact Hnames1 |]. intros c -> Heq. by apply Hne.
      * intros [Heq | Hin]%elem_of_cons; [by destruct Hne |].
        rewrite (Himpl Hin). unfold cached_implementation. by rewrite Hcache.
Qed.

Lemma process_steps_keep_usable_record (sp : gmap string FunctionMetadata)
    (md0 : FunctionMetadata) (functions : list FunctionMetadata) :
  Forall (λ md, __module__ (func md) = module md ∧
                sp !! get_full_name md = Some (declared_part md)) functions →
  sp !! get_full_name md0 = Some (declared_part md0) →
  ∀ acc : World O * bool,
    specs (registry acc.1) = sp →
    FunctionRegistry._needs_generation (registry acc.1) !! get_full_name md0
      ≠ Some true →
    up_to_date (cache acc.1) md0 →
    Cache.get (get_full_name md0) (cache (foldl Processor.process_step acc functions).1)
    = Cache.get (get_full_name md0) (cache acc.1).
Proof.
  intros Hall Hmd0.
  induction Hall as [|md functions [Hcons Hspec] Hall IH];
    intros acc Hsp Hmemo Hrecord; [done |].
  simpl. rewrite process_step_unfold.
  destruct (Processor.process_function md acc.1) as [w1 outcome] eqn:Hstep.
  simpl.
  destruct (process_function_frame md acc.1 w1 outcome Hstep) as (Hspecs & _).
  destruct (decide (get_full_name md = get_full_name md0)) as [Heq | Hne].
  - assert (declared_part md = declared_part md0) as Hdecl by congruence.
    destruct (process_function_up_to_date md acc.1 w1 outcome)
      as (_ & _ & _ & Hcache & _ & _ & Hpending & _); try done.
    { by rewrite Hsp. }
    { by rewrite Heq. }
    { by apply (up_to_date_declared _ md0). }
    rewrite (IH (w1, acc.2 && succeeded outcome)); simpl.
    + by rewrite Hcache.
    + by rewrite Hspecs.
    + intros Hp. by apply Hmemo, Hpending.
    + by rewrite Hcache.
  - destruct (process_function_other_names md acc.1 w1 outcome (get_full_name md0)
                Hcons Hstep) as [Hcache Hmemo1]; [done |].
    rewrite (IH (w1, acc.2 && succeeded outcome)); simpl.
    + done.
    + by rewrite Hspecs.
    + by rewrite Hmemo1.
    + destruct Hrecord as (entry & Hentry & Hrest). exists entry. by rewrite Hcache.
Qed.


(** X24.  A function whose cache record is usable, and for which the process holds
    no decision to generate, is not regenerated by a pass over its namespace,
    whatever the pass does for the other functions: no oracle call is made
    for it and its record stays as the load left it.  When the pass reports
    success, the function resolves to the implementation of its record. *)
Theorem unchanged_function_is_not_regenerated (module_name : string) w w1
    (k : string) (md : FunctionMetadata) :
  reachable w →
  import_module module_name w = Some w1 →
  FunctionRegistry.get k (registry w1) = Some md →
  Processor.in_module module_name md →
  FunctionRegistry._needs_generation (registry w) !! k ≠ Some true →
  up_to_date (cache (cache_load module_name w1)) md →
  (∃ new,
     oracle_calls (Processor.process_module module_name w).1 = oracle_calls w ++ new ∧
     Forall (λ c, call_full_name c ≠ k) new) ∧
  Cache.get k (cache (Processor.process_module module_name w).1)
  = Cache.get k (cache (cache_load module_name w1)) ∧
  ((Processor.process_module module_name w).2 = true →
   FunctionRegistry.get_implementation k
     (registry (Processor.process_module module_name w).1)
   = Some (cached_implementation (cache (cache_load module_name w1)) k)).
Proof.
  intros Hw%reachable_invariant Himport Hk Hin Hmemo Hrecord.
  pose proof (invariant_cache_load module_name w1 (invariant_import _ _ _ Hw Himport))
    as (Hcons & _).
  destruct (import_module_frame _ _ _ Himport)
    as (_ & _ & _ & Hcalls1 & _ & _ & _ & Hmemo1).
  destruct (cache_load_frame module_name w1)
    as (Hspecs2 & Hmemo2 & _ & _ & _ & Hcalls2).
  unfold Processor.process_module. rewrite Himport.
  set (w2 := cache_load module_name w1) in *.
  unfold FunctionRegistry.get in Hk.
  assert (specs (registry w2) !! k = Some (declared_part md)) as Hspec
    by (by rewrite Hspecs2, specs_lookup, Hk).
  pose proof Hspec as Hspec2. rewrite specs_lookup in Hspec2.
  destruct (FunctionRegistry._registry (registry w2) !! k) as [md2|] eqn:Hk2; [| done].
  simpl in Hspec2. assert (declared_part md2 = declared_part md) as Hdecl by congruence.
  pose proof (f_equal module Hdecl) as Hm. simpl in Hm.
  pose proof (f_equal name Hdecl) as Hn. simpl in Hn.
  destruct (Hcons _ _ Hk2) as (Hname & _).
  assert (k = get_full_name md) as ->
    by (rewrite Hname; unfold get_full_name; by rewrite Hm, Hn).
  set (functions := filter (λ md, Processor.in_module module_name md)
                           (FunctionRegistry.get_all (registry w2))).
  assert (md2 ∈ functions) as Hlisted.
  { apply list_elem_of_filter. split; [| by eapply registered_in_get_all].
    unfold Processor.in_module in *. by rewrite Hm. }
  assert (Forall (λ md, __module__ (func md) = module md ∧
                        specs (registry w2) !! get_full_name md = Some (declared_part md))
                 functions) as Hall.
  { apply Forall_forall. intros md0 [_ Hmd0]%list_elem_of_filter.
    apply get_all_registered in Hmd0 as [k0 Hk0].
    destruct (Hcons _ _ Hk0) as (-> & ? & _). split; [done |].
    by rewrite specs_lookup, Hk0. }
  assert (FunctionRegistry._needs_generation (registry w2) !! get_full_name md
          ≠ Some true) as Hmemo3 by (by rewrite Hmemo2, Hmemo1).
  destruct (process_steps_spare_up_to_date (specs (registry w2)) md functions)
    with (acc := (w2, true)) as (new & Hcalls & Hnames & Himpl); try done.
  { by apply get_all_names_NoDup. }
  pose proof (process_steps_keep_usable_record (specs (registry w2)) md functions
                Hall Hspec (w2, true) eq_refl Hmemo3 Hrecord) as Hkept.
  specialize (Himpl ltac:(rewrite Hname; by apply list_elem_of_fmap_2)).
  fold functions. destruct functions as [|md1 functions'] eqn:Hfunctions;
    [by inversion Hlisted |].
  rewrite <- Hfunctions in *. unfold Processor.process_functions.
  destruct (foldl Processor.process_step (w2, true) functions) as [w3 success].
  simpl in *. split_and!.
  - exists new. split; [by rewrite Hcalls, Hcalls2, Hcalls1 | done].
  - done.
  - intros _. unfold FunctionRegistry.get_implementation. by rewrite Himpl.
Qed.

End selective.

Lemma unchanged_function_is_not_regenerated_witness :
  (∃ new,
     oracle_calls (Processor.process_module (H := Scenario.runtime)
                     (H0 := Scenario.counting_oracle) "demo" Scenario.start_extended).1
     = oracle_calls Scenario.start_extended ++ new ∧
     Forall (λ c, call_full_name c ≠ "demo.double") new) ∧
  FunctionRegistry.get_implementation "demo.double"
    (registry (Processor.process_module (H := Scenario.runtime)
                 (H0 := Scenario.counting_oracle) "demo" Scenario.start_extended).1)
  = Some "return n * 2".
Proof.
  destruct (unchanged_function_is_not_regenerated (H := Scenario.runtime)
              (H0 := Scenario.counting_oracle) "demo" Scenario.start_extended
              (set_registry
                 (exec_module "demo" [Scenario.double; Scenario.triple]
                    FunctionRegistry.empty)
                 (set_sys_modules {[ "demo" ]} Scenario.start_extended))
              "demo.double" (declared "demo" Scenario.double))
    as ((new & Hcalls & Hnames) & _ & Himpl).
  - apply reach_fresh. apply map_Forall_singleton.
    apply Forall_cons. split; [exact I | by apply Forall_singleton].
  - vm_compute. reflexivity.
  - vm_compute. reflexivity.
  - vm_compute. exact I.
  - vm_compute. discriminate.
  - exists {[ "hash" := "md5(double the input|(fn, n))";
              "implementation" := "return n * 2" ]}.
    split_and!.
    + vm_compute. reflexivity.
    + intros Hempty. apply (f_equal (λ e : gmap string string, e !! "hash")) in Hempty.
      vm_compute in Hempty. discriminate Hempty.
    + right. vm_compute. reflexivity.
  - split.
    + exists new. split; [exact Hcalls | exact Hnames].
    + etrans; [apply Himpl; vm_compute; reflexivity | vm_compute; reflexivity].
Defined.

Example triple_is_generated_beside_double :
  call_full_name
    <$> oracle_calls (Processor.process_module (H := Scenario.runtime)
                        (H0 := Scenario.counting_oracle) "demo"
                        Scenario.start_extended).1
  = ["demo.triple"].
Proof. vm_compute. reflexivity. Qed.

(** ** A frozen function without a record *)

Section frozen_without_record.
Context `{PythonRuntime} {O : Type} `{SynthesisOracle O}.
Implicit Types w : World O.

Lemma process_steps_keep_failure (functions : list FunctionMetadata) w :
  (foldl Processor.process_step (w, false) functions).2 = false.
Proof.
  revert w. induction functions as [|md functions IH]; intros w; [done |].
  simpl. rewrite process_step_unfold. apply IH.
Qed.

Lemma process_steps_other_implementations (functions : list FunctionMetadata)
    (acc : World O * bool) (k : string) :
  Forall (λ md, __module__ (func md) = module md) functions →
  k ∉ get_full_name <$> functions →
  FunctionRegistry._implementations
    (registry (foldl Processor.process_step acc functions).1) !! k
  = FunctionRegistry._implementations (registry acc.1) !! k.
Proof.
  revert acc. induction functions as [|md functions IH]; intros acc Hall Hk; [done |].
  apply Forall_cons in Hall as [Hmd Hall].
  rewrite fmap_cons in Hk. apply not_elem_of_cons in Hk as [Hne Hk].
  simpl. rewrite (IH _ Hall Hk), process_step_unfold. simpl.
  destruct (Processor.process_function md acc.1) as [w1 outcome] eqn:Hstep.
  by apply (process_function_other_implementations md acc.1 w1 outcome).
Qed.

Lemma process_function_frozen_without_record (md md' : FunctionMetadata) w w'
    (outcome : Outcome) :
  memo_sound (registry w) →
  FunctionRegistry._registry (registry w) !! get_full_name md = Some md' →
  frozen md' = true →
  Py.truthy_dict (Cache.get (get_full_name md) (cache w)) = false →
  Processor.process_function md w = (w', outcome) →
  outcome = NoCachedImplementation ∧ cache w' = cache w ∧
  FunctionRegistry._implementations (registry w')
  = FunctionRegistry._implementations (registry w).
Proof.
  intros Hsound Hmd' Hfrozen Hrecord.
  pose proof (frozen_needs_no_generation (registry w) (get_full_name md) md'
                (Processor.entry_hash (Cache.get (get_full_name md) (cache w)))
                Hsound Hmd' Hfrozen) as Hdecision.
  unfold Processor.process_function.
  destruct (FunctionRegistry.needs_generation _ _ (registry w)) as [needs r] eqn:Hcall.
  simpl in Hdecision. subst needs.
  apply needs_generation_memoizes in Hcall as (_ & _ & Himpls & _).
  cbn [negb]. rewrite Hrecord. by intros [= <- <-].
Qed.

Lemma process_steps_frozen_without_record (sp : gmap string FunctionMetadata)
    (md0 : FunctionMetadata) (functions : list FunctionMetadata) :
  NoDup (get_full_name <$> functions) →
  Forall (λ md, __module__ (func md) = module md) functions →
  get_full_name md0 ∈ get_full_name <$> functions →
  sp !! get_full_name md0 = Some (declared_part md0) →
  frozen md0 = true →
  ∀ acc : World O * bool,
    specs (registry acc.1) = sp →
    memo_sound (registry acc.1) →
    Py.truthy_dict (Cache.get (get_full_name md0) (cache acc.1)) = false →
    (foldl Processor.process_step acc functions).2 = false ∧
    Cache.get (get_full_name md0) (cache (foldl Processor.process_step acc functions).1)
    = Cache.get (get_full_name md0) (cache acc.1) ∧
    FunctionRegistry._implementations
      (registry (foldl Processor.process_step acc functions).1) !! get_full_name md0
    = FunctionRegistry._implementations (registry acc.1) !! get_full_name md0.
Proof.
  intros Hnodup Hall Hin Hmd0 Hfrozen.
  induction Hall as [|md functions Hcons Hall IH]; intros acc Hsp Hsound Hrecord;
    [by apply elem_of_nil in Hin |].
  rewrite fmap_cons in Hnodup, Hin. apply NoDup_cons in Hnodup as [Hfirst Hnodup].
  simpl. rewrite process_step_unfold.
  destruct (Processor.process_function md acc.1) as [w1 outcome] eqn:Hstep.
  simpl.
  destruct (process_function_frame md acc.1 w1 outcome Hstep)
    as (Hspecs & _ & _ & Hsound1).
  destruct (decide (get_full_name md = get_full_name md0)) as [Heq | Hne].
  - assert (∃ md', FunctionRegistry._registry (registry acc.1) !! get_full_name md
                   = Some md' ∧ frozen md' = true) as (md' & Hmd' & Hfrozen').
    { rewrite <- Hsp, specs_lookup in Hmd0. rewrite Heq.
      destruct (FunctionRegistry._registry (registry acc.1) !! get_full_name md0)
        as [md'|]; simpl in Hmd0; [| done].
      exists md'. split; [done |]. injection Hmd0 as _ _ _ _ _ _ ?.
      congruence. }
    destruct (process_function_frozen_without_record md md' acc.1 w1 outcome)
      as (-> & Hcache & Himpls); try done.
    { by rewrite Heq. }
    rewrite andb_false_r. split; [apply process_steps_keep_failure |].
    rewrite <- Heq in *.
    destruct (process_steps_other_names functions (w1, false) (get_full_name md)
                Hall Hfirst) as [-> _].
    simpl. rewrite Hcache. split; [done |]. rewrite <- Himpls.
    by rewrite (process_steps_other_implementations functions (w1, false)).
  - apply elem_of_cons in Hin as [Hin | Hin]; [by destruct Hne |].
    destruct (process_function_other_names md acc.1 w1 outcome (get_full_name md0)
                Hcons Hstep) as [Hcache _]; [done |].
    pose proof (process_function_other_implementations md acc.1 w1 outcome
                  (get_full_name md0) Hcons Hstep ltac:(done)) as Himpls.
    destruct (IH Hnodup Hin (w1, acc.2 && succeeded outcome))
      as (Hflag & Hcache' & Himpls'); simpl.
    + by rewrite Hspecs.
    + by apply Hsound1.
    + by rewrite Hcache.
    + simpl in *. by rewrite Hflag, Hcache', Himpls', Hcache, Himpls.
Qed.

(** X25.  A frozen function for which the cache holds no record cannot get an
    implementation from a pass: the pass calls no oracle for it, stores
    nothing for it and reports failure. *)
Theorem frozen_without_record_fails_pass (module_name : string) w w1
    (k : string) (md : FunctionMetadata) :
  reachable w →
  import_module module_name w = Some w1 →
  FunctionRegistry.get k (registry w1) = Some md →
  Processor.in_module module_name md →
  frozen md = true →
  Py.truthy_dict (Cache.get k (cache (cache_load module_name w1))) = false →
  (Processor.process_module module_name w).2 = false ∧
  (∃ new,
     oracle_calls (Processor.process_module module_name w).1 = oracle_calls w ++ new ∧
     Forall (λ c, call_full_name c ≠ k) new) ∧
  Cache.get k (cache (Processor.process_module module_name w).1)
  = Cache.get k (cache (cache_load module_name w1)) ∧
  FunctionRegistry._implementations
    (registry (Processor.process_module module_name w).1) !! k
  = FunctionRegistry._implementations (registry (cache_load module_name w1)) !! k.
Proof.
  intros Hw%reachable_invariant Himport Hk Hin Hfrozen Hrecord.
  pose proof (invariant_cache_load module_name w1 (invariant_import _ _ _ Hw Himport))
    as Hw2.
  pose proof Hw2 as (Hcons & Hsound & _).
  destruct (cache_load_frame module_name w1) as (Hspecs2 & _).
  unfold FunctionRegistry.get in Hk.
  assert (specs (registry (cache_load module_name w1)) !! k = Some (declared_part md))
    as Hspec by (by rewrite Hspecs2, specs_lookup, Hk).
  pose proof Hspec as Hspec2. rewrite specs_lookup in Hspec2.
  destruct (FunctionRegistry._registry (registry (cache_load module_name w1)) !! k)
    as [md2|] eqn:Hk2; [| done].
  simpl in Hspec2. assert (declared_part md2 = declared_part md) as Hdecl by congruence.
  pose proof (f_equal module Hdecl) as Hm. simpl in Hm.
  pose proof (f_equal name Hdecl) as Hn. simpl in Hn.
  pose proof (f_equal frozen Hdecl) as Hf. simpl in Hf.
  destruct (Hcons _ _ Hk2) as (Hname & _).
  assert (k = get_full_name md) as ->
    by (rewrite Hname; unfold get_full_name; by rewrite Hm, Hn).
  split_and!.
  2: { apply process_module_spares_frozen; [done |].
       pose proof (pass_specs module_name w w1 Himport) as Hspecs.
       assert (specs (registry (Processor.process_module module_name w).1)
                 !! get_full_name md = Some (declared_part md)) as Hafter
         by (by rewrite Hspecs, specs_lookup, Hk).
       rewrite specs_lookup in Hafter.
       destruct (FunctionRegistry._registry
                   (registry (Processor.process_module module_name w).1)
                   !! get_full_name md) as [md3|]; simpl in Hafter; [| done].
       exists md3. split; [done |].
       injection Hafter as _ _ _ _ _ _ ?. congruence. }
  all: unfold Processor.process_module; rewrite Himport;
    set (w2 := cache_load module_name w1) in *;
    set (functions := filter (λ md, Processor.in_module module_name md)
                             (FunctionRegistry.get_all (registry w2)));
    assert (md2 ∈ functions) as Hlisted
      by (apply list_elem_of_filter; split;
          [unfold Processor.in_module in *; by rewrite Hm
          | by eapply registered_in_get_all]);
    destruct (process_steps_frozen_without_record (specs (registry w2)) md functions)
      with (acc := (w2, true)) as (Hflag & Hcache & Himpls); try done;
    [by apply get_all_names_NoDup
    | apply Forall_forall; intros md0 [_ Hmd0]%list_elem_of_filter;
      apply get_all_registered in Hmd0 as [k0 Hk0];
      by destruct (Hcons _ _ Hk0) as (_ & ? & _)
    | rewrite Hname; by apply list_elem_of_fmap_2
    | ];
    destruct functions as [|md1 functions'] eqn:Hfunctions;
    [by inversion Hlisted |];
    rewrite <- Hfunctions in *; unfold Processor.process_functions;
    destruct (foldl Processor.process_step (w2, true) functions) as [w3 success];
    simpl in *; done.
Qed.

End frozen_without_record.

Lemma frozen_without_record_fails_pass_witness :
  (Processor.process_module (H := Scenario.runtime) (H0 := Scenario.counting_oracle)
     "demo" Scenario.start_frozen_new).2 = false.
Proof.
  refine (proj1 (frozen_without_record_fails_pass (H := Scenario.runtime)
                   (H0 := Scenario.counting_oracle) "demo" Scenario.start_frozen_new
                   (set_registry
                      (exec_module "demo" [Scenario.double_frozen]
                         FunctionRegistry.empty)
                      (set_sys_modules {[ "demo" ]} Scenario.start_frozen_new))
                   "demo.double" (declared "demo" Scenario.double_frozen)
                   _ _ _ _ _ _)).
  - apply reach_fresh. apply map_Forall_singleton, Forall_singleton. exact I.
  - vm_compute. reflexivity.
  - vm_compute. reflexivity.
  - vm_compute. exact I.
  - reflexivity.
  - vm_compute. reflexivity.
Defined.

(** ** An edit of the tests *)

Section edited_tests.
Context `{PythonRuntime} {O : Type} `{SynthesisOracle O}.
Implicit Types w : World O.

Lemma up_to_date_same_specification (c : Cache.state) (module_name : string)
    (d d' : Declaration) :
  same_specification d d' →
  up_to_date c (declared module_name d) → up_to_date c (declared module_name d').
Proof.
  intros (Hn & Hdoc & Hsig & Hfrz) (entry & Hentry & Hne & Hfresh).
  exists entry. unfold get_full_name in *. simpl in *.
  by rewrite <- Hn, <- Hdoc, <- Hsig, <- Hfrz.
Qed.

(** X26.  The hash of a specification does not cover the body of the function,
    which holds its tests.  When the source of an imported module is edited
    so that only bodies change, and the functions had usable cache records,
    the reload that follows calls no oracle and keeps the cached
    implementations: they are not generated again and not verified against
    the new tests. *)
Theorem edited_tests_do_not_regenerate (module_name : string)
    (decls decls' : list Declaration) w :
  reachable w →
  module_name ∈ sys_modules w →
  well_named decls' →
  Forall2 same_specification decls decls' →
  (∀ d, d ∈ decls →
     up_to_date (cache (cache_load module_name w)) (declared module_name d)) →
  let edited :=
    set_module_sources (<[module_name := decls']> (module_sources w)) w in
  oracle_calls (Processor._reload_module module_name edited) = oracle_calls w ∧
  oracle (Processor._reload_module module_name edited) = oracle w ∧
  ∀ d', d' ∈ decls' →
    FunctionRegistry.get_implementation (module_name +:+ "." +:+ decl_name d')
      (registry (Processor._reload_module module_name edited))
    = Some (cached_implementation (cache (cache_load module_name w))
              (module_name +:+ "." +:+ decl_name d')).
Proof.
  intros Hreach Hmod Hnamed Hsame Hrecords edited.
  assert (cache (cache_load module_name edited) = cache (cache_load module_name w))
    as Hcache by (by apply cache_load_cache).
  destruct (reload_over_usable_records module_name decls' edited)
    as (Hcalls & Horacle & Himpls).
  - apply reachable_invariant. by apply reach_edit.
  - done.
  - apply lookup_insert_eq.
  - intros d' Hd'. rewrite Hcache.
    apply list_elem_of_lookup in Hd' as [i Hi].
    destruct (Forall2_lookup_r _ _ _ _ _ Hsame Hi) as (d & Hd & Hspec).
    apply (up_to_date_same_specification _ _ d); [done |].
    apply Hrecords. by eapply list_elem_of_lookup_2.
  - split_and!; [done | done |]. intros d' Hd'. rewrite <- Hcache. by apply Himpls.
Qed.

End edited_tests.

Lemma edited_tests_do_not_regenerate_witness :
  let processed :=
    (Processor.process_module (H := Scenario.runtime) (H0 := Scenario.counting_oracle)
       "demo" Scenario.start).1 in
  let edited :=
    set_module_sources
      (<[ "demo" := [Scenario.double_retested] ]> (module_sources processed))
      processed in
  oracle_calls (Processor._reload_module (H := Scenario.runtime)
                  (H0 := Scenario.counting_oracle) "demo" edited)
  = oracle_calls processed.
Proof.
  intros processed edited.
  refine (proj1 (edited_tests_do_not_regenerate (H := Scenario.runtime)
                   (H0 := Scenario.counting_oracle) "demo" [Scenario.double]
                   [Scenario.double_retested] processed _ _ _ _ _)).
  - apply reach_process, reach_fresh.
    apply map_Forall_singleton, Forall_singleton. exact I.
  - apply (bool_decide_unpack ("demo" ∈ sys_modules processed)). vm_compute. exact I.
  - apply Forall_singleton. exact I.
  - constructor; [| constructor]. by split_and!.
  - intros d ->%list_elem_of_singleton.
    exists {[ "hash" := "md5(double the input|(fn, n))";
              "implementation" := "return n * 2" ]}.
    split_and!.
    + vm_compute. reflexivity.
    + intros Hempty. apply (f_equal (λ e : gmap string string, e !! "hash")) in Hempty.
      vm_compute in Hempty. discriminate Hempty.
    + right. vm_compute. reflexivity.
Defined.
